(** * IAC recommendation dashboard: filter / rank / paginate / chart

    A shallow embedding of the logic of [src/App.tsx] (filter screen and
    table) and [src/DataVisualizer.tsx] (chart screen), together with the
    fragment of the JavaScript runtime those two files rely on
    ([parseFloat], unary [+], [Array.prototype.sort], [slice], object
    spread, [URLSearchParams]).

    Conventions of the embedding.
    - A JS string is the list of its UTF-16 code units ([jsstring]), so
      [.length] and [.slice] count what the runtime counts.
    - A JS number is [NaN], an infinity, or a finite value kept as an exact
      rational: parsing, comparison, sum, difference, product, quotient,
      ceiling and truncation follow ECMA-262 on exact values.  Binary64
      rounding, overflow to infinity and the sign of zero are not
      modelled.  The exact value is the value of the runtime on whole
      numbers up to 2^53 in size and on sums, differences and products of
      such numbers that stay in that range; a statement that depends on
      the value of a number beyond that (a dollar amount above 2^53, a
      fraction such as 0.1 that is summed or divided) carries the range
      as a hypothesis.
    - React state is an explicit record; an event handler is a function from
      the state of the render that created it to the next state.  A network
      call is a parameter: the response the backend gives to the request. *)

From Stdlib Require Import Bool Ascii String List NArith ZArith QArith Qround.
From Stdlib Require Import Lia Lqa Permutation Sorted.
Import ListNotations.

(* ================================================================= *)
(** ** The JavaScript fragment *)
(* ================================================================= *)

Module JS.

Local Open Scope N_scope.

(** *** Strings *)

Definition jsstring := list N.

(** A source literal (ASCII only) as a sequence of code units. *)
Definition lit (s : string) : jsstring :=
  map N_of_ascii (list_ascii_of_string s).

(** [a === b] on strings. *)
Fixpoint jsstring_eqb (a b : jsstring) : bool :=
  match a, b with
  | [], [] => true
  | x :: a', y :: b' => (x =? y) && jsstring_eqb a' b'
  | _, _ => false
  end.

(** [!s] on a string: only the empty string is falsy. *)
Definition isEmpty (s : jsstring) : bool :=
  match s with [] => true | _ => false end.

(** WhiteSpace and LineTerminator code points of ECMA-262, the set removed
    by [String.prototype.trim] and skipped by [parseFloat] and [Number]. *)
Definition isWhite (c : N) : bool :=
  ((9 <=? c) && (c <=? 13)) || (c =? 32) || (c =? 160) || (c =? 5760)
  || ((8192 <=? c) && (c <=? 8202)) || (c =? 8232) || (c =? 8233)
  || (c =? 8239) || (c =? 8287) || (c =? 12288) || (c =? 65279).

Fixpoint trimStart (s : jsstring) : jsstring :=
  match s with
  | c :: s' => if isWhite c then trimStart s' else s
  | [] => []
  end.

Definition trimEnd (s : jsstring) : jsstring := rev (trimStart (rev s)).

Definition trim (s : jsstring) : jsstring := trimEnd (trimStart s).

(** [s.replace(/[...]/g, "")]: delete every code unit of a character class. *)
Definition removeAll (cls : N -> bool) (s : jsstring) : jsstring :=
  filter (fun c => negb (cls c)) s.

(** *** Numbers *)

Inductive number : Type :=
| NaN
| PInf
| NInf
| Fin (q : Q).

Definition ofZ (z : Z) : number := Fin (inject_Z z).
Definition ofNat (n : nat) : number := ofZ (Z.of_nat n).

Definition isNaN (x : number) : bool :=
  match x with NaN => true | _ => false end.

Definition Qsign (q : Q) : comparison := (Qnum q ?= 0)%Z.

Definition nneg (x : number) : number :=
  match x with
  | NaN => NaN
  | PInf => NInf
  | NInf => PInf
  | Fin q => Fin (Qred (- q))
  end.

(** [x + y], exactly.  The runtime rounds the sum to the nearest double:
    the same number when both operands and the sum are whole numbers up to
    2^53 in size. *)
Definition nadd (x y : number) : number :=
  match x, y with
  | NaN, _ | _, NaN => NaN
  | PInf, NInf | NInf, PInf => NaN
  | PInf, _ | _, PInf => PInf
  | NInf, _ | _, NInf => NInf
  | Fin a, Fin b => Fin (Qred (a + b))
  end.

Definition nsub (x y : number) : number := nadd x (nneg y).

Definition nmul (x y : number) : number :=
  match x, y with
  | NaN, _ | _, NaN => NaN
  | Fin a, Fin b => Fin (Qred (a * b))
  | Fin a, PInf | PInf, Fin a =>
      match Qsign a with Eq => NaN | Gt => PInf | Lt => NInf end
  | Fin a, NInf | NInf, Fin a =>
      match Qsign a with Eq => NaN | Gt => NInf | Lt => PInf end
  | PInf, PInf | NInf, NInf => PInf
  | PInf, NInf | NInf, PInf => NInf
  end.

(** [x / y], exactly.  The runtime rounds the quotient to the nearest
    double, which leaves it at or below every double the exact quotient
    does not exceed. *)
Definition ndiv (x y : number) : number :=
  match x, y with
  | NaN, _ | _, NaN => NaN
  | Fin a, Fin b =>
      match Qsign b with
      | Eq => match Qsign a with Eq => NaN | Gt => PInf | Lt => NInf end
      | _ => Fin (Qred (a / b))
      end
  | Fin _, _ => Fin 0
  | PInf, Fin b => match Qsign b with Lt => NInf | _ => PInf end
  | NInf, Fin b => match Qsign b with Lt => PInf | _ => NInf end
  | _, _ => NaN
  end.

(** [x < y], [x <= y], [x >= y]: false as soon as an operand is [NaN]. *)
Definition nlt (x y : number) : bool :=
  match x, y with
  | NaN, _ | _, NaN => false
  | _, NInf | PInf, _ => false
  | NInf, _ | _, PInf => true
  | Fin a, Fin b => negb (Qle_bool b a)
  end.

Definition nle (x y : number) : bool :=
  match x, y with
  | NaN, _ | _, NaN => false
  | NInf, _ | _, PInf => true
  | _, NInf | PInf, _ => false
  | Fin a, Fin b => Qle_bool a b
  end.

Definition nge (x y : number) : bool := nle y x.

(** Strict equality [===] on numbers. *)
Definition neqb (x y : number) : bool :=
  match x, y with
  | PInf, PInf | NInf, NInf => true
  | Fin a, Fin b => Qeq_bool a b
  | _, _ => false
  end.

(** ToBoolean on a number: [NaN] and zero are falsy. *)
Definition truthy (x : number) : bool :=
  match x with
  | NaN => false
  | Fin q => negb (Qeq_bool q 0)
  | _ => true
  end.

(** [a || b] on numbers. *)
Definition orElse (a b : number) : number := if truthy a then a else b.

(** [Math.ceil]. *)
Definition ceil (x : number) : number :=
  match x with
  | Fin q => ofZ (Qceiling q)
  | _ => x
  end.

(** [Math.max(...xs)]: minus infinity on no argument, [NaN] if any is. *)
Definition max2 (x y : number) : number :=
  match x, y with
  | NaN, _ | _, NaN => NaN
  | _, _ => if nlt x y then y else x
  end.

Definition maxOf (xs : list number) : number := fold_left max2 xs NInf.

(** [Math.min(...xs)]. *)
Definition min2 (x y : number) : number :=
  match x, y with
  | NaN, _ | _, NaN => NaN
  | _, _ => if nlt y x then y else x
  end.

Definition minOf (xs : list number) : number := fold_left min2 xs PInf.

(** *** Integer conversion and [slice] *)

Inductive intinf : Type :=
| IMinus
| IInt (z : Z)
| IPlus.

(** ToIntegerOrInfinity: [NaN] goes to 0, finite values are truncated
    towards zero. *)
Definition toIntegerOrInfinity (x : number) : intinf :=
  match x with
  | NaN => IInt 0
  | PInf => IPlus
  | NInf => IMinus
  | Fin q => IInt (Z.quot (Qnum q) (Z.pos (Qden q)))
  end.

(** The clamping of a relative index shared by the start and end arguments
    of [slice]. *)
Definition relIndex (len : nat) (i : intinf) : nat :=
  match i with
  | IMinus => 0%nat
  | IInt z =>
      if (z <? 0)%Z then Z.to_nat (Z.max (Z.of_nat len + z) 0)
      else Z.to_nat (Z.min z (Z.of_nat len))
  | IPlus => len
  end.

(** [xs.slice(start, end)] on arrays and on strings. *)
Definition slice {A : Type} (xs : list A) (start stop : number) : list A :=
  let len := length xs in
  let k := relIndex len (toIntegerOrInfinity start) in
  let final := relIndex len (toIntegerOrInfinity stop) in
  firstn (final - k)%nat (skipn k xs).

(** *** Numeric literals in strings *)

Definition isDigit (c : N) : bool := (48 <=? c) && (c <=? 57).

Definition digitVal (c : N) : N := c - 48.

Fixpoint spanDigits (s : jsstring) : jsstring * jsstring :=
  match s with
  | c :: s' =>
      if isDigit c
      then let (ds, rest) := spanDigits s' in (c :: ds, rest)
      else ([], s)
  | [] => ([], [])
  end.

Definition digitsValue (ds : jsstring) : N :=
  fold_left (fun acc c => 10 * acc + digitVal c) ds 0.

Definition isE (c : N) : bool := (c =? 101) || (c =? 69).

(** Longest ExponentPart prefix: its value and what follows it.  Without
    an exponent part the value is 0 and nothing is consumed. *)
Definition scanExponent (s : jsstring) : Z * jsstring :=
  match s with
  | c :: s' =>
      if isE c then
        match s' with
        | sg :: s'' =>
            if sg =? 43 then
              match spanDigits s'' with
              | ([], _) => (0%Z, s)
              | (ds, rest) => (Z.of_N (digitsValue ds), rest)
              end
            else if sg =? 45 then
              match spanDigits s'' with
              | ([], _) => (0%Z, s)
              | (ds, rest) => ((- Z.of_N (digitsValue ds))%Z, rest)
              end
            else
              match spanDigits s' with
              | ([], _) => (0%Z, s)
              | (ds, rest) => (Z.of_N (digitsValue ds), rest)
              end
        | [] => (0%Z, s)
        end
      else (0%Z, s)
  | [] => (0%Z, s)
  end.

(** The mathematical value of [int.frac e exp].  The runtime returns the
    double nearest to it, and an infinity from about 1.8e308 on: the same
    number when the literal is a whole number up to 2^53. *)
Definition decimalValue (int frac : jsstring) (exp : Z) : Q :=
  Qred (inject_Z (Z.of_N (digitsValue (int ++ frac)))
        * Qpower (10 # 1) (exp - Z.of_nat (length frac))).

(** Longest prefix that is a StrUnsignedDecimalLiteral other than
    [Infinity]: digits with optional fraction, or a fraction alone, then an
    optional exponent. *)
Definition scanUnsigned (s : jsstring) : option (Q * jsstring) :=
  let (int, r1) := spanDigits s in
  let (frac, r2) :=
    match r1 with
    | c :: r1' => if c =? 46 then spanDigits r1' else ([], r1)
    | [] => ([], r1)
    end in
  match int, frac with
  | [], [] => None
  | _, _ =>
      let (exp, r3) := scanExponent r2 in
      Some (decimalValue int frac exp, r3)
  end.

Definition Infinity_lit : jsstring := lit "Infinity".

Fixpoint stripPrefix (p s : jsstring) : option jsstring :=
  match p, s with
  | [], _ => Some s
  | a :: p', b :: s' => if a =? b then stripPrefix p' s' else None
  | _ :: _, [] => None
  end.

Definition scanUnsignedOrInf (s : jsstring) : option (number * jsstring) :=
  match stripPrefix Infinity_lit s with
  | Some rest => Some (PInf, rest)
  | None =>
      match scanUnsigned s with
      | Some (q, rest) => Some (Fin q, rest)
      | None => None
      end
  end.

(** Longest StrDecimalLiteral prefix. *)
Definition scanDecimal (s : jsstring) : option (number * jsstring) :=
  match s with
  | c :: s' =>
      if c =? 43 then scanUnsignedOrInf s'
      else if c =? 45 then
        match scanUnsignedOrInf s' with
        | Some (v, rest) => Some (nneg v, rest)
        | None => None
        end
      else scanUnsignedOrInf s
  | [] => None
  end.

(** [parseFloat(s)]. *)
Definition parseFloat (s : jsstring) : number :=
  match scanDecimal (trimStart s) with
  | Some (v, _) => v
  | None => NaN
  end.

(** Digits of a NonDecimalIntegerLiteral ([0x], [0o], [0b]). *)
Definition radixDigit (radix c : N) : option N :=
  let v :=
    if isDigit c then Some (c - 48)
    else if (97 <=? c) && (c <=? 102) then Some (c - 87)
    else if (65 <=? c) && (c <=? 70) then Some (c - 55)
    else None in
  match v with
  | Some d => if d <? radix then Some d else None
  | None => None
  end.

Fixpoint radixValue (radix : N) (acc : N) (s : jsstring) : option N :=
  match s with
  | [] => Some acc
  | c :: s' =>
      match radixDigit radix c with
      | Some d => radixValue radix (radix * acc + d) s'
      | None => None
      end
  end.

Definition nonDecimal (s : jsstring) : option number :=
  match s with
  | 48 :: p :: (_ :: _) as ds =>
      let radix :=
        if (p =? 120) || (p =? 88) then Some 16
        else if (p =? 111) || (p =? 79) then Some 8
        else if (p =? 98) || (p =? 66) then Some 2
        else None in
      match radix with
      | Some r =>
          match radixValue r 0 ds with
          | Some v => Some (ofZ (Z.of_N v))
          | None => None
          end
      | None => None
      end
  | _ => None
  end.

(** [+s], i.e. [Number(s)], on a string. *)
Definition toNumber (s : jsstring) : number :=
  let t := trim s in
  match t with
  | [] => Fin 0
  | _ =>
      match nonDecimal t with
      | Some v => v
      | None =>
          match scanDecimal t with
          | Some (v, []) => v
          | _ => NaN
          end
      end
  end.

End JS.

(* ================================================================= *)
(** ** Arrays and objects *)
(* ================================================================= *)

Module JSArray.
Import JS.

(** [xs.sort(cmp)].  The sort is stable and driven by the sign of
    [cmp a b] alone: a positive result moves [a] behind [b]; a negative
    result, zero and [NaN] leave [a] in front.  On a comparator that is
    consistent (no [NaN] between distinct keys) every stable sort returns
    this list; on an inconsistent one ECMA-262 leaves the order to the
    engine and this is one admissible outcome. *)
Fixpoint insertBy {A : Type} (cmp : A -> A -> number) (a : A) (xs : list A)
  : list A :=
  match xs with
  | [] => [a]
  | b :: xs' =>
      if nlt (Fin 0) (cmp a b) then b :: insertBy cmp a xs' else a :: xs
  end.

Definition sort {A : Type} (cmp : A -> A -> number) (xs : list A) : list A :=
  fold_right (insertBy cmp) [] xs.

(** The comparator [(a, b) => key(b) - key(a)] of a descending sort. *)
Definition descendingBy {A : Type} (key : A -> number) (a b : A) : number :=
  nsub (key b) (key a).

(** No element has [NaN] for key. *)
Definition numericKeys {A : Type} (key : A -> number) (xs : list A) : Prop :=
  Forall (fun a => isNaN (key a) = false) xs.

(** [xs.map((x, i) => f x i)], the index counted from [i0]. *)
Fixpoint mapi_from {A B : Type} (f : A -> nat -> B) (i0 : nat) (xs : list A)
  : list B :=
  match xs with
  | [] => []
  | x :: xs' => f x i0 :: mapi_from f (S i0) xs'
  end.

Definition mapi {A B : Type} (f : A -> nat -> B) (xs : list A) : list B :=
  mapi_from f 0 xs.

(** A callback that may throw: the first exception aborts the [map]. *)
Fixpoint mapi_from_opt {A B : Type} (f : A -> nat -> option B) (i0 : nat)
  (xs : list A) : option (list B) :=
  match xs with
  | [] => Some []
  | x :: xs' =>
      match f x i0 with
      | None => None
      | Some y =>
          match mapi_from_opt f (S i0) xs' with
          | None => None
          | Some ys => Some (y :: ys)
          end
      end
  end.

Definition mapi_opt {A B : Type} (f : A -> nat -> option B) (xs : list A)
  : option (list B) :=
  mapi_from_opt f 0 xs.

End JSArray.

Module JSObject.
Import JS.

(** The values a record of the payload can hold.  [VObject] stands for a
    nested plain object: [typeof] gives ['object'] and it has neither a
    [length] nor a [replace] property. *)
Inductive value : Type :=
| VUndefined
| VNull
| VBool (b : bool)
| VNum (n : number)
| VStr (s : jsstring)
| VObject.

(** An object: its own enumerable string-keyed properties in insertion
    order, every key once (the payload has no integer-like keys, which
    would come first). *)
Definition obj := list (jsstring * value).

(** [o[k]] *)
Fixpoint get (o : obj) (k : jsstring) : value :=
  match o with
  | [] => VUndefined
  | (k', v) :: o' => if jsstring_eqb k' k then v else get o' k
  end.

(** [{...o, [k]: v}]: an existing key keeps its place and takes the new
    value, a new key goes last. *)
Fixpoint set (k : jsstring) (v : value) (o : obj) : obj :=
  match o with
  | [] => [(k, v)]
  | (k', v') :: o' =>
      if jsstring_eqb k' k then (k, v) :: o' else (k', v') :: set k v o'
  end.

(** [Object.keys(o)] *)
Definition keys (o : obj) : list jsstring := map fst o.

Definition typeofIsObject (v : value) : bool :=
  match v with VNull | VObject => true | _ => false end.

(** ToNumber on a value, as applied by [Math.max], [Math.min] and the
    relational operators against a number. *)
Definition valueToNumber (v : value) : number :=
  match v with
  | VUndefined => NaN
  | VNull => Fin 0
  | VBool b => if b then Fin 1 else Fin 0
  | VNum n => n
  | VStr s => toNumber s
  | VObject => NaN
  end.

(** [v === n] against a number. *)
Definition strictEqNum (v : value) (n : number) : bool :=
  match v with VNum m => neqb m n | _ => false end.

End JSObject.

(* ================================================================= *)
(** ** The chart screen, [DataVisualizer.tsx] *)
(* ================================================================= *)

Module DataVisualizer.
Import JS JSArray JSObject.

(** Modelled from the spec: the types [PlantData], [ParameterValue],
    [SearchParameter], [YearFilter] and [YearRange] come from
    [../types/data], which is not among the sources.  The spec gives one
    record shape, the recommendation (code, description, two currency
    strings, payback ratio, percentage string, count, rank); the component
    reads it through [item.description], [item.year] and
    [item[selectedParameter]], so a record is an object indexed by
    property name and a parameter value is whatever such a property holds. *)
Definition PlantData := obj.

Definition SearchParameter := jsstring.

Inductive YearFilter : Type := All | Single | Custom.

Record YearRange : Type := { range_start : number; range_end : number }.

Record Props : Type := {
  data : list PlantData;
  years : option (list number);
  center : jsstring;
  state : jsstring;
  topCount : number
}.

(** The five [useState] cells of the component. *)
Record State : Type := {
  selectedParameter : SearchParameter;
  yearFilter : YearFilter;
  selectedYear : number;
  yearRange : YearRange;
  filteredData : list PlantData
}.

Definition initial : State :=
  {| selectedParameter := [];
     yearFilter := All;
     selectedYear := Fin 0;
     yearRange := {| range_start := Fin 0; range_end := Fin 0 |};
     filteredData := [] |}.

Definition setSelectedParameter (v : SearchParameter) (s : State) : State :=
  {| selectedParameter := v; yearFilter := yearFilter s;
     selectedYear := selectedYear s; yearRange := yearRange s;
     filteredData := filteredData s |}.

Definition setSelectedYear (v : number) (s : State) : State :=
  {| selectedParameter := selectedParameter s; yearFilter := yearFilter s;
     selectedYear := v; yearRange := yearRange s;
     filteredData := filteredData s |}.

Definition setYearRange (v : YearRange) (s : State) : State :=
  {| selectedParameter := selectedParameter s; yearFilter := yearFilter s;
     selectedYear := selectedYear s; yearRange := v;
     filteredData := filteredData s |}.

Definition setFilteredData (v : list PlantData) (s : State) : State :=
  {| selectedParameter := selectedParameter s; yearFilter := yearFilter s;
     selectedYear := selectedYear s; yearRange := yearRange s;
     filteredData := v |}.

Definition k_year : jsstring := lit "year".
Definition k_description : jsstring := lit "description".
Definition k_arc : jsstring := lit "arc".
Definition k_top : jsstring := lit "top".
Definition k_id : jsstring := lit "id".
Definition k_shortDescription : jsstring := lit "shortDescription".

Definition availableParameters (p : Props) : list jsstring :=
  match data p with
  | [] => []
  | firstItem :: _ =>
      filter
        (fun key =>
           negb (jsstring_eqb key k_year)
           && negb (jsstring_eqb key k_description)
           && negb (jsstring_eqb key k_arc)
           && negb (jsstring_eqb key k_top)
           && negb (typeofIsObject (get firstItem key)))
        (keys firstItem)
  end.

(** The years on offer.  The source also removes duplicates and sorts the
    list; the component uses its emptiness, its maximum and its minimum,
    which neither step changes, so both are left out. *)
Definition availableYears (p : Props) : list value :=
  match years p with
  | Some (y :: ys) => map VNum (y :: ys)
  | _ => map (fun i => get i k_year) (data p)
  end.

(** First effect: initial parameter and year selections.  [s] is the state
    of the render whose closure the effect runs in, [acc] the state the
    [set...] calls accumulate into. *)
Definition selectionEffect (p : Props) (s acc : State) : State :=
  let acc :=
    match availableParameters p with
    | first :: _ =>
        if isEmpty (selectedParameter s)
        then setSelectedParameter first acc else acc
    | [] => acc
    end in
  match availableYears p with
  | _ :: _ =>
      let ys := map valueToNumber (availableYears p) in
      let max := maxOf ys in
      setYearRange {| range_start := minOf ys; range_end := max |}
        (setSelectedYear max acc)
  | [] => acc
  end.

(** Second effect: filter by year choice.  It returns before touching the
    state when [data] is empty. *)
Definition yearEffect (p : Props) (s acc : State) : State :=
  match data p with
  | [] => acc
  | _ :: _ =>
      let f :=
        match yearFilter s with
        | Single =>
            filter (fun i => strictEqNum (get i k_year) (selectedYear s))
              (data p)
        | Custom =>
            filter
              (fun i =>
                 nge (valueToNumber (get i k_year))
                     (range_start (yearRange s))
                 && nle (valueToNumber (get i k_year))
                        (range_end (yearRange s)))
              (data p)
        | All => data p
        end in
      setFilteredData f acc
  end.

Definition effects (p : Props) (s : State) : State :=
  yearEffect p s (selectionEffect p s s).

(** *** Helpers for chart data *)

Definition isDollarCommaPercent (c : N) : bool :=
  ((c =? 36) || (c =? 44) || (c =? 37))%N.

(** [formatValue]; [None] is the TypeError raised by [v.replace] when [v] is
    neither a number nor a string. *)
Definition formatValue (v : value) : option number :=
  match v with
  | VNum n => Some n
  | VStr s => Some (parseFloat (removeAll isDollarCommaPercent s))
  | _ => None
  end.

Definition ellipsis : jsstring := [8230%N].

(** [truncate]; [None] is the TypeError raised by [s.length] on [undefined]
    or [null]; a value without a [length] is returned as it is. *)
Definition truncate (s : value) (n : number) : option value :=
  match s with
  | VStr str =>
      Some (VStr (if nlt n (ofNat (length str))
                  then slice str (Fin 0) n ++ ellipsis
                  else str))
  | VUndefined | VNull => None
  | _ => Some s
  end.

Definition chartPoint (selected : SearchParameter) (item : PlantData)
  (idx : nat) : option PlantData :=
  match truncate (get item k_description) (ofZ 15) with
  | None => None
  | Some short =>
      match formatValue (get item selected) with
      | None => None
      | Some v =>
          Some (set selected (VNum v)
                 (set k_shortDescription short
                   (set k_id (VNum (ofNat (idx + 1))) item)))
      end
  end.

Definition chartData (s : State) : option (list PlantData) :=
  mapi_opt (chartPoint (selectedParameter s)) (filteredData s).

(** [i[selectedParameter] as number] on a chart point. *)
Definition asNumber (v : value) : number :=
  match v with VNum n => n | _ => NaN end.

Definition highestValue (cd : list PlantData) (selected : SearchParameter)
  : number :=
  maxOf (map (fun i => asNumber (get i selected)) cd).

Definition sumValue (cd : list PlantData) (selected : SearchParameter)
  : number :=
  fold_left (fun a i => nadd a (asNumber (get i selected))) cd (Fin 0).

Definition avgValue (cd : list PlantData) (selected : SearchParameter)
  : number :=
  ndiv (sumValue cd selected) (ofNat (length cd)).

(** *** Render *)

Record Stats : Type := {
  stat_highest : number;
  stat_average : number;
  stat_total : nat
}.

Inductive View : Type :=
| NoData
| Panel (parameters : list jsstring) (selected : SearchParameter)
        (chart : option (list PlantData * Stats)).

(** One evaluation of the component body: the values it computes on the
    way, in source order, and the element it returns. *)
Record Rendered : Type := {
  r_chartData : list PlantData;
  r_highestValue : number;
  r_avgValue : number;
  r_view : View
}.

(** [None]: the body threw while building the chart data. *)
Definition render (p : Props) (s : State) : option Rendered :=
  match chartData s with
  | None => None
  | Some cd =>
      let highest := highestValue cd (selectedParameter s) in
      let avg := avgValue cd (selectedParameter s) in
      Some {| r_chartData := cd;
              r_highestValue := highest;
              r_avgValue := avg;
              r_view :=
                match data p with
                | [] => NoData
                | _ :: _ =>
                    Panel (availableParameters p) (selectedParameter s)
                      (match filteredData s with
                       | [] => None
                       | _ :: _ =>
                           Some (cd, {| stat_highest := highest;
                                        stat_average := avg;
                                        stat_total := length cd |})
                       end)
                end |}
  end.

(** *** Axis label and legend *)

(** Helper to choose the Y-axis label. *)
Definition getYAxisLabel (param : jsstring) : jsstring :=
  if jsstring_eqb param (lit "avgSavings")
     || jsstring_eqb param (lit "avgCost")
  then lit "Total Amount (Dollars)"
  else if jsstring_eqb param (lit "implementationRate")
  then lit "Percent Implemented"
  else if jsstring_eqb param (lit "recommended")
  then lit "Number of Recommendations"
  else if jsstring_eqb param (lit "avgPayback")
  then lit "Ratio of Cost/Savings"
  else [].

(** The lines of the custom legend: the number [idx + 1] and the
    description of each record to plot. *)
Definition legend (s : State) : list (number * value) :=
  mapi (fun item idx => (ofNat (idx + 1), get item k_description))
       (filteredData s).

(** *** Life cycle *)

(** What can happen between two renders under props [p]: the effects run,
    or the user picks one of the parameters on offer. *)
Inductive step (p : Props) : State -> State -> Prop :=
| step_effects s : step p s (effects p s)
| step_select s v :
    data p <> [] -> In v (availableParameters p) ->
    step p s (setSelectedParameter v s).

(** States of a component mounted with props [p] and never given others. *)
Inductive mountedWith (p : Props) : State -> Prop :=
| mounted_initial : mountedWith p initial
| mounted_step s s' : mountedWith p s -> step p s s' -> mountedWith p s'.

(** States of a component whose parent may pass new props at any time. *)
Inductive live : Props -> State -> Prop :=
| live_initial p : live p initial
| live_step p s s' : live p s -> step p s s' -> live p s'
| live_props p p' s : live p s -> live p' s.

End DataVisualizer.

(* ================================================================= *)
(** ** [URLSearchParams] *)
(* ================================================================= *)

Module URL.
Import JS.
Local Open Scope N_scope.

(** The entry list of a [URLSearchParams] object. *)
Definition URLSearchParams := list (jsstring * jsstring).

Definition append (p : URLSearchParams) (name value : jsstring)
  : URLSearchParams :=
  p ++ [(name, value)].

(** [p.get(name)]: the value of the first entry called [name]. *)
Fixpoint get (p : URLSearchParams) (name : jsstring) : option jsstring :=
  match p with
  | [] => None
  | (k, v) :: p' => if jsstring_eqb k name then Some v else get p' name
  end.

(** [p.has(name)] *)
Definition has (p : URLSearchParams) (name : jsstring) : bool :=
  existsb (fun e => jsstring_eqb (fst e) name) p.

(** Code points of a string, a lone surrogate read as U+FFFD. *)
Fixpoint codePoints (s : jsstring) : list N :=
  match s with
  | [] => []
  | c :: s' =>
      if (55296 <=? c) && (c <=? 56319) then
        match s' with
        | d :: s'' =>
            if (56320 <=? d) && (d <=? 57343)
            then (65536 + (c - 55296) * 1024 + (d - 56320)) :: codePoints s''
            else 65533 :: codePoints s'
        | [] => [65533]
        end
      else if (56320 <=? c) && (c <=? 57343) then 65533 :: codePoints s'
      else c :: codePoints s'
  end.

Definition utf8 (cp : N) : list N :=
  if cp <? 128 then [cp]
  else if cp <? 2048 then [192 + cp / 64; 128 + cp mod 64]
  else if cp <? 65536 then
    [224 + cp / 4096; 128 + (cp / 64) mod 64; 128 + cp mod 64]
  else
    [240 + cp / 262144; 128 + (cp / 4096) mod 64; 128 + (cp / 64) mod 64;
     128 + cp mod 64].

Definition hexDigit (n : N) : N := if n <? 10 then 48 + n else 55 + n.

(** The application/x-www-form-urlencoded byte serializer. *)
Definition encodeByte (b : N) : jsstring :=
  if b =? 32 then [43]
  else if (b =? 42) || (b =? 45) || (b =? 46) || (b =? 95)
          || ((48 <=? b) && (b <=? 57))
          || ((65 <=? b) && (b <=? 90))
          || ((97 <=? b) && (b <=? 122))
  then [b]
  else [37; hexDigit (b / 16); hexDigit (b mod 16)].

Definition encode (s : jsstring) : jsstring :=
  flat_map encodeByte (flat_map utf8 (codePoints s)).

(** [p.toString()] *)
Fixpoint toString (p : URLSearchParams) : jsstring :=
  match p with
  | [] => []
  | [(k, v)] => encode k ++ [61] ++ encode v
  | (k, v) :: p' => encode k ++ [61] ++ encode v ++ [38] ++ toString p'
  end.

End URL.

(* ================================================================= *)
(** ** The filter screen, [App.tsx] *)
(* ================================================================= *)

Module App.
Import JS JSArray.

(** *** Types from the backend payload *)

Record Recommendation : Type := {
  arc : jsstring;
  description : jsstring;
  avgSavings : jsstring;
  avgCost : jsstring;
  avgPayback : number + jsstring;
  implementationRate : jsstring;
  recommended : number;
  top : number
}.

(** [{...r, top: v}] *)
Definition setTop (v : number) (r : Recommendation) : Recommendation :=
  {| arc := arc r; description := description r; avgSavings := avgSavings r;
     avgCost := avgCost r; avgPayback := avgPayback r;
     implementationRate := implementationRate r;
     recommended := recommended r; top := v |}.

(** The five sortable columns. *)
Inductive OrderField : Type :=
| AvgSavings
| AvgCost
| AvgPayback
| ImplRate
| Recommended.

Definition isDollarComma (c : N) : bool := ((c =? 36) || (c =? 44))%N.

(** Convert one row to the numeric value of the chosen column. *)
Definition numericFor (r : Recommendation) (field : OrderField) : number :=
  match field with
  | AvgSavings => parseFloat (removeAll isDollarComma (avgSavings r))
  | AvgCost => parseFloat (removeAll isDollarComma (avgCost r))
  | AvgPayback =>
      match avgPayback r with
      | inl n => n
      | inr s => parseFloat s
      end
  | ImplRate => parseFloat (implementationRate r)
  | Recommended => recommended r
  end.

(** *** Network *)

(** Outcome of [await (await fetch(url)).json()]: the promise rejects with
    an error carrying [message], or resolves to the parsed body. *)
Inductive fetched (A : Type) : Type :=
| Threw (message : jsstring)
| Json (json : A).
Arguments Threw {A} message.
Arguments Json {A} json.

Record OptionsJson : Type := {
  opt_success : bool;
  opt_error : option jsstring;
  opt_centers : list jsstring;
  opt_states : list jsstring;
  opt_years : list number
}.

Record AggregatesJson : Type := {
  agg_success : bool;
  agg_error : option jsstring;
  agg_data : list Recommendation
}.

(** The aggregates endpoint, as a function of the query string appended to
    its URL. *)
Definition Backend := jsstring -> fetched AggregatesJson.

(** The [useState] cells of [App], in source order. *)
Record AppState : Type := {
  centers : list jsstring;
  states : list jsstring;
  years : list number;
  center : jsstring;
  stateUS : jsstring;
  yearOp : jsstring;
  yearVal : jsstring;
  minSavings : jsstring;
  minCost : jsstring;
  showTop : jsstring;
  orderBy : OrderField;
  minReco : jsstring;
  arcCode : jsstring;
  rows : list Recommendation;
  filtered : list Recommendation;
  pageSize : number;
  page : number;
  showGraph : bool;
  loading : bool;
  err : option jsstring;
  graphCenter : jsstring;
  graphState : jsstring;
  graphTopCount : number
}.

Definition setCenters (v : list jsstring) (s : AppState) : AppState :=
  {| centers := v; states := states s; years := years s; center := center s;
     stateUS := stateUS s; yearOp := yearOp s; yearVal := yearVal s;
     minSavings := minSavings s; minCost := minCost s; showTop := showTop s;
     orderBy := orderBy s; minReco := minReco s; arcCode := arcCode s;
     rows := rows s; filtered := filtered s; pageSize := pageSize s;
     page := page s; showGraph := showGraph s; loading := loading s;
     err := err s; graphCenter := graphCenter s; graphState := graphState s;
     graphTopCount := graphTopCount s |}.

Definition setStates (v : list jsstring) (s : AppState) : AppState :=
  {| centers := centers s; states := v; years := years s; center := center s;
     stateUS := stateUS s; yearOp := yearOp s; yearVal := yearVal s;
     minSavings := minSavings s; minCost := minCost s; showTop := showTop s;
     orderBy := orderBy s; minReco := minReco s; arcCode := arcCode s;
     rows := rows s; filtered := filtered s; pageSize := pageSize s;
     page := page s; showGraph := showGraph s; loading := loading s;
     err := err s; graphCenter := graphCenter s; graphState := graphState s;
     graphTopCount := graphTopCount s |}.

Definition setYears (v : list number) (s : AppState) : AppState :=
  {| centers := centers s; states := states s; years := v; center := center s;
     stateUS := stateUS s; yearOp := yearOp s; yearVal := yearVal s;
     minSavings := minSavings s; minCost := minCost s; showTop := showTop s;
     orderBy := orderBy s; minReco := minReco s; arcCode := arcCode s;
     rows := rows s; filtered := filtered s; pageSize := pageSize s;
     page := page s; showGraph := showGraph s; loading := loading s;
     err := err s; graphCenter := graphCenter s; graphState := graphState s;
     graphTopCount := graphTopCount s |}.

Definition setCenter (v : jsstring) (s : AppState) : AppState :=
  {| centers := centers s; states := states s; years := years s; center := v;
     stateUS := stateUS s; yearOp := yearOp s; yearVal := yearVal s;
     minSavings := minSavings s; minCost := minCost s; showTop := showTop s;
     orderBy := orderBy s; minReco := minReco s; arcCode := arcCode s;
     rows := rows s; filtered := filtered s; pageSize := pageSize s;
     page := page s; showGraph := showGraph s; loading := loading s;
     err := err s; graphCenter := graphCenter s; graphState := graphState s;
     graphTopCount := graphTopCount s |}.

Definition setStateUS (v : jsstring) (s : AppState) : AppState :=
  {| centers := centers s; states := states s; years := years s;
     center := center s; stateUS := v; yearOp := yearOp s;
     yearVal := yearVal s; minSavings := minSavings s; minCost := minCost s;
     showTop := showTop s; orderBy := orderBy s; minReco := minReco s;
     arcCode := arcCode s; rows := rows s; filtered := filtered s;
     pageSize := pageSize s; page := page s; showGraph := showGraph s;
     loading := loading s; err := err s; graphCenter := graphCenter s;
     graphState := graphState s; graphTopCount := graphTopCount s |}.

Definition setYearOp (v : jsstring) (s : AppState) : AppState :=
  {| centers := centers s; states := states s; years := years s;
     center := center s; stateUS := stateUS s; yearOp := v;
     yearVal := yearVal s; minSavings := minSavings s; minCost := minCost s;
     showTop := showTop s; orderBy := orderBy s; minReco := minReco s;
     arcCode := arcCode s; rows := rows s; filtered := filtered s;
     pageSize := pageSize s; page := page s; showGraph := showGraph s;
     loading := loading s; err := err s; graphCenter := graphCenter s;
     graphState := graphState s; graphTopCount := graphTopCount s |}.

Definition setYearVal (v : jsstring) (s : AppState) : AppState :=
  {| centers := centers s; states := states s; years := years s;
     center := center s; stateUS := stateUS s; yearOp := yearOp s;
     yearVal := v; minSavings := minSavings s; minCost := minCost s;
     showTop := showTop s; orderBy := orderBy s; minReco := minReco s;
     arcCode := arcCode s; rows := rows s; filtered := filtered s;
     pageSize := pageSize s; page := page s; showGraph := showGraph s;
     loading := loading s; err := err s; graphCenter := graphCenter s;
     graphState := graphState s; graphTopCount := graphTopCount s |}.

Definition setMinSavings (v : jsstring) (s : AppState) : AppState :=
  {| centers := centers s; states := states s; years := years s;
     center := center s; stateUS := stateUS s; yearOp := yearOp s;
     yearVal := yearVal s; minSavings := v; minCost := minCost s;
     showTop := showTop s; orderBy := orderBy s; minReco := minReco s;
     arcCode := arcCode s; rows := rows s; filtered := filtered s;
     pageSize := pageSize s; page := page s; showGraph := showGraph s;
     loading := loading s; err := err s; graphCenter := graphCenter s;
     graphState := graphState s; graphTopCount := graphTopCount s |}.

Definition setMinCost (v : jsstring) (s : AppState) : AppState :=
  {| centers := centers s; states := states s; years := years s;
     center := center s; stateUS := stateUS s; yearOp := yearOp s;
     yearVal := yearVal s; minSavings := minSavings s; minCost := v;
     showTop := showTop s; orderBy := orderBy s; minReco := minReco s;
     arcCode := arcCode s; rows := rows s; filtered := filtered s;
     pageSize := pageSize s; page := page s; showGraph := showGraph s;
     loading := loading s; err := err s; graphCenter := graphCenter s;
     graphState := graphState s; graphTopCount := graphTopCount s |}.

Definition setShowTop (v : jsstring) (s : AppState) : AppState :=
  {| centers := centers s; states := states s; years := years s;
     center := center s; stateUS := stateUS s; yearOp := yearOp s;
     yearVal := yearVal s; minSavings := minSavings s; minCost := minCost s;
     showTop := v; orderBy := orderBy s; minReco := minReco s;
     arcCode := arcCode s; rows := rows s; filtered := filtered s;
     pageSize := pageSize s; page := page s; showGraph := showGraph s;
     loading := loading s; err := err s; graphCenter := graphCenter s;
     graphState := graphState s; graphTopCount := graphTopCount s |}.

Definition setOrderBy (v : OrderField) (s : AppState) : AppState :=
  {| centers := centers s; states := states s; years := years s;
     center := center s; stateUS := stateUS s; yearOp := yearOp s;
     yearVal := yearVal s; minSavings := minSavings s; minCost := minCost s;
     showTop := showTop s; orderBy := v; minReco := minReco s;
     arcCode := arcCode s; rows := rows s; filtered := filtered s;
     pageSize := pageSize s; page := page s; showGraph := showGraph s;
     loading := loading s; err := err s; graphCenter := graphCenter s;
     graphState := graphState s; graphTopCount := graphTopCount s |}.

Definition setMinReco (v : jsstring) (s : AppState) : AppState :=
  {| centers := centers s; states := states s; years := years s;
     center := center s; stateUS := stateUS s; yearOp := yearOp s;
     yearVal := yearVal s; minSavings := minSavings s; minCost := minCost s;
     showTop := showTop s; orderBy := orderBy s; minReco := v;
     arcCode := arcCode s; rows := rows s; filtered := filtered s;
     pageSize := pageSize s; page := page s; showGraph := showGraph s;
     loading := loading s; err := err s; graphCenter := graphCenter s;
     graphState := graphState s; graphTopCount := graphTopCount s |}.

Definition setArcCode (v : jsstring) (s : AppState) : AppState :=
  {| centers := centers s; states := states s; years := years s;
     center := center s; stateUS := stateUS s; yearOp := yearOp s;
     yearVal := yearVal s; minSavings := minSavings s; minCost := minCost s;
     showTop := showTop s; orderBy := orderBy s; minReco := minReco s;
     arcCode := v; rows := rows s; filtered := filtered s;
     pageSize := pageSize s; page := page s; showGraph := showGraph s;
     loading := loading s; err := err s; graphCenter := graphCenter s;
     graphState := graphState s; graphTopCount := graphTopCount s |}.

Definition setRows (v : list Recommendation) (s : AppState) : AppState :=
  {| centers := centers s; states := states s; years := years s;
     center := center s; stateUS := stateUS s; yearOp := yearOp s;
     yearVal := yearVal s; minSavings := minSavings s; minCost := minCost s;
     showTop := showTop s; orderBy := orderBy s; minReco := minReco s;
     arcCode := arcCode s; rows := v; filtered := filtered s;
     pageSize := pageSize s; page := page s; showGraph := showGraph s;
     loading := loading s; err := err s; graphCenter := graphCenter s;
     graphState := graphState s; graphTopCount := graphTopCount s |}.

Definition setFiltered (v : list Recommendation) (s : AppState) : AppState :=
  {| centers := centers s; states := states s; years := years s;
     center := center s; stateUS := stateUS s; yearOp := yearOp s;
     yearVal := yearVal s; minSavings := minSavings s; minCost := minCost s;
     showTop := showTop s; orderBy := orderBy s; minReco := minReco s;
     arcCode := arcCode s; rows := rows s; filtered := v;
     pageSize := pageSize s; page := page s; showGraph := showGraph s;
     loading := loading s; err := err s; graphCenter := graphCenter s;
     graphState := graphState s; graphTopCount := graphTopCount s |}.

Definition setPageSize (v : number) (s : AppState) : AppState :=
  {| centers := centers s; states := states s; years := years s;
     center := center s; stateUS := stateUS s; yearOp := yearOp s;
     yearVal := yearVal s; minSavings := minSavings s; minCost := minCost s;
     showTop := showTop s; orderBy := orderBy s; minReco := minReco s;
     arcCode := arcCode s; rows := rows s; filtered := filtered s;
     pageSize := v; page := page s; showGraph := showGraph s;
     loading := loading s; err := err s; graphCenter := graphCenter s;
     graphState := graphState s; graphTopCount := graphTopCount s |}.

Definition setPage (v : number) (s : AppState) : AppState :=
  {| centers := centers s; states := states s; years := years s;
     center := center s; stateUS := stateUS s; yearOp := yearOp s;
     yearVal := yearVal s; minSavings := minSavings s; minCost := minCost s;
     showTop := showTop s; orderBy := orderBy s; minReco := minReco s;
     arcCode := arcCode s; rows := rows s; filtered := filtered s;
     pageSize := pageSize s; page := v; showGraph := showGraph s;
     loading := loading s; err := err s; graphCenter := graphCenter s;
     graphState := graphState s; graphTopCount := graphTopCount s |}.

Definition setShowGraph (v : bool) (s : AppState) : AppState :=
  {| centers := centers s; states := states s; years := years s;
     center := center s; stateUS := stateUS s; yearOp := yearOp s;
     yearVal := yearVal s; minSavings := minSavings s; minCost := minCost s;
     showTop := showTop s; orderBy := orderBy s; minReco := minReco s;
     arcCode := arcCode s; rows := rows s; filtered := filtered s;
     pageSize := pageSize s; page := page s; showGraph := v;
     loading := loading s; err := err s; graphCenter := graphCenter s;
     graphState := graphState s; graphTopCount := graphTopCount s |}.

Definition setLoading (v : bool) (s : AppState) : AppState :=
  {| centers := centers s; states := states s; years := years s;
     center := center s; stateUS := stateUS s; yearOp := yearOp s;
     yearVal := yearVal s; minSavings := minSavings s; minCost := minCost s;
     showTop := showTop s; orderBy := orderBy s; minReco := minReco s;
     arcCode := arcCode s; rows := rows s; filtered := filtered s;
     pageSize := pageSize s; page := page s; showGraph := showGraph s;
     loading := v; err := err s; graphCenter := graphCenter s;
     graphState := graphState s; graphTopCount := graphTopCount s |}.

Definition setErr (v : option jsstring) (s : AppState) : AppState :=
  {| centers := centers s; states := states s; years := years s;
     center := center s; stateUS := stateUS s; yearOp := yearOp s;
     yearVal := yearVal s; minSavings := minSavings s; minCost := minCost s;
     showTop := showTop s; orderBy := orderBy s; minReco := minReco s;
     arcCode := arcCode s; rows := rows s; filtered := filtered s;
     pageSize := pageSize s; page := page s; showGraph := showGraph s;
     loading := loading s; err := v; graphCenter := graphCenter s;
     graphState := graphState s; graphTopCount := graphTopCount s |}.

Definition setGraphCenter (v : jsstring) (s : AppState) : AppState :=
  {| centers := centers s; states := states s; years := years s;
     center := center s; stateUS := stateUS s; yearOp := yearOp s;
     yearVal := yearVal s; minSavings := minSavings s; minCost := minCost s;
     showTop := showTop s; orderBy := orderBy s; minReco := minReco s;
     arcCode := arcCode s; rows := rows s; filtered := filtered s;
     pageSize := pageSize s; page := page s; showGraph := showGraph s;
     loading := loading s; err := err s; graphCenter := v;
     graphState := graphState s; graphTopCount := graphTopCount s |}.

Definition setGraphState (v : jsstring) (s : AppState) : AppState :=
  {| centers := centers s; states := states s; years := years s;
     center := center s; stateUS := stateUS s; yearOp := yearOp s;
     yearVal := yearVal s; minSavings := minSavings s; minCost := minCost s;
     showTop := showTop s; orderBy := orderBy s; minReco := minReco s;
     arcCode := arcCode s; rows := rows s; filtered := filtered s;
     pageSize := pageSize s; page := page s; showGraph := showGraph s;
     loading := loading s; err := err s; graphCenter := graphCenter s;
     graphState := v; graphTopCount := graphTopCount s |}.

Definition setGraphTopCount (v : number) (s : AppState) : AppState :=
  {| centers := centers s; states := states s; years := years s;
     center := center s; stateUS := stateUS s; yearOp := yearOp s;
     yearVal := yearVal s; minSavings := minSavings s; minCost := minCost s;
     showTop := showTop s; orderBy := orderBy s; minReco := minReco s;
     arcCode := arcCode s; rows := rows s; filtered := filtered s;
     pageSize := pageSize s; page := page s; showGraph := showGraph s;
     loading := loading s; err := err s; graphCenter := graphCenter s;
     graphState := graphState s; graphTopCount := v |}.
Definition initialState : AppState :=
  {| centers := []; states := []; years := [];
     center := []; stateUS := []; yearOp := lit "="; yearVal := [];
     minSavings := []; minCost := []; showTop := lit "10";
     orderBy := ImplRate; minReco := lit "10"; arcCode := [];
     rows := []; filtered := []; pageSize := ofZ 10; page := ofZ 1;
     showGraph := false; loading := false; err := None;
     graphCenter := []; graphState := []; graphTopCount := ofZ 10 |}.

(** *** The two fetches *)

(** The [try] block of the filter-options effect: [inl message] when it
    throws, [inr] the state its [set...] calls produce otherwise.
    [new Error(undefined)] has the empty message. *)
Definition tryOptions (resp : fetched OptionsJson) (s : AppState)
  : jsstring + AppState :=
  match resp with
  | Threw message => inl message
  | Json meta =>
      if opt_success meta
      then inr (setYears (opt_years meta)
                 (setStates (opt_states meta)
                   (setCenters (opt_centers meta) s)))
      else inl (match opt_error meta with Some m => m | None => [] end)
  end.

(** The filter-options effect; its [catch] block is empty. *)
Definition fetchOptions (resp : fetched OptionsJson) (s : AppState)
  : AppState :=
  match tryOptions resp s with
  | inl _ => s
  | inr s' => s'
  end.

(** The descending comparator on the chosen column. *)
Definition comparator (field : OrderField) (a b : Recommendation) : number :=
  nsub (numericFor b field) (numericFor a field).

(** [.map((r, i) => ({...r, top: i + 1}))] *)
Definition rank (xs : list Recommendation) : list Recommendation :=
  mapi (fun r i => setTop (ofNat (i + 1)) r) xs.

(** [json.error || "API error"] *)
Definition errorMessage (e : option jsstring) : jsstring :=
  match e with
  | Some (c :: m) => c :: m
  | _ => lit "API error"
  end.

(** State while the request is in flight. *)
Definition fetchAggregates_begin (s : AppState) : AppState :=
  setErr None (setLoading true s).

(** The [try] block of [fetchAggregates]: [inl message] when it throws,
    [inr] the state its [set...] calls produce otherwise. *)
Definition tryAggregates (resp : fetched AggregatesJson) (s : AppState)
  : jsstring + AppState :=
  match resp with
  | Threw message => inl message
  | Json json =>
      if agg_success json then
        let ranked := rank (sort (comparator (orderBy s)) (agg_data json)) in
        inr (setShowGraph false
              (setPage (ofZ 1) (setFiltered ranked (setRows ranked s))))
      else inl (errorMessage (agg_error json))
  end.

(** State once the request has settled: [catch] stores the message,
    [finally] clears the loading flag. *)
Definition fetchAggregates_settle (resp : fetched AggregatesJson)
  (s : AppState) : AppState :=
  setLoading false
    match tryAggregates resp s with
    | inl message => setErr (Some message) s
    | inr s' => s'
    end.

Definition fetchAggregates (resp : fetched AggregatesJson) (s : AppState)
  : AppState :=
  fetchAggregates_settle resp (fetchAggregates_begin s).

(** *** Search and reset *)

Definition searchParams (s : AppState) : URL.URLSearchParams :=
  let p := [] in
  let p := if isEmpty (center s) then p
           else URL.append p (lit "center") (center s) in
  let p := if isEmpty (stateUS s) then p
           else URL.append p (lit "state") (stateUS s) in
  let p := if isEmpty (yearVal s) then p
           else URL.append p (lit "fiscal_year") (yearOp s ++ yearVal s) in
  let p := if isEmpty (arcCode s) then p
           else URL.append p (lit "arc") (trim (arcCode s)) in
  p.

Definition searchQuery (s : AppState) : jsstring :=
  lit "?" ++ URL.toString (searchParams s).

(** The updater handed to [setFiltered] by [handleSearch]; the filter
    values are those of the render in which the button was clicked. *)
Definition refilter (s : AppState) (prev : list Recommendation)
  : list Recommendation :=
  let byReco :=
    filter (fun r => nge (recommended r) (toNumber (minReco s))) prev in
  let bySavings :=
    filter
      (fun r =>
         isEmpty (minSavings s)
         || nge (parseFloat (removeAll isDollarComma (avgSavings r)))
                (toNumber (minSavings s)))
      byReco in
  let byCost :=
    filter
      (fun r =>
         isEmpty (minCost s)
         || nge (parseFloat (removeAll isDollarComma (avgCost r)))
                (toNumber (minCost s)))
      bySavings in
  rank (slice (sort (comparator (orderBy s)) byCost)
              (Fin 0) (toNumber (showTop s))).

Definition handleSearch (api : Backend) (s : AppState) : AppState :=
  let s1 := fetchAggregates (api (searchQuery s)) s in
  setShowGraph false
    (setPage (ofZ 1) (setFiltered (refilter s (filtered s1)) s1)).

Definition resetFilters (s : AppState) : AppState :=
  let s := setStateUS [] (setCenter [] s) in
  let s := setYearVal [] (setYearOp (lit "=") s) in
  let s := setMinCost [] (setMinSavings [] s) in
  let s := setMinReco (lit "10")
             (setOrderBy ImplRate (setShowTop (lit "10") s)) in
  let s := setArcCode [] s in
  setShowGraph false (setPage (ofZ 1) (setFiltered (rows s) s)).

(** *** Pagination *)

Definition totalPages (s : AppState) : number :=
  orElse (ceil (ndiv (ofNat (length (filtered s))) (pageSize s))) (ofZ 1).

(** The rows of the current page, [slice] in the source. *)
Definition pageSlice (s : AppState) : list Recommendation :=
  slice (filtered s)
    (nmul (nsub (page s) (ofZ 1)) (pageSize s))
    (nadd (nmul (nsub (page s) (ofZ 1)) (pageSize s)) (pageSize s)).

(** *** Render *)

Import JSObject.

(** A row as the object handed to the chart screen ([data={filtered}]),
    its keys in the order of the interface declaration. *)
Definition toPlantData (r : Recommendation) : DataVisualizer.PlantData :=
  [ (lit "arc", VStr (arc r));
    (lit "description", VStr (description r));
    (lit "avgSavings", VStr (avgSavings r));
    (lit "avgCost", VStr (avgCost r));
    (lit "avgPayback",
       match avgPayback r with inl n => VNum n | inr s => VStr s end);
    (lit "implementationRate", VStr (implementationRate r));
    (lit "recommended", VNum (recommended r));
    (lit "top", VNum (top r)) ].

Definition graphProps (s : AppState) : DataVisualizer.Props :=
  {| DataVisualizer.data := map toPlantData (filtered s);
     DataVisualizer.years := Some (years s);
     DataVisualizer.center := graphCenter s;
     DataVisualizer.state := graphState s;
     DataVisualizer.topCount := graphTopCount s |}.

Inductive Body : Type :=
| Table (records : nat) (page totalPages : number)
        (rows : list Recommendation)
| Graph (props : DataVisualizer.Props).

(** What [App] returns: the loading line, the error line, or the filters
    card followed by the table or the graph. *)
Inductive View : Type :=
| Loading
| ErrorText (message : jsstring)
| Screen (body : Body).

Definition render (s : AppState) : View :=
  if loading s then Loading
  else
    match err s with
    | Some (c :: m) => ErrorText (c :: m)
    | _ =>
        Screen
          (if showGraph s then Graph (graphProps s)
           else Table (length (filtered s)) (page s) (totalPages s)
                  (pageSlice s))
    end.

(** *** Events *)

Inductive Event : Type :=
| OptionsArrived (resp : fetched OptionsJson)
| ChangeCenter (v : jsstring)
| ChangeStateUS (v : jsstring)
| ChangeYearOp (v : jsstring)
| ChangeYearVal (v : jsstring)
| ChangeMinSavings (v : jsstring)
| ChangeMinCost (v : jsstring)
| ChangeShowTop (v : jsstring)
| ChangeOrderBy (v : OrderField)
| ChangeMinReco (v : jsstring)
| ChangeArcCode (v : jsstring)
| ClickReset
| ClickSearch (api : Backend)
| ClickGenerateGraph
| ChangePageSize (v : jsstring)
| ClickPrev
| ClickNext
| ClickBack.

Definition handle (e : Event) (s : AppState) : AppState :=
  match e with
  | OptionsArrived resp => fetchOptions resp s
  | ChangeCenter v => setCenter v s
  | ChangeStateUS v => setStateUS v s
  | ChangeYearOp v => setYearOp v s
  | ChangeYearVal v => setYearVal v s
  | ChangeMinSavings v => setMinSavings v s
  | ChangeMinCost v => setMinCost v s
  | ChangeShowTop v => setShowTop v s
  | ChangeOrderBy v => setOrderBy v s
  | ChangeMinReco v => setMinReco v s
  | ChangeArcCode v => setArcCode v s
  | ClickReset => resetFilters s
  | ClickSearch api => handleSearch api s
  | ClickGenerateGraph =>
      setShowGraph true
        (setGraphTopCount (toNumber (showTop s))
          (setGraphState (stateUS s) (setGraphCenter (center s) s)))
  | ChangePageSize v => setPage (ofZ 1) (setPageSize (toNumber v) s)
  | ClickPrev => setPage (nsub (page s) (ofZ 1)) s
  | ClickNext => setPage (nadd (page s) (ofZ 1)) s
  | ClickBack => setShowGraph false s
  end.

(** The screen is on display: neither the loading line nor the error
    line has replaced it. *)
Definition interactive (s : AppState) : bool :=
  match render s with Screen _ => true | _ => false end.

(** Which events the rendered controls can fire.  The fixed selects offer
    only their options; a disabled button does not fire; the pager belongs
    to the table and the back button to the graph. *)
Definition enabled (s : AppState) (e : Event) : Prop :=
  match e with
  | OptionsArrived _ => True
  | ChangeYearOp v =>
      interactive s = true /\ In v [lit "="; lit "<="; lit ">="]
  | ChangeShowTop v =>
      interactive s = true /\ In v [lit "10"; lit "25"; lit "50"]
  | ChangeMinReco v =>
      interactive s = true /\ In v [lit "5"; lit "10"; lit "15"]
  | ClickGenerateGraph => interactive s = true /\ filtered s <> []
  | ChangePageSize v =>
      interactive s = true /\ showGraph s = false
      /\ In v [lit "10"; lit "20"; lit "50"]
  | ClickPrev =>
      interactive s = true /\ showGraph s = false
      /\ neqb (page s) (ofZ 1) = false
  | ClickNext =>
      interactive s = true /\ showGraph s = false
      /\ neqb (page s) (totalPages s) = false
  | ClickBack => interactive s = true /\ showGraph s = true
  | _ => interactive s = true
  end.

(** States the screen can be in: the first render, the state after the
    initial [fetchAggregates()] has settled, and whatever enabled events
    lead to from there. *)
Inductive reachable : AppState -> Prop :=
| reach_initial : reachable initialState
| reach_mounted (api : Backend) :
    reachable (fetchAggregates (api []) initialState)
| reach_event s e : reachable s -> enabled s e -> reachable (handle e s).

End App.

(* ================================================================= *)
(** ** Payload formats and the properties of interest *)
(* ================================================================= *)

Module Formats.
Import JS.
Local Open Scope N_scope.

(** The string formats of the payload, read off the comments of the
    [Recommendation] interface: a dollar sign and comma-grouped digits for
    the two currency columns, digits with one decimal and a percent sign
    for the implementation rate. *)

Fixpoint decimalFuel (fuel : nat) (n : N) : jsstring :=
  match fuel with
  | O => []
  | S fuel' =>
      if n <? 10 then [48 + n]
      else decimalFuel fuel' (n / 10) ++ [48 + n mod 10]
  end.

(** Decimal digits of [n], most significant first. *)
Definition decimal (n : N) : jsstring :=
  decimalFuel (S (N.to_nat (N.log2 n))) n.

(** A comma after every third digit of a least-significant-first digit
    list, as long as digits follow; [k] digits remain in the group. *)
Fixpoint groupRev (k : nat) (ds : jsstring) : jsstring :=
  match ds with
  | [] => []
  | d :: ds' =>
      match ds', k with
      | [], _ => [d]
      | _ :: _, O => d :: 44 :: groupRev 2 ds'
      | _ :: _, S k' => d :: groupRev k' ds'
      end
  end.

Definition group (ds : jsstring) : jsstring := rev (groupRev 2 (rev ds)).

(** A string of decimal digits. *)
Definition digits (ds : jsstring) : Prop :=
  Forall (fun c => isDigit c = true) ds.

(** [currency 1234] is ["$1,234"]. *)
Definition currency (dollars : N) : jsstring := 36 :: group (decimal dollars).

(** [percent 125] is ["12.5%"]: the argument counts tenths of a percent. *)
Definition percent (tenths : N) : jsstring :=
  decimal (tenths / 10) ++ [46; 48 + tenths mod 10; 37].

End Formats.

Module Spec.
Import JS App.

(** Ranks run 1, 2, ..., N down the list. *)
Definition dense (xs : list Recommendation) : Prop :=
  map top xs = map ofNat (seq 1 (length xs)).

(** Every element's key is at least that of every element after it. *)
Fixpoint nonincreasing {A : Type} (key : A -> number) (xs : list A) : bool :=
  match xs with
  | [] => true
  | a :: xs' =>
      forallb (fun b => nle (key b) (key a)) xs' && nonincreasing key xs'
  end.

(** The list is in descending order of column [field]. *)
Definition descending (field : OrderField) (xs : list Recommendation) : Prop :=
  nonincreasing (fun r => numericFor r field) xs = true.

(** Every row has a numeric value in column [field]. *)
Definition keyed (field : OrderField) (xs : list Recommendation) : Prop :=
  JSArray.numericKeys (fun r => numericFor r field) xs.

(** Segments of a query string joined by ampersands. *)
Fixpoint joinAmp (segs : list jsstring) : jsstring :=
  match segs with
  | [] => []
  | [x] => x
  | x :: rest => x ++ [38%N] ++ joinAmp rest
  end.

(** The segment [name=value], its value urlencoded, if [present]. *)
Definition segmentIf (present : bool) (name : string) (value : jsstring)
  : list jsstring :=
  if present then [lit name ++ [61%N] ++ URL.encode value] else [].

(** The query string as the interface description gives it,
    [?center=&state=&fiscal_year=<op><value>&arc=], a parameter being left
    out when its filter is empty. *)
Definition expectedQuery (s : AppState) : jsstring :=
  lit "?" ++
  joinAmp
    (segmentIf (negb (isEmpty (center s))) "center" (center s)
     ++ segmentIf (negb (isEmpty (stateUS s))) "state" (stateUS s)
     ++ segmentIf (negb (isEmpty (yearVal s))) "fiscal_year"
          (yearOp s ++ yearVal s)
     ++ segmentIf (negb (isEmpty (arcCode s))) "arc" (trim (arcCode s))).

(** The entry of a parameter list is the Arc Code one. *)
Definition isArc (e : jsstring * jsstring) : bool :=
  jsstring_eqb (fst e) (lit "arc").

(** Row [r] carries the value [x] in column [field], written in that
    column's format. *)
Inductive encodes : OrderField -> Recommendation -> Q -> Prop :=
| encodes_savings r n :
    avgSavings r = Formats.currency n ->
    encodes AvgSavings r (inject_Z (Z.of_N n))
| encodes_cost r n :
    avgCost r = Formats.currency n ->
    encodes AvgCost r (inject_Z (Z.of_N n))
| encodes_rate r t :
    implementationRate r = Formats.percent t ->
    encodes ImplRate r (Z.of_N t # 10).

(** The two fixed selects and the pager keep their cells within bounds:
    Show Top is one of its three options, the page size one of its three
    options, the page a whole number from 1 up. *)
Definition controls_ok (s : AppState) : Prop :=
  In (showTop s) [lit "10"; lit "25"; lit "50"]
  /\ (exists ps, pageSize s = ofZ ps /\ In ps [10; 20; 50]%Z)
  /\ (exists pg, page s = ofZ pg /\ (1 <= pg)%Z).

(** The label of a chart point as the description of the component gives
    it: the description itself up to 15 code units, else its first 15
    followed by an ellipsis. *)
Definition shortened (d : jsstring) : jsstring :=
  if (length d <=? 15)%nat then d else firstn 15 d ++ [8230%N].

(** The parameters the chart offers on the rows of the filter screen. *)
Definition chartKeys : list jsstring :=
  [lit "avgSavings"; lit "avgCost"; lit "avgPayback";
   lit "implementationRate"; lit "recommended"].

(** A record the chart can plot under parameter [selected]: it has a
    string description and a number or a string under [selected]. *)
Definition plottable (selected : jsstring) (item : JSObject.obj) : Prop :=
  (exists d, JSObject.get item DataVisualizer.k_description = JSObject.VStr d)
  /\ ((exists n, JSObject.get item selected = JSObject.VNum n)
      \/ (exists str, JSObject.get item selected = JSObject.VStr str)).

(** The property under which the payload carries a sortable column. *)
Definition fieldKey (field : OrderField) : jsstring :=
  match field with
  | AvgSavings => lit "avgSavings"
  | AvgCost => lit "avgCost"
  | AvgPayback => lit "avgPayback"
  | ImplRate => lit "implementationRate"
  | Recommended => lit "recommended"
  end.

(** Pages needed for [len] rows at [ps] rows a page: the ceiling of
    [len / ps], and one page when there is no row. *)
Definition pageCount (len ps : Z) : Z := Z.max 1 (- ((- len) / ps)).

(** What the pager shows on pages 1 to [n], in turn. *)
Definition pagesOf (s : AppState) (n : nat) : list (list Recommendation) :=
  map (fun k => pageSlice (setPage (ofNat k) s)) (seq 1 n).

(** A record on which the chart transform throws: it has no description
    to measure, or neither a number nor a string under [selected]. *)
Definition throwsOn (selected : jsstring) (item : JSObject.obj) : bool :=
  match JSObject.get item DataVisualizer.k_description with
  | JSObject.VUndefined | JSObject.VNull => true
  | _ =>
      match JSObject.get item selected with
      | JSObject.VNum _ | JSObject.VStr _ => false
      | _ => true
      end
  end.

(** The pager is within range: a page size on offer and a page from 1 to
    the page count of the list on display. *)
Definition pager_ok (s : AppState) : Prop :=
  exists ps pg,
    pageSize s = ofZ ps /\ In ps [10; 20; 50]%Z
    /\ page s = ofZ pg
    /\ (1 <= pg <= pageCount (Z.of_nat (length (filtered s))) ps)%Z.

(** The row meets the three thresholds of the filter card: Min # Recs,
    and Min Savings and Min Cost when they are filled in. *)
Definition passes (s : AppState) (r : Recommendation) : bool :=
  nge (recommended r) (toNumber (minReco s))
  && (isEmpty (minSavings s)
      || nge (numericFor r AvgSavings) (toNumber (minSavings s)))
  && (isEmpty (minCost s)
      || nge (numericFor r AvgCost) (toNumber (minCost s))).

(** Every value is a finite number. *)
Definition allFinite (xs : list number) : Prop :=
  Forall (fun x => exists q, x = Fin q) xs.

(** The values of a column that binary64 holds apart: whole dollar amounts
    up to 2^53, each of them a double, and rates of one decimal up to 100
    percent, which round to doubles that differ as the rates do. *)
Definition exactRange (field : OrderField) (x : Q) : Prop :=
  match field with
  | ImplRate => (x <= 100)%Q
  | _ => (x <= inject_Z (2 ^ 53))%Q
  end.

(** Every value is a whole number, zero or more. *)
Definition wholeAmounts (xs : list number) : Prop :=
  Forall (fun x => exists z, x = ofZ z /\ (0 <= z)%Z) xs.

End Spec.

(* ================================================================= *)
(** ** Sample payload *)
(* ================================================================= *)

Module Examples.
Import JS App.

Definition lamps : Recommendation :=
  {| arc := lit "2.7142";
     description := lit "Utilize higher efficiency lamps and/or ballasts";
     avgSavings := lit "$5,000";
     avgCost := lit "$2,500";
     avgPayback := inl (Fin (1 # 2));
     implementationRate := lit "55.5%";
     recommended := ofZ 120;
     top := ofZ 0 |}.

Definition leaks : Recommendation :=
  {| arc := lit "2.4236";
     description := lit "Eliminate leaks in inert gas and compressed air lines";
     avgSavings := lit "$12,000";
     avgCost := lit "$1,000";
     avgPayback := inr (lit "0.1");
     implementationRate := lit "80.1%";
     recommended := ofZ 40;
     top := ofZ 0 |}.

Definition insulate : Recommendation :=
  {| arc := lit "2.2511";
     description := lit "Insulate bare equipment";
     avgSavings := lit "$800";
     avgCost := lit "$1,200";
     avgPayback := inl (Fin (3 # 2));
     implementationRate := lit "45.0%";
     recommended := ofZ 8;
     top := ofZ 0 |}.

(** A backend that answers every query with the same three rows. *)
Definition threeRows : Backend :=
  fun _ =>
    Json {| agg_success := true; agg_error := None;
            agg_data := [lamps; leaks; insulate] |}.

(** A backend that is down. *)
Definition offline : Backend := fun _ => Threw (lit "Failed to fetch").

(** The screen once the initial fetch has settled. *)
Definition mounted : AppState := fetchAggregates (threeRows []) initialState.

(** The user then picks another sort column and does nothing else. *)
Definition afterSortChange : AppState :=
  handle (ChangeOrderBy Recommended) mounted.

(** Or searches under that column and then resets the filters. *)
Definition afterReset : AppState :=
  handle ClickReset (handle (ClickSearch threeRows) afterSortChange).

(** The chart screen given no rows, and given the three rows. *)
Definition noRows : DataVisualizer.Props :=
  {| DataVisualizer.data := [];
     DataVisualizer.years := None;
     DataVisualizer.center := [];
     DataVisualizer.state := [];
     DataVisualizer.topCount := ofZ 10 |}.

Definition someRows : DataVisualizer.Props :=
  graphProps mounted.

(** The chart screen after its effects have run on the three rows. *)
Definition charted : DataVisualizer.State :=
  DataVisualizer.effects someRows DataVisualizer.initial.

(** A backend with eleven rows, one more than a page holds, and the
    screen on its second page. *)
Definition elevenRows : Backend :=
  fun _ =>
    Json {| agg_success := true; agg_error := None;
            agg_data := repeat lamps 11 |}.

Definition pageTwo : AppState :=
  handle ClickNext (fetchAggregates (elevenRows []) initialState).

(** The screen after a search on the default filters, after a search
    while the backend is down, and with the graph on display. *)
Definition searched : AppState := handle (ClickSearch threeRows) mounted.

Definition failed : AppState := handle (ClickSearch offline) mounted.

Definition graphShown : AppState := handle ClickGenerateGraph mounted.

(** The user has typed letters into Min Savings. *)
Definition lettersInMinSavings : AppState :=
  handle (ChangeMinSavings (lit "abc")) mounted.

(** A record without the property the chart is asked to plot. *)
Definition noSavings : DataVisualizer.State :=
  DataVisualizer.setFilteredData
    [[(lit "description", JSObject.VStr (lit "Insulate bare equipment"))]]
    charted.

End Examples.

(* ================================================================= *)
(** ** Facts about numbers, arrays and sorting *)
(* ================================================================= *)

Module NumberFacts.
Import JS.

Lemma Qred_inject_Z (z : Z) : Qred (inject_Z z) = inject_Z z.
Proof.
  unfold Qred, inject_Z.
  pose proof (Z.ggcd_gcd z 1) as G.
  pose proof (Z.ggcd_correct_divisors z 1) as D.
  destruct (Z.ggcd z 1) as [g [aa bb]]. simpl in G.
  rewrite Z.gcd_1_r in G. subst g. destruct D as [Da Db].
  assert (Ha : aa = z) by lia. assert (Hb : bb = 1%Z) by lia.
  rewrite Ha, Hb. reflexivity.
Qed.

Lemma nadd_ofZ (a b : Z) : nadd (ofZ a) (ofZ b) = ofZ (a + b).
Proof.
  unfold ofZ, nadd. f_equal.
  rewrite <- (Qred_inject_Z (a + b)). apply Qred_complete.
  rewrite inject_Z_plus. reflexivity.
Qed.

Lemma nneg_ofZ (a : Z) : nneg (ofZ a) = ofZ (- a).
Proof.
  unfold ofZ, nneg. f_equal.
  rewrite <- (Qred_inject_Z (- a)). apply Qred_complete.
  rewrite inject_Z_opp. reflexivity.
Qed.

Lemma nsub_ofZ (a b : Z) : nsub (ofZ a) (ofZ b) = ofZ (a - b).
Proof. unfold nsub. rewrite nneg_ofZ, nadd_ofZ. reflexivity. Qed.

Lemma nmul_ofZ (a b : Z) : nmul (ofZ a) (ofZ b) = ofZ (a * b).
Proof.
  unfold ofZ, nmul. f_equal.
  rewrite <- (Qred_inject_Z (a * b)). apply Qred_complete.
  rewrite inject_Z_mult. reflexivity.
Qed.

Lemma toIntegerOrInfinity_ofZ (z : Z) : toIntegerOrInfinity (ofZ z) = IInt z.
Proof. simpl. rewrite Z.quot_1_r. reflexivity. Qed.

Lemma nle_ofZ (a b : Z) : nle (ofZ a) (ofZ b) = (a <=? b)%Z.
Proof.
  simpl. unfold Qle_bool; simpl. rewrite !Z.mul_1_r. reflexivity.
Qed.

(** On numbers other than [NaN], [<=] is a total preorder and [<] its
    strict part. *)
Lemma nlt_false_nle (x y : number) :
  isNaN x = false -> isNaN y = false -> nlt x y = false -> nle y x = true.
Proof.
  destruct x, y; simpl; try congruence.
  intros _ _ H. apply negb_false_iff in H. exact H.
Qed.

Lemma nlt_nle (x y : number) : nlt x y = true -> nle x y = true.
Proof.
  destruct x, y; simpl; try congruence.
  intros H. apply negb_true_iff in H.
  apply Qle_bool_iff. 
  destruct (Qlt_le_dec q q0) as [L|L].
  - apply Qlt_le_weak; exact L.
  - apply Qle_bool_iff in L. congruence.
Qed.

Lemma nle_trans (x y z : number) :
  nle x y = true -> nle y z = true -> nle x z = true.
Proof.
  destruct x, y, z; simpl; try congruence.
  rewrite !Qle_bool_iff. apply Qle_trans.
Qed.

Lemma nle_refl (x : number) : isNaN x = false -> nle x x = true.
Proof.
  destruct x; simpl; try congruence. intros _. apply Qle_bool_iff, Qle_refl.
Qed.

(** The sign test the sort applies to [b - a] is the strict order on the
    keys. *)
Lemma nlt_zero_nsub (ka kb : number) :
  isNaN ka = false -> isNaN kb = false ->
  nlt (Fin 0) (nsub kb ka) = nlt ka kb.
Proof.
  destruct ka as [| | |a], kb as [| | |b];
    unfold nsub, nneg, nadd, nlt, isNaN; try congruence; intros _ _.
  f_equal.
  destruct (Qle_bool b a) eqn:E1, (Qle_bool (Qred (b + Qred (- a))) 0) eqn:E2;
    try reflexivity.
  - apply Qle_bool_iff in E1.
    assert (H : ~ (Qred (b + Qred (- a)) <= 0)%Q)
      by (rewrite <- Qle_bool_iff; congruence).
    exfalso; apply H. rewrite !Qred_correct. lra.
  - apply Qle_bool_iff in E2. rewrite !Qred_correct in E2.
    assert (H : ~ (b <= a)%Q) by (rewrite <- Qle_bool_iff; congruence).
    exfalso; apply H. lra.
Qed.

End NumberFacts.

Module ArrayFacts.
Import JS JSArray Spec NumberFacts.

#[local] Arguments nlt : simpl never.
#[local] Arguments nle : simpl never.
#[local] Arguments nsub : simpl never.

Lemma In_firstn {A : Type} (x : A) (n : nat) (xs : list A) :
  In x (firstn n xs) -> In x xs.
Proof.
  revert n. induction xs as [|a xs IH]; intros [|n]; simpl; try tauto.
  intros [H|H]; [left; exact H | right; eapply IH; exact H].
Qed.

Section Sorting.
Context {A : Type}.
Variable key : A -> number.

Let cmp : A -> A -> number := descendingBy key.
Let numeric : list A -> Prop := numericKeys key.

Lemma insertBy_perm (a : A) (xs : list A) :
  Permutation (insertBy cmp a xs) (a :: xs).
Proof.
  induction xs as [|b xs IH]; simpl.
  - apply Permutation_refl.
  - destruct (nlt (Fin 0) (cmp a b)).
    + eapply perm_trans; [apply perm_skip, IH | apply perm_swap].
    + apply Permutation_refl.
Qed.

Lemma sort_perm (xs : list A) : Permutation (sort cmp xs) xs.
Proof.
  induction xs as [|a xs IH]; simpl.
  - apply perm_nil.
  - eapply perm_trans; [apply insertBy_perm | apply perm_skip, IH].
Qed.

Lemma sort_length (xs : list A) : length (sort cmp xs) = length xs.
Proof. apply Permutation_length, sort_perm. Qed.

Lemma numeric_perm (xs ys : list A) :
  Permutation xs ys -> numeric xs -> numeric ys.
Proof. intros P H. eapply Permutation_Forall; eassumption. Qed.

Lemma insertBy_nonincreasing (a : A) (xs : list A) :
  isNaN (key a) = false -> numeric xs ->
  nonincreasing key xs = true ->
  nonincreasing key (insertBy cmp a xs) = true.
Proof.
  intros Ha. induction xs as [|b xs IH]; intros Hn Hs.
  - reflexivity.
  - inversion Hn as [|? ? Hb Hxs]; subst.
    simpl in Hs. apply andb_true_iff in Hs. destruct Hs as [Hall Hs].
    simpl. unfold cmp at 1, descendingBy.
    rewrite (nlt_zero_nsub _ _ Ha Hb).
    destruct (nlt (key a) (key b)) eqn:E.
    + simpl. apply andb_true_iff. split; [|apply IH; assumption].
      apply forallb_forall. intros c Hc.
      apply (Permutation_in _ (insertBy_perm a xs)) in Hc.
      destruct Hc as [<-|Hc].
      * apply nlt_nle; exact E.
      * rewrite forallb_forall in Hall. apply Hall, Hc.
    + assert (Hba : nle (key b) (key a) = true)
        by (apply nlt_false_nle; assumption).
      simpl. rewrite Hba, Hall, Hs. simpl.
      rewrite andb_true_r. apply forallb_forall. intros c Hc.
      rewrite forallb_forall in Hall.
      eapply nle_trans; [apply Hall, Hc | exact Hba].
Qed.

Lemma sort_nonincreasing (xs : list A) :
  numeric xs -> nonincreasing key (sort cmp xs) = true.
Proof.
  induction xs as [|a xs IH]; intros Hn.
  - reflexivity.
  - inversion Hn; subst. simpl. apply insertBy_nonincreasing.
    + assumption.
    + eapply numeric_perm; [apply Permutation_sym, sort_perm | assumption].
    + apply IH; assumption.
Qed.

Lemma nonincreasing_firstn (n : nat) (xs : list A) :
  nonincreasing key xs = true -> nonincreasing key (firstn n xs) = true.
Proof.
  revert n. induction xs as [|a xs IH]; intros [|n] H; try reflexivity.
  simpl in *. apply andb_true_iff in H. destruct H as [Hall Hs].
  apply andb_true_iff. split; [|apply IH; exact Hs].
  apply forallb_forall. intros c Hc. rewrite forallb_forall in Hall.
  apply Hall. eapply In_firstn; exact Hc.
Qed.

Lemma nonincreasing_skipn (n : nat) (xs : list A) :
  nonincreasing key xs = true -> nonincreasing key (skipn n xs) = true.
Proof.
  revert n. induction xs as [|a xs IH]; intros [|n] H; try reflexivity.
  - exact H.
  - simpl in *. apply andb_true_iff in H. apply IH, H.
Qed.

Lemma nonincreasing_slice (xs : list A) (start stop : number) :
  nonincreasing key xs = true ->
  nonincreasing key (slice xs start stop) = true.
Proof.
  intros H. unfold slice. apply nonincreasing_firstn, nonincreasing_skipn, H.
Qed.

(** A [map] that leaves the keys alone leaves the order alone. *)
Lemma nonincreasing_mapi_from (f : A -> nat -> A) (i0 : nat) (xs : list A) :
  (forall a i, key (f a i) = key a) ->
  nonincreasing key (mapi_from f i0 xs) = nonincreasing key xs.
Proof.
  intros Hf. revert i0. induction xs as [|a xs IH]; intros i0.
  - reflexivity.
  - simpl. rewrite IH, Hf. f_equal.
    clear IH. revert i0. generalize (key a) as k.
    induction xs as [|b xs IH]; intros k i0; simpl.
    + reflexivity.
    + rewrite Hf, IH. reflexivity.
Qed.

End Sorting.

Lemma mapi_from_length {A B : Type} (f : A -> nat -> B) (i0 : nat)
  (xs : list A) : length (mapi_from f i0 xs) = length xs.
Proof.
  revert i0. induction xs as [|a xs IH]; intros i0; simpl;
    [reflexivity | rewrite IH; reflexivity].
Qed.

Lemma slice_length_le {A : Type} (xs : list A) (start stop : number) :
  (length (slice xs start stop) <= length xs)%nat.
Proof.
  unfold slice. rewrite length_firstn, length_skipn. lia.
Qed.

(** [xs.slice(0, n)] keeps at most [n] elements when [n] is not negative. *)
Lemma slice_from_zero {A : Type} (xs : list A) (stop : number) :
  slice xs (Fin 0) stop =
  firstn (relIndex (length xs) (toIntegerOrInfinity stop)) xs.
Proof.
  unfold slice. change (toIntegerOrInfinity (Fin 0)) with (IInt 0).
  assert (H : relIndex (length xs) (IInt 0) = 0%nat).
  { unfold relIndex. change (0 <? 0)%Z with false. cbv iota. lia. }
  rewrite H, Nat.sub_0_r. reflexivity.
Qed.

End ArrayFacts.

(* ================================================================= *)
(** ** The filter screen: ranking, errors, query, pagination *)
(* ================================================================= *)

Module AppFacts.
Import JS JSArray App Spec NumberFacts ArrayFacts.

#[local] Arguments nlt : simpl never.
#[local] Arguments nle : simpl never.
#[local] Arguments nsub : simpl never.
#[local] Arguments toNumber : simpl never.
#[local] Arguments parseFloat : simpl never.

(** *** Ranking *)

Lemma rank_length (xs : list Recommendation) : length (rank xs) = length xs.
Proof. apply mapi_from_length. Qed.

Lemma rank_top_from (i0 : nat) (xs : list Recommendation) :
  map top (mapi_from (fun r i => setTop (ofNat (i + 1)) r) i0 xs)
  = map ofNat (seq (S i0) (length xs)).
Proof.
  revert i0. induction xs as [|r xs IH]; intros i0; simpl.
  - reflexivity.
  - rewrite IH, Nat.add_1_r. reflexivity.
Qed.

Lemma rank_dense (xs : list Recommendation) : dense (rank xs).
Proof. unfold dense. rewrite rank_length. apply rank_top_from. Qed.

Lemma dense_nil : dense [].
Proof. reflexivity. Qed.

Lemma numericFor_setTop (v : number) (r : Recommendation) (f : OrderField) :
  numericFor (setTop v r) f = numericFor r f.
Proof. destruct f; reflexivity. Qed.

Lemma rank_descending (f : OrderField) (xs : list Recommendation) :
  descending f (rank xs) <-> descending f xs.
Proof.
  unfold descending, rank, mapi.
  rewrite nonincreasing_mapi_from; [tauto|].
  intros; apply numericFor_setTop.
Qed.

Lemma mapi_from_keyed (f : OrderField)
  (g : Recommendation -> nat -> Recommendation) (i0 : nat)
  (xs : list Recommendation) :
  (forall r i, numericFor (g r i) f = numericFor r f) ->
  keyed f xs -> keyed f (mapi_from g i0 xs).
Proof.
  intros Hg. unfold keyed, numericKeys. revert i0.
  induction xs as [|r xs IH]; intros i0 H; simpl.
  - constructor.
  - inversion H; subst. constructor.
    + rewrite Hg; assumption.
    + apply IH; assumption.
Qed.

Lemma rank_keyed (f : OrderField) (xs : list Recommendation) :
  keyed f xs -> keyed f (rank xs).
Proof.
  apply mapi_from_keyed. intros; apply numericFor_setTop.
Qed.

Lemma filter_keyed (f : OrderField) (p : Recommendation -> bool)
  (xs : list Recommendation) : keyed f xs -> keyed f (filter p xs).
Proof.
  unfold keyed, numericKeys. rewrite !Forall_forall. intros H r Hr.
  apply filter_In in Hr. apply H, Hr.
Qed.

Lemma sort_keyed (f : OrderField) (xs : list Recommendation) :
  keyed f xs -> keyed f (sort (comparator f) xs).
Proof.
  intros H.
  apply (Permutation_Forall
           (Permutation_sym (sort_perm (fun r => numericFor r f) xs))).
  exact H.
Qed.

Lemma sort_descending (f : OrderField) (xs : list Recommendation) :
  keyed f xs -> descending f (sort (comparator f) xs).
Proof. intros H. apply (sort_nonincreasing (fun r => numericFor r f)), H. Qed.

(** What the search leaves in [filtered] is ranked and, when the rows it
    started from all have a key, in descending order of that key. *)
Lemma refilter_dense (s : AppState) (prev : list Recommendation) :
  dense (refilter s prev).
Proof. apply rank_dense. Qed.

Lemma refilter_descending (s : AppState) (prev : list Recommendation) :
  keyed (orderBy s) prev -> descending (orderBy s) (refilter s prev).
Proof.
  intros H. unfold refilter. apply rank_descending.
  apply (nonincreasing_slice (fun r => numericFor r (orderBy s))).
  apply sort_descending. do 3 apply filter_keyed. exact H.
Qed.

(** The three [filter] calls of the search keep the rows that pass. *)
Lemma refilter_unfold (s : AppState) (prev : list Recommendation) :
  refilter s prev
  = rank (slice (sort (comparator (orderBy s)) (filter (passes s) prev))
                (Fin 0) (toNumber (showTop s))).
Proof.
  unfold refilter. do 3 f_equal.
  induction prev as [|r prev IH]; [reflexivity|].
  cbn [filter]. unfold passes at 1. cbn [numericFor].
  destruct (nge (recommended r) (toNumber (minReco s))); cbn [andb filter];
    [|exact IH].
  destruct (isEmpty (minSavings s)
            || nge (parseFloat (removeAll isDollarComma (avgSavings r)))
                   (toNumber (minSavings s))); cbn [andb filter];
    [|exact IH].
  destruct (isEmpty (minCost s)
            || nge (parseFloat (removeAll isDollarComma (avgCost r)))
                   (toNumber (minCost s))); cbn [filter];
    [rewrite IH; reflexivity | exact IH].
Qed.

Lemma passes_setTop (s : AppState) (v : number) (r : Recommendation) :
  passes s (setTop v r) = passes s r.
Proof. reflexivity. Qed.


End AppFacts.

Module AppClaims.
Import JS JSArray App Spec NumberFacts ArrayFacts AppFacts.

#[local] Arguments nlt : simpl never.
#[local] Arguments nle : simpl never.
#[local] Arguments nsub : simpl never.
#[local] Arguments toNumber : simpl never.
#[local] Arguments parseFloat : simpl never.
#[local] Arguments rank : simpl never.
#[local] Arguments refilter : simpl never.
#[local] Arguments sort : simpl never.

(** Both lists of the state carry dense ranks, whatever has happened. *)
Lemma fetchAggregates_ranked (resp : fetched AggregatesJson) (s : AppState) :
  dense (filtered s) /\ dense (rows s) ->
  dense (filtered (fetchAggregates resp s))
  /\ dense (rows (fetchAggregates resp s)).
Proof.
  intros [Hf Hr]. unfold fetchAggregates, fetchAggregates_settle.
  destruct resp as [m|json]; simpl.
  - split; assumption.
  - destruct (agg_success json); simpl.
    + split; apply rank_dense.
    + split; assumption.
Qed.

Lemma fetchOptions_lists (resp : fetched OptionsJson) (s : AppState) :
  filtered (fetchOptions resp s) = filtered s
  /\ rows (fetchOptions resp s) = rows s.
Proof.
  unfold fetchOptions. destruct resp as [m|meta]; simpl.
  - split; reflexivity.
  - destruct (opt_success meta); split; reflexivity.
Qed.

Lemma handle_ranked (e : Event) (s : AppState) :
  dense (filtered s) /\ dense (rows s) ->
  dense (filtered (handle e s)) /\ dense (rows (handle e s)).
Proof.
  intros H. destruct e; try exact H.
  - simpl. destruct (fetchOptions_lists resp s) as [-> ->]. exact H.
  - simpl. split; apply H.
  - unfold handle, handleSearch.
    destruct (fetchAggregates_ranked (api (searchQuery s)) s H) as [_ Hr].
    split; [apply refilter_dense | exact Hr].
Qed.

Lemma reachable_ranked (s : AppState) :
  reachable s -> dense (filtered s) /\ dense (rows s).
Proof.
  induction 1 as [|api|s e _ IH _].
  - split; apply dense_nil.
  - apply fetchAggregates_ranked. split; apply dense_nil.
  - apply handle_ranked, IH.
Qed.

Lemma handleSearch_filtered (api : Backend) (s : AppState) :
  filtered (handleSearch api s)
  = refilter s (filtered (fetchAggregates (api (searchQuery s)) s)).
Proof. reflexivity. Qed.






(** A reset puts the rows of the last fetch back on display, in the order
    that fetch gave them, while the sort field returns to its default. *)
Lemma reset_keeps_last_fetch_order :
  (forall s,
      filtered (resetFilters s) = rows s
      /\ orderBy (resetFilters s) = ImplRate)
  /\ reachable Examples.afterReset
  /\ dense (filtered Examples.afterReset)
  /\ ~ descending (orderBy Examples.afterReset)
         (filtered Examples.afterReset).
Proof.
  split; [intros s; split; reflexivity|].
  assert (R : reachable Examples.afterReset).
  { apply (reach_event
             (handle (ClickSearch Examples.threeRows) Examples.afterSortChange)
             ClickReset); [|vm_compute; reflexivity].
    apply (reach_event Examples.afterSortChange
             (ClickSearch Examples.threeRows)); [|vm_compute; reflexivity].
    apply (reach_event Examples.mounted (ChangeOrderBy Recommended));
      [|vm_compute; reflexivity].
    apply (reach_mounted Examples.threeRows). }
  split; [exact R|]. split.
  - exact (proj1 (reachable_ranked Examples.afterReset R)).
  - unfold descending. vm_compute. discriminate.
Qed.

(** *** Errors *)

Lemma errorMessage_nonempty (e : option jsstring) : errorMessage e <> [].
Proof. destruct e as [[|c m]|]; discriminate. Qed.

Lemma render_error (s : AppState) (message : jsstring) :
  loading s = false -> err s = Some message -> message <> [] ->
  render s = ErrorText message.
Proof.
  intros Hl He Hm. unfold render. rewrite Hl, He.
  destruct message; [contradiction|reflexivity].
Qed.

Lemma fetchAggregates_error (resp : fetched AggregatesJson) (s : AppState)
  (message : jsstring) :
  tryAggregates resp (fetchAggregates_begin s) = inl message ->
  loading (fetchAggregates resp s) = false
  /\ err (fetchAggregates resp s) = Some message
  /\ filtered (fetchAggregates resp s) = filtered s.
Proof.
  intros H. unfold fetchAggregates, fetchAggregates_settle. rewrite H.
  repeat split.
Qed.

(** C2, as the code has it.  An error thrown in the [try] block of the
    aggregates fetch, be it a rejected request or a [success: false] body
    (whose message is never empty), is caught and its message stored in
    [err]; a stored message that is not empty is what the screen then
    shows, also when the fetch was started by a search.  An error thrown by
    the filter-options fetch is caught and dropped: the state is left as it
    was. *)
Theorem aggregates_error_is_shown :
  (forall resp s message,
      tryAggregates resp (fetchAggregates_begin s) = inl message ->
      message <> [] ->
      err (fetchAggregates resp s) = Some message
      /\ render (fetchAggregates resp s) = ErrorText message)
  /\ (forall api s message,
        tryAggregates (api (searchQuery s)) (fetchAggregates_begin s)
        = inl message ->
        message <> [] ->
        err (handleSearch api s) = Some message
        /\ render (handleSearch api s) = ErrorText message)
  /\ (forall json s,
        agg_success json = false ->
        tryAggregates (Json json) s = inl (errorMessage (agg_error json))
        /\ errorMessage (agg_error json) <> [])
  /\ (forall resp s message,
        tryOptions resp s = inl message -> fetchOptions resp s = s).
Proof.
  split; [|split; [|split]].
  - intros resp s message H Hm.
    destruct (fetchAggregates_error resp s message H) as (Hl & He & _).
    split; [exact He | apply render_error; assumption].
  - intros api s message H Hm.
    destruct (fetchAggregates_error _ s message H) as (Hl & He & _).
    assert (He' : err (handleSearch api s) = Some message) by exact He.
    split; [exact He' | apply render_error; [exact Hl | exact He' | exact Hm]].
  - intros json s H. unfold tryAggregates. rewrite H.
    split; [reflexivity | apply errorMessage_nonempty].
  - intros resp s message H. unfold fetchOptions. rewrite H. reflexivity.
Qed.

Lemma aggregates_error_is_shown_witness :
  render (fetchAggregates (Examples.offline []) initialState)
  = ErrorText (lit "Failed to fetch")
  /\ render (handleSearch Examples.offline Examples.mounted)
     = ErrorText (lit "Failed to fetch")
  /\ fetchOptions (Threw (lit "Failed to fetch")) initialState = initialState.
Proof.
  split; [|split].
  - apply (proj1 aggregates_error_is_shown); [reflexivity | discriminate].
  - apply (proj1 (proj2 aggregates_error_is_shown));
      [reflexivity | discriminate].
  - apply (proj2 (proj2 (proj2 aggregates_error_is_shown))
             (Threw (lit "Failed to fetch")) initialState
             (lit "Failed to fetch")).
    reflexivity.
Defined.

(** C2 fails as stated: a failed filter-options fetch throws, yet nothing
    reaches the error state and the screen stays up. *)
Lemma options_error_is_dropped :
  tryOptions (Threw (lit "Failed to fetch")) initialState
  = inl (lit "Failed to fetch")
  /\ err (fetchOptions (Threw (lit "Failed to fetch")) initialState) = None
  /\ render (fetchOptions (Threw (lit "Failed to fetch")) initialState)
     <> ErrorText (lit "Failed to fetch").
Proof.
  split; [reflexivity|]. split; [reflexivity|]. discriminate.
Qed.


(** *** The query *)

(** C7.  The parameter list of a search holds [center], [state],
    [fiscal_year] and [arc], each once and exactly when its filter value is
    not empty, and nothing else; [fiscal_year] carries the operator
    followed by the year; the query string is the serialized list, which
    reads [?center=..&state=..&fiscal_year=..&arc=..] with the parameters
    of empty filters left out. *)
Theorem search_query_parameters (s : AppState) :
  URL.get (searchParams s) (lit "center")
  = (if isEmpty (center s) then None else Some (center s))
  /\ URL.get (searchParams s) (lit "state")
     = (if isEmpty (stateUS s) then None else Some (stateUS s))
  /\ URL.get (searchParams s) (lit "fiscal_year")
     = (if isEmpty (yearVal s) then None else Some (yearOp s ++ yearVal s))
  /\ URL.get (searchParams s) (lit "arc")
     = (if isEmpty (arcCode s) then None else Some (trim (arcCode s)))
  /\ URL.has (searchParams s) (lit "center") = negb (isEmpty (center s))
  /\ URL.has (searchParams s) (lit "state") = negb (isEmpty (stateUS s))
  /\ URL.has (searchParams s) (lit "fiscal_year") = negb (isEmpty (yearVal s))
  /\ URL.has (searchParams s) (lit "arc") = negb (isEmpty (arcCode s))
  /\ NoDup (map fst (searchParams s))
  /\ incl (map fst (searchParams s))
          [lit "center"; lit "state"; lit "fiscal_year"; lit "arc"]
  /\ searchQuery s = lit "?" ++ URL.toString (searchParams s)
  /\ searchQuery s = expectedQuery s.
Proof.
  unfold expectedQuery, searchQuery, searchParams.
  destruct (center s) as [|c1 l1], (stateUS s) as [|c2 l2],
           (yearVal s) as [|c3 l3], (arcCode s) as [|c4 l4];
    cbn [isEmpty URL.append app negb];
    (repeat split;
     try reflexivity;
     try (repeat constructor; cbn; intuition discriminate);
     try (intros k Hk; cbn in Hk |- *; tauto)).
Qed.

(** C8.  Two searches that differ in the Arc Code alone and get the same
    answer from the backend end in the same state, up to the Arc Code cell
    itself: same rows, same filtered, sorted and ranked list.  The two
    parameter lists agree outside their [arc] entry. *)
Theorem arc_code_only_in_query (api : Backend) (s : AppState)
  (a1 a2 : jsstring) :
  api (searchQuery (setArcCode a1 s)) = api (searchQuery (setArcCode a2 s)) ->
  handleSearch api (setArcCode a2 s)
  = setArcCode a2 (handleSearch api (setArcCode a1 s))
  /\ filtered (handleSearch api (setArcCode a1 s))
     = filtered (handleSearch api (setArcCode a2 s))
  /\ filter (fun e => negb (isArc e)) (searchParams (setArcCode a1 s))
     = filter (fun e => negb (isArc e)) (searchParams (setArcCode a2 s)).
Proof.
  intros H.
  assert (E : handleSearch api (setArcCode a2 s)
              = setArcCode a2 (handleSearch api (setArcCode a1 s))).
  { unfold handleSearch, fetchAggregates, fetchAggregates_settle. rewrite H.
    destruct (api (searchQuery (setArcCode a2 s))) as [m|json]; cbn.
    - reflexivity.
    - destruct (agg_success json); reflexivity. }
  split; [exact E|]. split; [rewrite E; reflexivity|].
  unfold searchParams. cbn [center stateUS yearVal yearOp arcCode setArcCode].
  destruct (center s), (stateUS s), (yearVal s), a1, a2; reflexivity.
Qed.

Lemma arc_code_only_in_query_witness :
  filtered (handleSearch Examples.threeRows
              (setArcCode (lit "2.2") Examples.mounted))
  = filtered (handleSearch Examples.threeRows
                (setArcCode (lit "2.7") Examples.mounted)).
Proof.
  apply (arc_code_only_in_query Examples.threeRows Examples.mounted
           (lit "2.2") (lit "2.7")).
  reflexivity.
Defined.


(** *** What the controls can hold *)

Lemma neqb_ofZ (a b : Z) : neqb (ofZ a) (ofZ b) = (a =? b)%Z.
Proof.
  unfold neqb, ofZ. destruct (Z.eqb_spec a b) as [->|N].
  - apply Qeq_bool_iff. reflexivity.
  - destruct (Qeq_bool (inject_Z a) (inject_Z b)) eqn:E; [|reflexivity].
    apply Qeq_bool_iff in E. unfold Qeq in E. cbn in E. lia.
Qed.

Lemma fetchAggregates_controls (resp : fetched AggregatesJson) (s : AppState) :
  controls_ok s -> controls_ok (fetchAggregates resp s).
Proof.
  intros (Ht & Hs & Hp). unfold fetchAggregates, fetchAggregates_settle.
  destruct resp as [m|json]; cbn.
  - repeat split; assumption.
  - destruct (agg_success json); cbn.
    + repeat split; try assumption. exists 1%Z. split; [reflexivity|lia].
    + repeat split; assumption.
Qed.

Lemma handle_controls (e : Event) (s : AppState) :
  enabled s e -> controls_ok s -> controls_ok (handle e s).
Proof.
  intros He (Ht & Hs & Hp).
  assert (H1 : exists pg, ofZ 1 = ofZ pg /\ (1 <= pg)%Z)
    by (exists 1%Z; split; [reflexivity|lia]).
  destruct e; cbn in He |- *; try (repeat split; assumption).
  - unfold fetchOptions. destruct resp as [m|meta]; cbn.
    + repeat split; assumption.
    + destruct (opt_success meta); repeat split; assumption.
  - repeat split; try assumption. apply He.
  - repeat split; try assumption. left; reflexivity.
  - unfold handleSearch.
    destruct (fetchAggregates_controls (api (searchQuery s)) s)
      as (Ht' & Hs' & _); [repeat split; assumption|].
    repeat split; assumption.
  - destruct He as (_ & _ & Hv).
    split; [assumption|]. split; [|assumption].
    destruct Hv as [<-|[<-|[<-|[]]]];
      [exists 10%Z | exists 20%Z | exists 50%Z];
      (split; [reflexivity | cbn; tauto]).
  - destruct He as (_ & _ & Hne). destruct Hp as (pg & Hpg & Hge).
    repeat split; try assumption. rewrite Hpg in *.
    rewrite neqb_ofZ in Hne. apply Z.eqb_neq in Hne.
    exists (pg - 1)%Z. split; [apply nsub_ofZ | lia].
  - destruct Hp as (pg & Hpg & Hge). repeat split; try assumption.
    rewrite Hpg. exists (pg + 1)%Z. split; [apply nadd_ofZ | lia].
Qed.

Lemma reachable_controls (s : AppState) : reachable s -> controls_ok s.
Proof.
  assert (H0 : controls_ok initialState).
  { split; [left; reflexivity|]. split.
    - exists 10%Z. split; [reflexivity | left; reflexivity].
    - exists 1%Z. split; [reflexivity | lia]. }
  induction 1 as [|api|s e _ IH He].
  - exact H0.
  - apply fetchAggregates_controls, H0.
  - apply handle_controls; assumption.
Qed.

(** *** Pagination *)

Lemma Qceiling_nonneg (q : Q) : (0 <= q)%Q -> (0 <= Qceiling q)%Z.
Proof.
  intros H. change 0%Z with (Qceiling 0). apply Qceiling_resp_le, H.
Qed.

Lemma truthy_ofZ (z : Z) : truthy (ofZ z) = negb (z =? 0)%Z.
Proof.
  change (truthy (ofZ z)) with (negb (neqb (ofZ z) (ofZ 0))).
  rewrite neqb_ofZ. reflexivity.
Qed.

Lemma totalPages_value (s : AppState) (ps : Z) :
  pageSize s = ofZ ps -> (0 < ps)%Z ->
  exists n, totalPages s = ofZ n /\ (1 <= n)%Z
            /\ (filtered s = [] -> n = 1%Z).
Proof.
  intros Hps Hpos. unfold totalPages. rewrite Hps.
  assert (Hs : Qsign (inject_Z ps) = Gt).
  { unfold Qsign; cbn. apply Z.compare_gt_iff. exact Hpos. }
  unfold ofNat, ofZ at 1 2, ndiv. rewrite Hs. unfold ceil.
  set (q := Qred (inject_Z (Z.of_nat (length (filtered s))) / inject_Z ps)).
  assert (Hq : (0 <= Qceiling q)%Z).
  { apply Qceiling_nonneg. unfold q. rewrite Qred_correct.
    apply Qle_shift_div_l.
    - change 0%Q with (inject_Z 0). rewrite <- Zlt_Qlt. exact Hpos.
    - rewrite Qmult_0_l. change 0%Q with (inject_Z 0).
      rewrite <- Zle_Qle. lia. }
  unfold orElse. rewrite truthy_ofZ.
  destruct (Z.eqb_spec (Qceiling q) 0) as [E|E]; cbn [negb].
  - exists 1%Z. repeat split; lia.
  - exists (Qceiling q). split; [reflexivity|]. split; [lia|].
    intros Hnil. exfalso. apply E. unfold q. rewrite Hnil. reflexivity.
Qed.

Lemma pageSlice_length (s : AppState) (ps pg : Z) :
  pageSize s = ofZ ps -> (0 < ps)%Z -> page s = ofZ pg ->
  (length (pageSlice s) <= Z.to_nat ps)%nat.
Proof.
  intros Hps Hpos Hpg. unfold pageSlice. rewrite Hps, Hpg.
  rewrite nsub_ofZ, nmul_ofZ, nadd_ofZ.
  unfold slice. rewrite !toIntegerOrInfinity_ofZ.
  rewrite length_firstn, length_skipn. unfold relIndex.
  set (len := length (filtered s)).
  destruct ((pg - 1) * ps <? 0)%Z eqn:E1, ((pg - 1) * ps + ps <? 0)%Z eqn:E2;
    lia.
Qed.

(** C9.  With a positive whole page size and a whole page number, the
    page count is at least 1 and the page shown holds at most [pageSize]
    rows; on an empty list the count is 1 and the page is empty.  Every
    reachable state has such a page size and page number. *)
Theorem pagination_well_defined :
  (forall s ps pg,
      pageSize s = ofZ ps -> (0 < ps)%Z -> page s = ofZ pg ->
      nle (ofZ 1) (totalPages s) = true
      /\ (length (pageSlice s) <= Z.to_nat ps)%nat
      /\ totalPages (setFiltered [] s) = ofZ 1
      /\ pageSlice (setFiltered [] s) = [])
  /\ (forall s,
        reachable s ->
        exists ps pg,
          pageSize s = ofZ ps /\ (0 < ps)%Z /\ page s = ofZ pg).
Proof.
  split.
  - intros s ps pg Hps Hpos Hpg.
    destruct (totalPages_value s ps Hps Hpos) as (n & Hn & Hge & _).
    destruct (totalPages_value (setFiltered [] s) ps Hps Hpos)
      as (n0 & Hn0 & _ & Hnil).
    repeat split.
    + rewrite Hn, nle_ofZ. apply Z.leb_le, Hge.
    + apply (pageSlice_length s ps pg); assumption.
    + rewrite Hn0, (Hnil eq_refl). reflexivity.
    + unfold pageSlice, slice. cbn [filtered setFiltered].
      rewrite skipn_nil, firstn_nil. reflexivity.
  - intros s H. destruct (reachable_controls s H) as (_ & Hs & Hp).
    destruct Hs as (ps & Hps & Hin), Hp as (pg & Hpg & _).
    exists ps, pg. repeat split; try assumption.
    cbn in Hin. lia.
Qed.

Lemma pagination_well_defined_witness :
  (nle (ofZ 1) (totalPages Examples.mounted) = true
   /\ (length (pageSlice Examples.mounted) <= Z.to_nat 10)%nat
   /\ totalPages (setFiltered [] Examples.mounted) = ofZ 1
   /\ pageSlice (setFiltered [] Examples.mounted) = [])
  /\ (exists ps pg,
         pageSize Examples.mounted = ofZ ps /\ (0 < ps)%Z
         /\ page Examples.mounted = ofZ pg).
Proof.
  split.
  - apply (proj1 pagination_well_defined Examples.mounted 10%Z 1%Z);
      [reflexivity | lia | reflexivity].
  - apply (proj2 pagination_well_defined Examples.mounted).
    apply (reach_mounted Examples.threeRows).
Defined.

(** *** Show Top *)




End AppClaims.

(* ================================================================= *)
(** ** Numeric coercion of the payload formats *)
(* ================================================================= *)

Module ParseFacts.
Import JS Formats NumberFacts.
Local Open Scope N_scope.

Lemma isDigit_char (d : N) : d < 10 -> isDigit (48 + d) = true.
Proof.
  intros H. unfold isDigit. apply andb_true_iff.
  split; apply N.leb_le; lia.
Qed.

Lemma digitVal_char (d : N) : digitVal (48 + d) = d.
Proof. unfold digitVal. lia. Qed.

Lemma digitsValue_snoc (ds : jsstring) (c : N) :
  digitsValue (ds ++ [c]) = 10 * digitsValue ds + digitVal c.
Proof. unfold digitsValue. rewrite fold_left_app. reflexivity. Qed.

Lemma log2_div10 (n : N) : 10 <= n -> N.log2 (n / 10) < N.log2 n.
Proof.
  intros H. apply N.log2_lt_pow2.
  - apply N.div_str_pos. lia.
  - destruct (N.log2_spec n) as [_ Hu]; [lia|].
    rewrite N.pow_succ_r' in Hu.
    apply N.Div0.div_lt_upper_bound. lia.
Qed.

Lemma decimalFuel_spec (fuel : nat) (n : N) :
  (N.to_nat (N.log2 n) < fuel)%nat ->
  digitsValue (decimalFuel fuel n) = n
  /\ digits (decimalFuel fuel n)
  /\ decimalFuel fuel n <> [].
Proof.
  revert n. induction fuel as [|fuel IH]; intros n Hf; [lia|].
  cbn [decimalFuel]. destruct (N.ltb_spec n 10) as [L|L].
  - repeat split.
    + unfold digitsValue. cbn [fold_left]. rewrite digitVal_char. lia.
    + constructor; [apply isDigit_char; exact L | constructor].
    + discriminate.
  - assert (Hlog := log2_div10 n L).
    destruct (IH (n / 10)) as (Hv & Hd & _); [lia|].
    assert (Hm : n mod 10 < 10) by (apply N.mod_lt; lia).
    repeat split.
    + rewrite digitsValue_snoc, Hv, digitVal_char.
      symmetry. apply N.div_mod. lia.
    + apply Forall_app. split; [exact Hd|].
      constructor; [apply isDigit_char; exact Hm | constructor].
    + intros E. apply app_eq_nil in E. destruct E; discriminate.
Qed.

Lemma decimal_spec (n : N) :
  digitsValue (decimal n) = n /\ digits (decimal n) /\ decimal n <> [].
Proof. apply decimalFuel_spec. lia. Qed.

(** *** Scanning a run of digits *)

Lemma spanDigits_app (ds rest : jsstring) :
  digits ds ->
  match rest with [] => True | c :: _ => isDigit c = false end ->
  spanDigits (ds ++ rest) = (ds, rest).
Proof.
  intros Hd Hr. induction Hd as [|c ds Hc _ IH]; cbn [app spanDigits].
  - destruct rest as [|c rest]; [reflexivity|]. cbn [spanDigits].
    rewrite Hr. reflexivity.
  - rewrite Hc, IH. reflexivity.
Qed.

Lemma spanDigits_all (ds : jsstring) :
  digits ds -> spanDigits ds = (ds, []).
Proof.
  intros H. rewrite <- (app_nil_r ds) at 1. apply spanDigits_app; trivial.
Qed.

Lemma digit_not_white (c : N) : isDigit c = true -> isWhite c = false.
Proof.
  unfold isDigit, isWhite. intros H. apply andb_true_iff in H.
  destruct H as [H1 H2]. apply N.leb_le in H1, H2.
  repeat (apply orb_false_iff; split);
    try (apply N.eqb_neq; lia);
    apply andb_false_iff; [right|left]; apply N.leb_gt; lia.
Qed.

(** A string that starts with a digit is scanned from its first unit as
    an unsigned decimal literal. *)
Lemma parseFloat_digit_first (c : N) (s : jsstring) :
  isDigit c = true ->
  parseFloat (c :: s) =
  match scanUnsigned (c :: s) with
  | Some (q, _) => Fin q
  | None => NaN
  end.
Proof.
  intros Hc. unfold parseFloat. cbn [trimStart].
  rewrite (digit_not_white c Hc). unfold scanDecimal.
  unfold isDigit in Hc. apply andb_true_iff in Hc. destruct Hc as [H1 H2].
  apply N.leb_le in H1, H2.
  destruct (N.eqb_spec c 43) as [E|_]; [lia|].
  destruct (N.eqb_spec c 45) as [E|_]; [lia|].
  unfold scanUnsignedOrInf, Infinity_lit.
  cbn [lit list_ascii_of_string map stripPrefix].
  destruct (N.eqb_spec (N_of_ascii "I") c) as [E|_]; [cbn in E; lia|].
  destruct (scanUnsigned (c :: s)) as [[q r]|]; reflexivity.
Qed.

Lemma Qred_mult_one (z : Z) :
  Qred (inject_Z z * Qpower (10 # 1) 0) = inject_Z z.
Proof.
  rewrite <- (Qred_inject_Z z) at 2. apply Qred_complete.
  cbn [Qpower]. apply Qmult_1_r.
Qed.

(** [parseFloat] reads a run of digits as the number they spell. *)
Lemma parseFloat_digits (ds : jsstring) :
  digits ds -> ds <> [] ->
  parseFloat ds = ofZ (Z.of_N (digitsValue ds)).
Proof.
  intros Hd Hne. destruct ds as [|c ds]; [contradiction|].
  inversion Hd as [|? ? Hc Hds]; subst.
  rewrite (parseFloat_digit_first c ds Hc).
  unfold scanUnsigned. rewrite (spanDigits_all (c :: ds) Hd).
  cbn [scanExponent]. unfold decimalValue. rewrite app_nil_r.
  cbn [length]. change (0 - Z.of_nat 0)%Z with 0%Z.
  rewrite Qred_mult_one. reflexivity.
Qed.


(** *** The two payload formats *)

Lemma digit_not_dollar_comma (c : N) :
  isDigit c = true -> App.isDollarComma c = false.
Proof.
  unfold isDigit, App.isDollarComma. intros H. apply andb_true_iff in H.
  destruct H as [H1 _]. apply N.leb_le in H1.
  apply orb_false_iff; split; apply N.eqb_neq; lia.
Qed.

Lemma removeAll_groupRev (k : nat) (ds : jsstring) :
  digits ds -> removeAll App.isDollarComma (groupRev k ds) = ds.
Proof.
  intros H. revert k. induction H as [|d ds Hd Hds IH]; intros k.
  - reflexivity.
  - cbn [groupRev]. destruct ds as [|d' ds'].
    + unfold removeAll. cbn [filter].
      rewrite (digit_not_dollar_comma d Hd). reflexivity.
    + destruct k as [|k]; unfold removeAll in *; cbn [filter];
        rewrite (digit_not_dollar_comma d Hd); cbn [negb].
      * change (App.isDollarComma 44) with true. cbn [negb].
        rewrite IH. reflexivity.
      * rewrite IH. reflexivity.
Qed.

(** Stripping the dollar sign and the commas of a currency string leaves
    the digits of the amount. *)
Lemma removeAll_currency (n : N) :
  removeAll App.isDollarComma (currency n) = decimal n.
Proof.
  destruct (decimal_spec n) as (_ & Hd & _).
  unfold currency, group, removeAll. cbn [filter].
  change (App.isDollarComma 36) with true. cbn [negb].
  rewrite filter_rev.
  change (filter (fun c => negb (App.isDollarComma c))
            (groupRev 2 (rev (decimal n))))
    with (removeAll App.isDollarComma (groupRev 2 (rev (decimal n)))).
  rewrite removeAll_groupRev by (apply Forall_rev, Hd).
  apply rev_involutive.
Qed.

Lemma parseFloat_currency (n : N) :
  parseFloat (removeAll App.isDollarComma (currency n)) = ofZ (Z.of_N n).
Proof.
  destruct (decimal_spec n) as (Hv & Hd & Hne).
  rewrite removeAll_currency, parseFloat_digits by assumption.
  rewrite Hv. reflexivity.
Qed.

Lemma parseFloat_percent (t : N) :
  parseFloat (percent t) = Fin (Qred (Z.of_N t # 10)).
Proof.
  destruct (decimal_spec (t / 10)) as (Hv & Hd & Hne).
  assert (Hm : t mod 10 < 10) by (apply N.mod_lt; lia).
  unfold percent.
  destruct (decimal (t / 10)) as [|c ds] eqn:E; [contradiction|].
  inversion Hd as [|? ? Hc Hds]; subst.
  cbn [app]. rewrite (parseFloat_digit_first c _ Hc).
  unfold scanUnsigned.
  change (c :: ds ++ [46; 48 + t mod 10; 37])
    with ((c :: ds) ++ [46; 48 + t mod 10; 37]).
  rewrite (spanDigits_app (c :: ds) _ Hd) by reflexivity.
  change (46 =? 46) with true. cbv iota.
  change [48 + t mod 10; 37] with ([48 + t mod 10] ++ [37]).
  assert (Hd1 : digits [48 + t mod 10]).
  { apply Forall_cons; [apply isDigit_char, Hm | apply Forall_nil]. }
  rewrite (spanDigits_app [48 + t mod 10] [37] Hd1 eq_refl).
  cbn [scanExponent]. change (isE 37) with false. cbv iota.
  unfold decimalValue. f_equal.
  rewrite digitsValue_snoc, Hv, digitVal_char.
  replace (10 * (t / 10) + t mod 10) with t by (apply N.div_mod; lia).
  apply Qred_complete. cbn [length]. 
  change (0 - Z.of_nat 1)%Z with (-1)%Z.
  unfold Qeq, Qmult, Qpower, Qinv, inject_Z; cbn. lia.
Qed.

End ParseFacts.

Module CoercionClaims.
Import JS JSObject App Spec NumberFacts ParseFacts.

(** C4.  Both coercions read ["$1,234"] as 1234 and ["12.5%"] as 12.5:
    [numericFor] on the column that carries the format, [formatValue] on
    the string itself. *)
Theorem coercion_known_formats :
  (forall a d c p i n t,
      numericFor {| arc := a; description := d; avgSavings := lit "$1,234";
                    avgCost := c; avgPayback := p; implementationRate := i;
                    recommended := n; top := t |} AvgSavings
      = ofZ 1234)
  /\ (forall a d s p i n t,
        numericFor {| arc := a; description := d; avgSavings := s;
                      avgCost := lit "$1,234"; avgPayback := p;
                      implementationRate := i; recommended := n; top := t |}
                   AvgCost
        = ofZ 1234)
  /\ (forall a d s c p n t,
        numericFor {| arc := a; description := d; avgSavings := s;
                      avgCost := c; avgPayback := p;
                      implementationRate := lit "12.5%"; recommended := n;
                      top := t |} ImplRate
        = Fin (25 # 2))
  /\ DataVisualizer.formatValue (VStr (lit "$1,234")) = Some (ofZ 1234)
  /\ DataVisualizer.formatValue (VStr (lit "12.5%")) = Some (Fin (25 # 2)).
Proof.
  repeat split; intros; vm_compute; reflexivity.
Qed.

(** A row that carries [x] in a currency or percentage column is read back
    as [x] by [numericFor]. *)
Lemma numericFor_encoded (field : OrderField) (r : Recommendation) (x : Q) :
  encodes field r x -> numericFor r field = Fin (Qred x).
Proof.
  intros H. destruct H as [r n E|r n E|r t E]; cbn [numericFor]; rewrite E.
  - rewrite parseFloat_currency, Qred_inject_Z. reflexivity.
  - rewrite parseFloat_currency, Qred_inject_Z. reflexivity.
  - apply parseFloat_percent.
Qed.

(** C5.  Of two rows that carry [x <= y] in the same currency or
    percentage column, [numericFor] gives the first a value no larger than
    the second, and the comparator of the sort never asks for the first to
    come first: it is not negative on (first, second) and not positive on
    (second, first).  Where binary64 holds the two values apart (dollar
    amounts up to 2^53, rates up to 100 percent) the comparator is a number
    of that sign, it is positive on (first, second) when [x < y], which
    puts the second row first, and a dollar amount is read back as
    itself. *)
Theorem coercion_monotone (field : OrderField) (a b : Recommendation)
  (x y : Q) :
  encodes field a x -> encodes field b y -> (x <= y)%Q ->
  nle (numericFor a field) (numericFor b field) = true
  /\ nlt (comparator field a b) (Fin 0) = false
  /\ nlt (Fin 0) (comparator field b a) = false
  /\ (exactRange field y ->
      nle (Fin 0) (comparator field a b) = true
      /\ nle (comparator field b a) (Fin 0) = true
      /\ ((x < y)%Q -> nlt (Fin 0) (comparator field a b) = true)
      /\ (field <> ImplRate ->
          numericFor a field = Fin (Qred x)
          /\ numericFor b field = Fin (Qred y))).
Proof.
  intros Ha Hb Hxy. unfold comparator.
  rewrite (numericFor_encoded field a x Ha), (numericFor_encoded field b y Hb).
  unfold nsub, nneg, nadd, nle, nlt.
  assert (Hab : Qle_bool 0 (Qred (Qred y + Qred (- Qred x))) = true)
    by (apply Qle_bool_iff; rewrite !Qred_correct; lra).
  assert (Hba : Qle_bool (Qred (Qred x + Qred (- Qred y))) 0 = true)
    by (apply Qle_bool_iff; rewrite !Qred_correct; lra).
  split; [apply Qle_bool_iff; rewrite !Qred_correct; exact Hxy|].
  split; [rewrite Hab; reflexivity|].
  split; [rewrite Hba; reflexivity|].
  intros _. split; [exact Hab|]. split; [exact Hba|].
  split; [|intros _; split; reflexivity].
  intros Hlt. apply negb_true_iff.
  destruct (Qle_bool (Qred (Qred y + Qred (- Qred x))) 0) eqn:E;
    [|reflexivity].
  apply Qle_bool_iff in E. rewrite !Qred_correct in E. lra.
Qed.

Lemma coercion_monotone_witness :
  nle (numericFor Examples.lamps AvgSavings)
      (numericFor Examples.leaks AvgSavings) = true
  /\ nlt (comparator AvgSavings Examples.lamps Examples.leaks) (Fin 0) = false
  /\ nlt (Fin 0) (comparator AvgSavings Examples.leaks Examples.lamps) = false
  /\ nlt (Fin 0) (comparator AvgSavings Examples.lamps Examples.leaks) = true
  /\ numericFor Examples.lamps AvgSavings
     = Fin (Qred (inject_Z (Z.of_N 5000)))
  /\ numericFor Examples.leaks AvgSavings
     = Fin (Qred (inject_Z (Z.of_N 12000))).
Proof.
  assert (Ha : encodes AvgSavings Examples.lamps (inject_Z (Z.of_N 5000)))
    by (apply encodes_savings; reflexivity).
  assert (Hb : encodes AvgSavings Examples.leaks (inject_Z (Z.of_N 12000)))
    by (apply encodes_savings; reflexivity).
  assert (Hle : (inject_Z (Z.of_N 5000) <= inject_Z (Z.of_N 12000))%Q)
    by (unfold Qle; simpl; lia).
  assert (Hr : exactRange AvgSavings (inject_Z (Z.of_N 12000)))
    by (unfold exactRange, Qle; simpl; lia).
  assert (Hlt : (inject_Z (Z.of_N 5000) < inject_Z (Z.of_N 12000))%Q)
    by (unfold Qlt; simpl; lia).
  assert (Hf : AvgSavings <> ImplRate) by discriminate.
  pose proof (coercion_monotone AvgSavings Examples.lamps Examples.leaks
                (inject_Z (Z.of_N 5000)) (inject_Z (Z.of_N 12000))
                Ha Hb Hle) as (H1 & H2 & H3 & H4).
  destruct (H4 Hr) as (_ & _ & H6 & H7).
  destruct (H7 Hf) as (H8 & H9).
  exact (conj H1 (conj H2 (conj H3 (conj (H6 Hlt) (conj H8 H9))))).
Defined.

End CoercionClaims.

(* ================================================================= *)
(** ** The chart screen: chart points and the empty dataset *)
(* ================================================================= *)

Module ObjectFacts.
Import JS JSArray JSObject.

Lemma jsstring_eqb_eq (a b : jsstring) : jsstring_eqb a b = true <-> a = b.
Proof.
  revert b. induction a as [|x a IH]; intros [|y b]; cbn [jsstring_eqb];
    try (split; [discriminate | discriminate]); try tauto.
  rewrite andb_true_iff, N.eqb_eq, IH. split.
  - intros [-> ->]. reflexivity.
  - intros E. injection E as -> ->. split; reflexivity.
Qed.

Lemma jsstring_eqb_refl (a : jsstring) : jsstring_eqb a a = true.
Proof. apply jsstring_eqb_eq. reflexivity. Qed.

Lemma jsstring_eqb_neq (a b : jsstring) : a <> b -> jsstring_eqb a b = false.
Proof.
  intros H. destruct (jsstring_eqb a b) eqn:E; [|reflexivity].
  apply jsstring_eqb_eq in E. contradiction.
Qed.

(** Reading a property after a spread with override. *)
Lemma get_set_same (k : jsstring) (v : value) (o : obj) :
  get (set k v o) k = v.
Proof.
  induction o as [|[k' v'] o IH]; cbn [set get].
  - rewrite jsstring_eqb_refl. reflexivity.
  - destruct (jsstring_eqb k' k) eqn:E; cbn [get].
    + rewrite jsstring_eqb_refl. reflexivity.
    + rewrite E. exact IH.
Qed.

Lemma get_set_other (k k' : jsstring) (v : value) (o : obj) :
  k <> k' -> get (set k v o) k' = get o k'.
Proof.
  intros N. induction o as [|[k0 v0] o IH]; cbn [set get].
  - rewrite (jsstring_eqb_neq k k' N). reflexivity.
  - destruct (jsstring_eqb k0 k) eqn:E; cbn [get].
    + apply jsstring_eqb_eq in E. subst k0.
      rewrite (jsstring_eqb_neq k k' N). reflexivity.
    + rewrite IH. reflexivity.
Qed.

(** A [map] whose callback returns on every element returns, with one
    result per element, each computed from its element and its index. *)
Lemma mapi_from_opt_total {A B : Type} (f : A -> nat -> option B) (i0 : nat)
  (xs : list A) :
  Forall (fun x => forall i, exists y, f x i = Some y) xs ->
  exists ys,
    mapi_from_opt f i0 xs = Some ys
    /\ length ys = length xs
    /\ forall i x,
         nth_error xs i = Some x ->
         exists y, nth_error ys i = Some y /\ f x (i0 + i)%nat = Some y.
Proof.
  intros H. revert i0. induction H as [|x xs Hx _ IH]; intros i0.
  - exists []. repeat split. intros [|i] x E; discriminate.
  - destruct (Hx i0) as (y & Hy). destruct (IH (S i0)) as (ys & E & L & P).
    exists (y :: ys). cbn [mapi_from_opt]. rewrite Hy, E.
    repeat split; [cbn; rewrite L; reflexivity|].
    intros [|i] x' Ex; cbn [nth_error] in *.
    + injection Ex as <-. exists y. rewrite Nat.add_0_r. auto.
    + destruct (P i x' Ex) as (y' & Hn & Hf). exists y'.
      rewrite Nat.add_succ_r. auto.
Qed.

End ObjectFacts.

Module ChartClaims.
Import JS JSArray JSObject DataVisualizer Spec.
Import NumberFacts ArrayFacts ObjectFacts.

#[local] Arguments nlt : simpl never.
#[local] Arguments parseFloat : simpl never.

(** *** Truncated labels *)

Lemma nlt_ofZ (a b : Z) : nlt (ofZ a) (ofZ b) = (a <? b)%Z.
Proof.
  unfold nlt, ofZ. rewrite Z.ltb_antisym. f_equal.
  change (Qle_bool (inject_Z b) (inject_Z a)) with (nle (ofZ b) (ofZ a)).
  apply nle_ofZ.
Qed.

Lemma truncate_shortened (d : jsstring) :
  truncate (VStr d) (ofZ 15) = Some (VStr (shortened d)).
Proof.
  unfold truncate, shortened, ofNat. rewrite nlt_ofZ. do 2 f_equal.
  destruct (Nat.leb_spec (length d) 15) as [L|L].
  - destruct (Z.ltb_spec 15 (Z.of_nat (length d))); [lia|reflexivity].
  - destruct (Z.ltb_spec 15 (Z.of_nat (length d))); [|lia].
    f_equal. rewrite slice_from_zero, toIntegerOrInfinity_ofZ.
    unfold relIndex. change (15 <? 0)%Z with false. cbv iota.
    f_equal. lia.
Qed.


(** *** Chart points *)

Lemma chartPoint_plottable (selected : SearchParameter) (item : PlantData)
  (idx : nat) :
  plottable selected item ->
  exists d v,
    get item k_description = VStr d
    /\ formatValue (get item selected) = Some v
    /\ chartPoint selected item idx
       = Some (set selected (VNum v)
                (set k_shortDescription (VStr (shortened d))
                  (set k_id (VNum (ofNat (idx + 1))) item))).
Proof.
  intros ((d & Hd) & Hv).
  assert (exists v, formatValue (get item selected) = Some v) as (v & Hf).
  { destruct Hv as [(n & E)|(str & E)]; rewrite E; cbn; eauto. }
  exists d, v. unfold chartPoint.
  rewrite Hd, truncate_shortened, Hf. auto.
Qed.

(** *** The rows of the filter screen *)

Lemma availableParameters_graphProps (a : App.AppState) :
  availableParameters (App.graphProps a)
  = match App.filtered a with [] => [] | _ :: _ => chartKeys end.
Proof.
  unfold availableParameters, App.graphProps. cbn [data].
  destruct (App.filtered a) as [|r rs]; [reflexivity|].
  cbn [map]. destruct r as [? ? ? ? [n|str] ? ? ?]; reflexivity.
Qed.

Lemma plottable_toPlantData (r : App.Recommendation) (k : jsstring) :
  In k chartKeys -> plottable k (App.toPlantData r).
Proof.
  intros H. split; [eexists; reflexivity|].
  cbn in H. destruct H as [<-|[<-|[<-|[<-|[<-|[]]]]]];
    try (right; eexists; reflexivity);
    try (left; eexists; reflexivity).
  destruct r as [? ? ? ? [n|str] ? ? ?];
    [left | right]; eexists; reflexivity.
Qed.

Lemma chartKeys_fresh (k : jsstring) :
  k = [] \/ In k chartKeys -> k <> k_id /\ k <> k_shortDescription.
Proof.
  intros [->|H]; [split; discriminate|].
  cbn in H. destruct H as [<-|[<-|[<-|[<-|[<-|[]]]]]]; split; discriminate.
Qed.

(** What a component mounted with props [p] can hold: the year filter is
    never changed; the selected parameter is none or one on offer; the
    rows to plot are none or all those of [p], the latter with a parameter
    on offer unless none is. *)
Lemma mountedWith_invariant (p : Props) (s : State) :
  mountedWith p s ->
  yearFilter s = All
  /\ (selectedParameter s = []
      \/ In (selectedParameter s) (availableParameters p))
  /\ (filteredData s = []
      \/ (filteredData s = data p
          /\ (availableParameters p = []
              \/ In (selectedParameter s) (availableParameters p)))).
Proof.
  induction 1 as [|s s' _ (Hy & Hsel & Hfd) Hstep].
  - repeat split; auto.
  - destruct Hstep as [s|s v Hne Hv].
    + unfold effects, yearEffect, selectionEffect. rewrite Hy.
      assert (Hsel' :
        let acc := match availableParameters p with
                   | first :: _ =>
                       if isEmpty (selectedParameter s)
                       then setSelectedParameter first s else s
                   | [] => s
                   end in
        yearFilter acc = All
        /\ filteredData acc = filteredData s
        /\ (selectedParameter acc = []
            \/ In (selectedParameter acc) (availableParameters p))
        /\ (availableParameters p = []
            \/ In (selectedParameter acc) (availableParameters p))).
      { cbv zeta. destruct (availableParameters p) as [|first rest] eqn:Ea.
        - repeat split; auto.
        - destruct (selectedParameter s) as [|c sel] eqn:Es; cbn [isEmpty].
          + cbn. repeat split; auto.
          + rewrite Es. destruct Hsel as [Hsel|Hsel]; [discriminate|].
            repeat split; auto. }
      cbv zeta in Hsel'. destruct Hsel' as (Hy' & Hf' & Hs' & Ha').
      set (acc := match availableParameters p with
                  | first :: _ =>
                      if isEmpty (selectedParameter s)
                      then setSelectedParameter first s else s
                  | [] => s
                  end) in *.
      destruct (availableYears p) as [|y ys]; destruct (data p) as [|d ds];
        cbn; repeat split; auto;
        try (rewrite Hf'; destruct Hfd as [Hfd|[Hfd _]]; left; exact Hfd).
    + cbn. repeat split; auto.
      destruct Hfd as [Hfd|[Hfd _]]; [left; exact Hfd | right; auto].
Qed.

(** C6.  On records that have a string description and a number or a
    string under the selected parameter, and for a parameter other than the
    two keys the transform adds, the chart data has one point per record;
    point [i] carries [id = i + 1], the shortened description, the parsed
    number under the selected parameter, and every other field of record
    [i] as it was.  The rows handed over by the filter screen and the
    parameters the component can select on them are of that kind. *)
Theorem chart_points :
  (forall s,
      Forall (plottable (selectedParameter s)) (filteredData s) ->
      selectedParameter s <> k_id ->
      selectedParameter s <> k_shortDescription ->
      exists cd,
        chartData s = Some cd
        /\ length cd = length (filteredData s)
        /\ forall i item,
             nth_error (filteredData s) i = Some item ->
             exists pt d,
               nth_error cd i = Some pt
               /\ get pt k_id = VNum (ofNat (i + 1))
               /\ get item k_description = VStr d
               /\ get pt k_shortDescription = VStr (shortened d)
               /\ (forall n,
                      get item (selectedParameter s) = VNum n ->
                      get pt (selectedParameter s) = VNum n)
               /\ (forall str,
                      get item (selectedParameter s) = VStr str ->
                      get pt (selectedParameter s)
                      = VNum (parseFloat
                                (removeAll isDollarCommaPercent str)))
               /\ (forall k,
                      k <> k_id -> k <> k_shortDescription ->
                      k <> selectedParameter s ->
                      get pt k = get item k))
  /\ (forall a s,
        mountedWith (App.graphProps a) s ->
        Forall (plottable (selectedParameter s)) (filteredData s)
        /\ selectedParameter s <> k_id
        /\ selectedParameter s <> k_shortDescription).
Proof.
  split.
  - intros s Hp Hid Hsd. set (sel := selectedParameter s) in *.
    assert (Htot :
      Forall (fun x => forall i, exists y, chartPoint sel x i = Some y)
             (filteredData s)).
    { eapply Forall_impl; [|exact Hp]. intros item Hi i.
      destruct (chartPoint_plottable sel item i Hi) as (d & v & _ & _ & E).
      eauto. }
    destruct (mapi_from_opt_total (chartPoint sel) 0 (filteredData s) Htot)
      as (cd & E & L & P).
    exists cd. split; [exact E|]. split; [exact L|].
    intros i item Hi. destruct (P i item Hi) as (pt & Hn & Hpt).
    cbn [Nat.add] in Hpt.
    assert (Hitem : plottable sel item).
    { rewrite Forall_forall in Hp. apply Hp. eapply nth_error_In; exact Hi. }
    destruct (chartPoint_plottable sel item i Hitem)
      as (d & v & Hd & Hv & Hc).
    rewrite Hc in Hpt. injection Hpt as <-.
    exists (set sel (VNum v)
              (set k_shortDescription (VStr (shortened d))
                (set k_id (VNum (ofNat (i + 1))) item))), d.
    split; [exact Hn|].
    split.
    { rewrite get_set_other by congruence.
      rewrite get_set_other by discriminate. apply get_set_same. }
    split; [exact Hd|].
    split.
    { rewrite get_set_other by congruence. apply get_set_same. }
    split.
    { intros n En. rewrite En in Hv. cbn in Hv. injection Hv as <-.
      apply get_set_same. }
    split.
    { intros str Es. rewrite Es in Hv. cbn in Hv. injection Hv as <-.
      apply get_set_same. }
    intros k K1 K2 K3. rewrite !get_set_other by congruence. reflexivity.
  - intros a s Hm.
    destruct (mountedWith_invariant _ s Hm) as (_ & Hsel & Hfd).
    rewrite availableParameters_graphProps in Hsel, Hfd.
    assert (Hk : selectedParameter s = []
                 \/ In (selectedParameter s) chartKeys).
    { destruct Hsel as [E|Hin]; [left; exact E|].
      destruct (App.filtered a); [destruct Hin | right; exact Hin]. }
    split; [|apply chartKeys_fresh, Hk].
    destruct Hfd as [->|[-> Hin]]; [constructor|].
    cbn [App.graphProps data].
    destruct (App.filtered a) as [|r rs]; [constructor|].
    destruct Hin as [Hin|Hin]; [discriminate|].
    apply Forall_forall. intros item Hitem.
    apply in_map_iff in Hitem. destruct Hitem as (r' & <- & _).
    apply plottable_toPlantData, Hin.
Qed.

Lemma chart_points_witness :
  (exists cd,
      chartData Examples.charted = Some cd
      /\ length cd = length (filteredData Examples.charted)
      /\ forall i item,
           nth_error (filteredData Examples.charted) i = Some item ->
           exists pt d,
             nth_error cd i = Some pt
             /\ get pt k_id = VNum (ofNat (i + 1))
             /\ get item k_description = VStr d
             /\ get pt k_shortDescription = VStr (shortened d)
             /\ (forall n,
                    get item (selectedParameter Examples.charted) = VNum n ->
                    get pt (selectedParameter Examples.charted) = VNum n)
             /\ (forall str,
                    get item (selectedParameter Examples.charted) = VStr str ->
                    get pt (selectedParameter Examples.charted)
                    = VNum (parseFloat
                              (removeAll isDollarCommaPercent str)))
             /\ (forall k,
                    k <> k_id -> k <> k_shortDescription ->
                    k <> selectedParameter Examples.charted ->
                    get pt k = get item k))
  /\ (Forall (plottable (selectedParameter Examples.charted))
             (filteredData Examples.charted)
      /\ selectedParameter Examples.charted <> k_id
      /\ selectedParameter Examples.charted <> k_shortDescription).
Proof.
  split.
  - apply (proj1 chart_points Examples.charted).
    + repeat constructor; eexists; reflexivity.
    + discriminate.
    + discriminate.
  - apply (proj2 chart_points Examples.mounted Examples.charted).
    apply (mounted_step Examples.someRows initial).
    + apply mounted_initial.
    + apply step_effects.
Defined.

(** *** The empty dataset *)

(** Under props without rows, no step touches [filteredData]. *)
Lemma step_empty (p : Props) (s s' : State) :
  data p = [] -> step p s s' -> filteredData s' = filteredData s.
Proof.
  intros Hd H. destruct H as [s|s v Hne _].
  - unfold effects, yearEffect, selectionEffect, availableParameters.
    rewrite Hd. destruct (availableYears p); reflexivity.
  - contradiction.
Qed.

Lemma mountedWith_empty (p : Props) (s : State) :
  data p = [] -> mountedWith p s -> filteredData s = [].
Proof.
  intros Hd H. induction H as [|s s' _ IH Hs].
  - reflexivity.
  - rewrite (step_empty p s s' Hd Hs). exact IH.
Qed.

Lemma render_view_empty (p : Props) (s : State) (r : Rendered) :
  data p = [] -> render p s = Some r -> r_view r = NoData.
Proof.
  intros Hd H. unfold render in H. destruct (chartData s); [|discriminate].
  injection H as <-. cbn [r_view]. rewrite Hd. reflexivity.
Qed.

(** C3, as the code has it.  A chart component mounted without rows, and
    never given any, derives an empty chart dataset and returns the
    no-data element; the average is nevertheless evaluated before the
    guard, as 0 / 0, which in JavaScript is [NaN] and raises nothing; the
    value is part of no element returned.  With an empty dataset the
    component returns the no-data element in whatever state it is. *)
Theorem empty_dataset_shows_no_data :
  (forall p s,
      data p = [] -> mountedWith p s ->
      exists r,
        render p s = Some r
        /\ r_chartData r = []
        /\ r_view r = NoData
        /\ r_avgValue r = ndiv (Fin 0) (ofNat 0)
        /\ r_avgValue r = NaN)
  /\ (forall p s r, data p = [] -> render p s = Some r -> r_view r = NoData).
Proof.
  split.
  - intros p s Hd Hm. pose proof (mountedWith_empty p s Hd Hm) as Hf.
    unfold render, chartData. rewrite Hf. cbn [mapi_opt mapi_from_opt].
    eexists. split; [reflexivity|]. cbn. rewrite Hd. repeat split.
  - intros p s r Hd H. exact (render_view_empty p s r Hd H).
Qed.

Lemma empty_dataset_shows_no_data_witness :
  (exists r,
      render Examples.noRows initial = Some r
      /\ r_chartData r = []
      /\ r_view r = NoData
      /\ r_avgValue r = ndiv (Fin 0) (ofNat 0)
      /\ r_avgValue r = NaN)
  /\ match render Examples.noRows Examples.charted with
     | Some r => r_view r = NoData
     | None => False
     end.
Proof.
  split.
  - apply (proj1 empty_dataset_shows_no_data Examples.noRows initial).
    + reflexivity.
    + apply mounted_initial.
  - destruct (render Examples.noRows Examples.charted) as [r|] eqn:E.
    + apply (proj2 empty_dataset_shows_no_data Examples.noRows
               Examples.charted r eq_refl E).
    + vm_compute in E. discriminate E.
Defined.

(** C3 fails as stated, twice over.  Mounted without rows, the component
    evaluates the average with a zero divisor.  And a component that had
    rows keeps the chart dataset derived from them when its parent then
    passes an empty dataset. *)
Lemma empty_dataset_divides_or_keeps_chart :
  (mountedWith Examples.noRows initial
   /\ data Examples.noRows = []
   /\ exists r,
        render Examples.noRows initial = Some r
        /\ length (r_chartData r) = 0%nat
        /\ r_avgValue r
           = ndiv (sumValue (r_chartData r) (selectedParameter initial))
                  (ofNat 0)
        /\ r_avgValue r = NaN)
  /\ (live Examples.noRows Examples.charted
      /\ data Examples.noRows = []
      /\ exists r,
           render Examples.noRows Examples.charted = Some r
           /\ length (r_chartData r) = 3%nat).
Proof.
  split.
  - split; [apply mounted_initial|]. split; [reflexivity|].
    eexists. split; [reflexivity|]. repeat split.
  - split.
    + apply (live_props Examples.someRows).
      apply (live_step Examples.someRows initial).
      * apply live_initial.
      * apply step_effects.
    + split; [reflexivity|].
      eexists. split; [vm_compute; reflexivity|]. reflexivity.
Qed.

End ChartClaims.

(* ================================================================= *)
(** ** More on the filter screen: fetch, search, pager, graph *)
(* ================================================================= *)

Module ScreenFacts.
Import JS JSArray App Spec NumberFacts ArrayFacts AppFacts AppClaims.

#[local] Arguments nlt : simpl never.
#[local] Arguments nle : simpl never.
#[local] Arguments nsub : simpl never.
#[local] Arguments toNumber : simpl never.
#[local] Arguments parseFloat : simpl never.
#[local] Arguments rank : simpl never.
#[local] Arguments refilter : simpl never.
#[local] Arguments sort : simpl never.

(** *** Ranking forgets nothing but the old rank *)

Lemma setTop_setTop (v w : number) (r : Recommendation) :
  setTop v (setTop w r) = setTop v r.
Proof. reflexivity. Qed.

Lemma map_setTop_mapi_from (v : number) (i0 : nat) (xs : list Recommendation) :
  map (setTop v) (mapi_from (fun r i => setTop (ofNat (i + 1)) r) i0 xs)
  = map (setTop v) xs.
Proof.
  revert i0. induction xs as [|r xs IH]; intros i0; cbn [mapi_from map].
  - reflexivity.
  - rewrite IH. reflexivity.
Qed.

Lemma map_setTop_rank (v : number) (xs : list Recommendation) :
  map (setTop v) (rank xs) = map (setTop v) xs.
Proof. apply map_setTop_mapi_from. Qed.

Lemma In_mapi_from {A B : Type} (f : A -> nat -> B) (i0 : nat) (xs : list A)
  (y : B) :
  In y (mapi_from f i0 xs) -> exists x i, In x xs /\ y = f x i.
Proof.
  revert i0. induction xs as [|x xs IH]; intros i0; cbn [mapi_from In].
  - tauto.
  - intros [<-|H].
    + exists x, i0. auto.
    + destruct (IH _ H) as (x' & i & Hin & E). exists x', i. auto.
Qed.

Lemma In_rank (r : Recommendation) (xs : list Recommendation) :
  In r (rank xs) -> exists r0, In r0 xs /\ r = setTop (top r) r0.
Proof.
  intros H. destruct (In_mapi_from _ _ _ _ H) as (r0 & i & Hin & ->).
  exists r0. auto.
Qed.

Lemma In_skipn {A : Type} (x : A) (n : nat) (xs : list A) :
  In x (skipn n xs) -> In x xs.
Proof.
  revert n. induction xs as [|a xs IH]; intros [|n]; cbn [skipn In]; try tauto.
  intros H. right. eapply IH; exact H.
Qed.

Lemma In_slice {A : Type} (x : A) (xs : list A) (start stop : number) :
  In x (slice xs start stop) -> In x xs.
Proof.
  unfold slice. intros H. eapply In_skipn, In_firstn; exact H.
Qed.

Lemma In_sort (f : OrderField) (r : Recommendation) (xs : list Recommendation) :
  In r (sort (comparator f) xs) -> In r xs.
Proof.
  apply Permutation_in, (sort_perm (fun r => numericFor r f)).
Qed.



Lemma nle_not_nlt (x y : number) : nle y x = true -> nlt x y = false.
Proof.
  destruct x, y; unfold nle, nlt; try congruence.
  intros ->. reflexivity.
Qed.

(** Sorting a list that is already in descending order changes nothing. *)
Lemma sort_sorted {A : Type} (key : A -> number) (xs : list A) :
  nonincreasing key xs = true ->
  sort (descendingBy key) xs = xs.
Proof.
  induction xs as [|a xs IH]; intros H; [reflexivity|].
  cbn [nonincreasing] in H. apply andb_true_iff in H. destruct H as [Ha Hs].
  unfold sort in *. cbn [fold_right]. rewrite (IH Hs).
  destruct xs as [|b xs]; [reflexivity|].
  cbn [insertBy]. cbn [forallb] in Ha. apply andb_true_iff in Ha.
  destruct Ha as [Hb _]. unfold descendingBy at 1.
  assert (E : nlt (Fin 0) (nsub (key b) (key a)) = false).
  { destruct (key a) as [| | |qa] eqn:Ea, (key b) as [| | |qb] eqn:Eb;
      unfold nle in Hb; try discriminate; try reflexivity.
    unfold nsub, nneg, nadd, nlt. apply negb_false_iff.
    apply Qle_bool_iff in Hb. apply Qle_bool_iff.
    rewrite !Qred_correct. lra. }
  rewrite E. reflexivity.
Qed.

Lemma filter_all {A : Type} (p : A -> bool) (xs : list A) :
  (forall x, In x xs -> p x = true) -> filter p xs = xs.
Proof.
  induction xs as [|x xs IH]; intros H; cbn [filter]; [reflexivity|].
  rewrite (H x (or_introl eq_refl)), IH; [reflexivity|].
  intros y Hy. apply H. right. exact Hy.
Qed.

Lemma rank_from_twice (i j : nat) (xs : list Recommendation) :
  mapi_from (fun r k => setTop (ofNat (k + 1)) r) i
    (mapi_from (fun r k => setTop (ofNat (k + 1)) r) j xs)
  = mapi_from (fun r k => setTop (ofNat (k + 1)) r) i xs.
Proof.
  revert i j. induction xs as [|r xs IH]; intros i j; cbn [mapi_from];
    [reflexivity|].
  rewrite IH. reflexivity.
Qed.

Lemma rank_rank (xs : list Recommendation) : rank (rank xs) = rank xs.
Proof. apply rank_from_twice. Qed.

(** Cutting a list at [stop] a second time cuts nothing more, as long as
    [stop] is not negative. *)
Lemma slice_slice {A : Type} (xs : list A) (stop : number) :
  nle (Fin 0) stop = true ->
  relIndex (length (slice xs (Fin 0) stop)) (toIntegerOrInfinity stop)
  = length (slice xs (Fin 0) stop).
Proof.
  intros H. rewrite slice_from_zero, length_firstn.
  destruct stop as [| | |q]; try discriminate; [reflexivity|].
  cbn [toIntegerOrInfinity]. unfold relIndex.
  assert (Hz : (0 <= Qnum q ÷ Z.pos (Qden q))%Z).
  { unfold nle in H. apply Qle_bool_iff in H. unfold Qle in H. cbn in H.
    apply Z.quot_pos; lia. }
  destruct (Qnum q ÷ Z.pos (Qden q) <? 0)%Z eqn:E; lia.
Qed.


(** *** The pager *)

Lemma pageCount_bounds (len ps : Z) :
  (0 <= len)%Z -> (0 < ps)%Z ->
  (1 <= pageCount len ps)%Z
  /\ (len <= pageCount len ps * ps)%Z
  /\ (0 < len -> (pageCount len ps - 1) * ps < len)%Z.
Proof.
  intros Hl Hp. unfold pageCount.
  pose proof (Z.div_mod (- len) ps ltac:(lia)) as D.
  pose proof (Z.mod_pos_bound (- len) ps Hp) as M.
  set (d := (- len / ps)%Z) in *. set (m := ((- len) mod ps)%Z) in *.
  clearbody d m.
  assert (Hd : (d <= 0)%Z).
  { destruct (Z_le_gt_dec d 0) as [L|G]; [exact L|].
    assert (ps * d >= ps)%Z by nia. lia. }
  assert (Hu : (len <= - d * ps)%Z) by nia.
  assert (Hl' : (0 < len -> (- d - 1) * ps < len)%Z) by nia.
  split; [lia|]. split.
  - destruct (Z.max_spec 1 (- d)) as [[Hm ->]|[Hm ->]]; nia.
  - intros Hpos. assert (d <= -1)%Z by nia.
    destruct (Z.max_spec 1 (- d)) as [[Hm ->]|[Hm ->]]; nia.
Qed.

Lemma totalPages_exact (s : AppState) (ps : Z) :
  pageSize s = ofZ ps -> (0 < ps)%Z ->
  totalPages s = ofZ (pageCount (Z.of_nat (length (filtered s))) ps).
Proof.
  intros Hps Hpos. unfold totalPages. rewrite Hps.
  assert (Hs : Qsign (inject_Z ps) = Gt).
  { unfold Qsign; cbn. apply Z.compare_gt_iff. exact Hpos. }
  unfold ofNat, ofZ at 1 2, ndiv. rewrite Hs. unfold ceil.
  set (len := Z.of_nat (length (filtered s))).
  assert (Hc : Qceiling (Qred (inject_Z len / inject_Z ps))
               = (- (- len / ps))%Z).
  { destruct ps as [|p|p]; try lia.
    rewrite (Qceiling_comp _ (len # p)).
    - unfold Qceiling, Qfloor, Qopp. cbn. reflexivity.
    - rewrite Qred_correct. unfold Qeq, Qdiv, Qmult, Qinv, inject_Z. cbn. lia. }
  rewrite Hc. unfold orElse. rewrite truthy_ofZ.
  assert (Hd : (0 <= - (- len / ps))%Z).
  { assert (- len / ps <= 0)%Z
      by (apply Z.div_le_upper_bound; [exact Hpos | unfold len; lia]).
    lia. }
  unfold pageCount.
  destruct (Z.eqb_spec (- (- len / ps)) 0) as [E|E]; cbn [negb].
  - rewrite E. reflexivity.
  - f_equal. lia.
Qed.

Lemma pager_ok_same (s s' : AppState) :
  pageSize s' = pageSize s -> page s' = page s -> filtered s' = filtered s ->
  pager_ok s -> pager_ok s'.
Proof.
  intros E1 E2 E3 (ps & pg & H). exists ps, pg. rewrite E1, E2, E3. exact H.
Qed.

Lemma pager_ok_first (s : AppState) (ps : Z) :
  pageSize s = ofZ ps -> In ps [10; 20; 50]%Z -> page s = ofZ 1 ->
  pager_ok s.
Proof.
  intros E1 Hin E2. exists ps, 1%Z. repeat split; try assumption; try lia.
  apply pageCount_bounds; [lia|]. cbn in Hin. lia.
Qed.

Lemma fetchAggregates_pager (resp : fetched AggregatesJson) (s : AppState) :
  pager_ok s -> pager_ok (fetchAggregates resp s).
Proof.
  intros H. unfold fetchAggregates, fetchAggregates_settle, tryAggregates.
  destruct resp as [m|json]; [|destruct (agg_success json)].
  - apply (pager_ok_same s); try reflexivity. exact H.
  - destruct H as (ps & pg & Hps & Hin & _).
    apply (pager_ok_first _ ps); [exact Hps | exact Hin | reflexivity].
  - apply (pager_ok_same s); try reflexivity. exact H.
Qed.

Lemma handle_pager (e : Event) (s : AppState) :
  enabled s e -> pager_ok s -> pager_ok (handle e s).
Proof.
  intros He H.
  destruct e; cbn [handle];
    try (apply (pager_ok_same s); [reflexivity..|exact H]).
  - unfold fetchOptions, tryOptions.
    destruct resp as [m|meta]; [|destruct (opt_success meta)];
      (apply (pager_ok_same s); [reflexivity..|exact H]).
  - destruct H as (ps & pg & Hps & Hin & _).
    apply (pager_ok_first _ ps); [exact Hps | exact Hin | reflexivity].
  - destruct (fetchAggregates_pager (api (searchQuery s)) s H)
      as (ps & pg & Hps & Hin & _).
    apply (pager_ok_first _ ps); [exact Hps | exact Hin | reflexivity].
  - destruct He as (_ & _ & Hv).
    destruct Hv as [<-|[<-|[<-|[]]]];
      [apply (pager_ok_first _ 10%Z) | apply (pager_ok_first _ 20%Z)
       | apply (pager_ok_first _ 50%Z)];
      try reflexivity; cbn; tauto.
  - destruct He as (_ & _ & Hne).
    destruct H as (ps & pg & Hps & Hin & Hpg & Hr).
    rewrite Hpg, neqb_ofZ in Hne. apply Z.eqb_neq in Hne.
    exists ps, (pg - 1)%Z. cbn [pageSize page filtered setPage].
    rewrite Hpg, nsub_ofZ. repeat split; try assumption; lia.
  - destruct He as (_ & _ & Hne).
    destruct H as (ps & pg & Hps & Hin & Hpg & Hr).
    assert (Hpos : (0 < ps)%Z) by (cbn in Hin; lia).
    rewrite Hpg, (totalPages_exact s ps Hps Hpos), neqb_ofZ in Hne.
    apply Z.eqb_neq in Hne.
    exists ps, (pg + 1)%Z. cbn [pageSize page filtered setPage].
    rewrite Hpg, nadd_ofZ. repeat split; try assumption; lia.
Qed.

Lemma reachable_pager (s : AppState) : reachable s -> pager_ok s.
Proof.
  assert (H0 : pager_ok initialState)
    by (apply (pager_ok_first _ 10%Z);
        [reflexivity | cbn; tauto | reflexivity]).
  induction 1 as [|api|s e _ IH He].
  - exact H0.
  - apply fetchAggregates_pager, H0.
  - apply handle_pager; assumption.
Qed.


Lemma pageSlice_explicit (s : AppState) (ps pg : Z) :
  pageSize s = ofZ ps -> (0 < ps)%Z -> page s = ofZ pg -> (1 <= pg)%Z ->
  pageSlice s
  = firstn (Z.to_nat ps) (skipn (Z.to_nat ((pg - 1) * ps)) (filtered s)).
Proof.
  intros Hps Hpos Hpg Hge. unfold pageSlice. rewrite Hps, Hpg.
  rewrite nsub_ofZ, nmul_ofZ, nadd_ofZ.
  unfold slice. rewrite !toIntegerOrInfinity_ofZ. unfold relIndex.
  set (xs := filtered s). set (start := ((pg - 1) * ps)%Z).
  assert (Hs : (0 <= start)%Z) by (unfold start; nia).
  destruct (start <? 0)%Z eqn:E1; [lia|].
  destruct (start + ps <? 0)%Z eqn:E2; [lia|].
  destruct (Z_le_gt_dec start (Z.of_nat (length xs))) as [L|G].
  - replace (Z.to_nat (Z.min start (Z.of_nat (length xs))))
      with (Z.to_nat start) by lia.
    rewrite <- (firstn_all (skipn (Z.to_nat start) xs)) at 2.
    rewrite firstn_firstn. f_equal. rewrite length_skipn. lia.
  - replace (Z.to_nat (Z.min start (Z.of_nat (length xs))))
      with (length xs) by lia.
    rewrite skipn_all, firstn_nil.
    rewrite (skipn_all2 xs) by lia. rewrite firstn_nil. reflexivity.
Qed.

Lemma firstn_plus {A : Type} (a b : nat) (xs : list A) :
  firstn (a + b) xs = firstn a xs ++ firstn b (skipn a xs).
Proof.
  revert xs. induction a as [|a IH]; intros xs; [reflexivity|].
  destruct xs as [|x xs]; cbn [Nat.add firstn skipn app].
  - rewrite firstn_nil. reflexivity.
  - rewrite IH. reflexivity.
Qed.

(** Consecutive chunks of [ps] elements add up to a prefix. *)
Lemma chunks_prefix {A : Type} (ps n : nat) (xs : list A) :
  concat (map (fun k => firstn ps (skipn (k * ps) xs)) (seq 0 n))
  = firstn (n * ps) xs.
Proof.
  induction n as [|n IH]; [reflexivity|].
  rewrite seq_S, map_app, concat_app, IH. cbn [Nat.add map concat].
  rewrite app_nil_r.
  replace (S n * ps)%nat with (n * ps + ps)%nat by lia.
  symmetry. apply firstn_plus.
Qed.


(** *** Ties *)

Lemma neqb_same_not_nlt (x y k : number) :
  neqb x k = true -> neqb y k = true -> nlt x y = false.
Proof.
  destruct x as [| | |a], y as [| | |b], k as [| | |c];
    unfold neqb, nlt; try discriminate; try reflexivity.
  intros Ha Hb. apply Qeq_bool_iff in Ha, Hb. apply negb_false_iff.
  apply Qle_bool_iff. rewrite Ha, Hb. apply Qle_refl.
Qed.

Lemma filter_insertBy {A : Type} (key : A -> number) (k : number) (a : A)
  (xs : list A) :
  isNaN (key a) = false -> numericKeys key xs ->
  filter (fun r => neqb (key r) k) (insertBy (descendingBy key) a xs)
  = filter (fun r => neqb (key r) k) (a :: xs).
Proof.
  intros Ha H. induction H as [|b xs Hb _ IH]; [reflexivity|].
  cbn [insertBy]. unfold descendingBy at 1.
  rewrite (nlt_zero_nsub _ _ Ha Hb).
  destruct (nlt (key a) (key b)) eqn:L; [|reflexivity].
  cbn [filter] in *. rewrite IH.
  destruct (neqb (key a) k) eqn:Ea, (neqb (key b) k) eqn:Eb;
    try reflexivity.
  rewrite (neqb_same_not_nlt _ _ _ Ea Eb) in L. discriminate L.
Qed.

Lemma filter_sort {A : Type} (key : A -> number) (k : number) (xs : list A) :
  numericKeys key xs ->
  filter (fun r => neqb (key r) k) (sort (descendingBy key) xs)
  = filter (fun r => neqb (key r) k) xs.
Proof.
  intros H. induction H as [|a xs Ha Hxs IH]; [reflexivity|].
  unfold sort in *. cbn [fold_right].
  rewrite filter_insertBy.
  - cbn [filter]. rewrite IH. reflexivity.
  - exact Ha.
  - apply (Permutation_Forall (Permutation_sym (sort_perm key xs))), Hxs.
Qed.

End ScreenFacts.

Module ScreenExtras.
Import JS JSArray App Spec.
Import NumberFacts ArrayFacts AppFacts AppClaims ScreenFacts.

#[local] Arguments nlt : simpl never.
#[local] Arguments nle : simpl never.
#[local] Arguments nsub : simpl never.
#[local] Arguments toNumber : simpl never.
#[local] Arguments parseFloat : simpl never.
#[local] Arguments rank : simpl never.
#[local] Arguments refilter : simpl never.
#[local] Arguments sort : simpl never.

(** X1.  A successful aggregates fetch puts every row of the payload on
    the screen exactly once: [rows] and [filtered] are one list, a
    rearrangement of the payload up to the rank field, ranked 1..N; the
    error is cleared and the table is back on page 1.  When every row has
    a number in the sort column, the list is in descending order of it. *)
Theorem fetch_success_shows_payload (json : AggregatesJson) (s : AppState) :
  agg_success json = true ->
  rows (fetchAggregates (Json json) s)
  = filtered (fetchAggregates (Json json) s)
  /\ Permutation
       (map (setTop (ofZ 0)) (filtered (fetchAggregates (Json json) s)))
                 (map (setTop (ofZ 0)) (agg_data json))
  /\ dense (filtered (fetchAggregates (Json json) s))
  /\ err (fetchAggregates (Json json) s) = None
  /\ render (fetchAggregates (Json json) s)
     = Screen (Table (length (agg_data json)) (ofZ 1)
                 (totalPages (fetchAggregates (Json json) s))
                 (pageSlice (fetchAggregates (Json json) s)))
  /\ (keyed (orderBy s) (agg_data json) ->
      descending (orderBy s) (filtered (fetchAggregates (Json json) s))).
Proof.
  intros Hok.
  assert (E : filtered (fetchAggregates (Json json) s)
              = rank (sort (comparator (orderBy s)) (agg_data json))).
  { unfold fetchAggregates, fetchAggregates_settle, tryAggregates.
    rewrite Hok. reflexivity. }
  assert (R : rows (fetchAggregates (Json json) s)
              = rank (sort (comparator (orderBy s)) (agg_data json))).
  { unfold fetchAggregates, fetchAggregates_settle, tryAggregates.
    rewrite Hok. reflexivity. }
  split; [congruence|]. rewrite E.
  split.
  { rewrite map_setTop_rank. apply Permutation_map.
    apply (sort_perm (fun r => numericFor r (orderBy s))). }
  split; [apply rank_dense|].
  split.
  { unfold fetchAggregates, fetchAggregates_settle, tryAggregates.
    rewrite Hok. reflexivity. }
  split.
  { unfold render, fetchAggregates, fetchAggregates_settle, tryAggregates.
    rewrite Hok. cbn [loading err showGraph setLoading setShowGraph setPage
                      setFiltered setRows setErr fetchAggregates_begin
                      filtered page].
    rewrite rank_length.
    rewrite (sort_length (fun r => numericFor r (orderBy s))). reflexivity. }
  intros Hk. apply rank_descending, sort_descending, Hk.
Qed.

Lemma fetch_success_shows_payload_witness :
  rows Examples.mounted = filtered Examples.mounted
  /\ dense (filtered Examples.mounted)
  /\ err Examples.mounted = None.
Proof.
  destruct (fetch_success_shows_payload
              {| agg_success := true; agg_error := None;
                 agg_data := [Examples.lamps; Examples.leaks;
                              Examples.insulate] |}
              initialState eq_refl) as (H1 & _ & H3 & H4 & _).
  exact (conj H1 (conj H3 H4)).
Defined.




Lemma filter_none {A : Type} (p : A -> bool) (xs : list A) :
  (forall x, p x = false) -> filter p xs = [].
Proof.
  intros H. induction xs as [|x xs IH]; cbn [filter]; [reflexivity|].
  rewrite H. exact IH.
Qed.

(** X3.  A Min Savings or Min Cost entry that is not a number (letters,
    say) makes every comparison false: the search leaves no row on
    display. *)
Theorem non_numeric_threshold_empties_list (api : Backend) (s : AppState) :
  (isEmpty (minSavings s) = false /\ toNumber (minSavings s) = NaN)
  \/ (isEmpty (minCost s) = false /\ toNumber (minCost s) = NaN) ->
  filtered (handleSearch api s) = []
  /\ totalPages (handleSearch api s) = ofZ 1.
Proof.
  intros H.
  assert (E : filtered (handleSearch api s) = []).
  { rewrite handleSearch_filtered, refilter_unfold.
    rewrite filter_none.
    { change (sort (comparator (orderBy s)) []) with (@nil Recommendation).
      unfold slice. rewrite skipn_nil, firstn_nil. reflexivity. }
    intros r. unfold passes.
    destruct H as [[He Hn]|[He Hn]]; rewrite He, Hn; cbn [orb].
    - unfold nge, nle. destruct (numericFor r AvgSavings);
        rewrite andb_false_r; reflexivity.
    - unfold nge, nle. destruct (numericFor r AvgCost);
        rewrite andb_false_r; reflexivity. }
  split; [exact E|].
  unfold totalPages. rewrite E.
  cbn [length]. destruct (pageSize (handleSearch api s)) as [| | |q];
    try reflexivity.
  unfold ofNat, ofZ, ndiv. cbn [Z.of_nat].
  destruct (Qsign q); reflexivity.
Qed.

Lemma non_numeric_threshold_empties_list_witness :
  filtered (handleSearch Examples.threeRows Examples.lettersInMinSavings) = []
  /\ totalPages (handleSearch Examples.threeRows Examples.lettersInMinSavings)
     = ofZ 1.
Proof.
  apply (non_numeric_threshold_empties_list Examples.threeRows
           Examples.lettersInMinSavings).
  left. split; reflexivity.
Defined.


Lemma refilter_cells (s s' : AppState) (prev : list Recommendation) :
  minReco s' = minReco s -> minSavings s' = minSavings s ->
  minCost s' = minCost s -> orderBy s' = orderBy s ->
  showTop s' = showTop s ->
  refilter s' prev = refilter s prev.
Proof.
  intros E1 E2 E3 E4 E5. unfold refilter. rewrite E1, E2, E3, E4, E5.
  reflexivity.
Qed.

Lemma handleSearch_cells (api : Backend) (s : AppState) :
  minReco (handleSearch api s) = minReco s
  /\ minSavings (handleSearch api s) = minSavings s
  /\ minCost (handleSearch api s) = minCost s
  /\ orderBy (handleSearch api s) = orderBy s
  /\ showTop (handleSearch api s) = showTop s.
Proof.
  unfold handleSearch, fetchAggregates, fetchAggregates_settle, tryAggregates.
  destruct (api (searchQuery s)) as [m|json];
    [|destruct (agg_success json)]; repeat split; reflexivity.
Qed.

Lemma refilter_twice (s : AppState) (xs : list Recommendation) :
  keyed (orderBy s) xs ->
  nle (Fin 0) (toNumber (showTop s)) = true ->
  refilter s (refilter s xs) = refilter s xs.
Proof.
  intros Hk Hn. rewrite (refilter_unfold s (refilter s xs)).
  rewrite (refilter_unfold s xs).
  set (ws := slice (sort (comparator (orderBy s)) (filter (passes s) xs))
                   (Fin 0) (toNumber (showTop s))).
  assert (Hpass : forall r, In r (rank ws) -> passes s r = true).
  { intros r Hr. destruct (In_rank _ _ Hr) as (r0 & Hin & ->).
    rewrite passes_setTop. unfold ws in Hin.
    apply In_slice, In_sort, filter_In in Hin. apply Hin. }
  rewrite (filter_all _ _ Hpass).
  assert (Hd : descending (orderBy s) (rank ws)).
  { apply rank_descending. unfold ws.
    apply (nonincreasing_slice (fun r => numericFor r (orderBy s))).
    apply sort_descending, filter_keyed, Hk. }
  change (comparator (orderBy s))
    with (descendingBy (fun r => numericFor r (orderBy s))).
  rewrite (sort_sorted _ (rank ws) Hd).
  rewrite (slice_from_zero (rank ws)), rank_length.
  unfold ws at 1. rewrite (slice_slice _ _ Hn). fold ws.
  rewrite <- (rank_length ws), firstn_all. apply rank_rank.
Qed.

(** X4.  Searching again changes nothing: run on its own result, the
    filter, sort, cut and rank of the search return that result, provided
    the rows all have a number in the sort column and Show Top is not
    negative.  So a search that fails right after one that went through
    leaves the list of the first on display. *)
Theorem search_again_keeps_list :
  (forall s xs,
      keyed (orderBy s) xs ->
      nle (Fin 0) (toNumber (showTop s)) = true ->
      refilter s (refilter s xs) = refilter s xs)
  /\ (forall api api' s message,
        keyed (orderBy s)
              (filtered (fetchAggregates (api (searchQuery s)) s)) ->
        nle (Fin 0) (toNumber (showTop s)) = true ->
        api' (searchQuery (handleSearch api s)) = Threw message ->
        filtered (handleSearch api' (handleSearch api s))
        = filtered (handleSearch api s)).
Proof.
  split; [exact refilter_twice|].
  intros api api' s message Hk Hn Hfail.
  rewrite (handleSearch_filtered api' (handleSearch api s)).
  assert (E : filtered (fetchAggregates
                          (api' (searchQuery (handleSearch api s)))
                          (handleSearch api s))
              = filtered (handleSearch api s)).
  { rewrite Hfail. reflexivity. }
  rewrite E, handleSearch_filtered.
  destruct (handleSearch_cells api s) as (C1 & C2 & C3 & C4 & C5).
  rewrite (refilter_cells s (handleSearch api s) _ C1 C2 C3 C4 C5).
  apply refilter_twice; assumption.
Qed.

Lemma search_again_keeps_list_witness :
  refilter Examples.mounted
    (refilter Examples.mounted (filtered Examples.mounted))
  = refilter Examples.mounted (filtered Examples.mounted)
  /\ filtered (handleSearch Examples.offline
                 (handleSearch Examples.threeRows Examples.mounted))
     = filtered (handleSearch Examples.threeRows Examples.mounted).
Proof.
  split.
  - apply (proj1 search_again_keeps_list Examples.mounted
             (filtered Examples.mounted)).
    + repeat constructor.
    + reflexivity.
  - apply (proj2 search_again_keeps_list Examples.threeRows Examples.offline
             Examples.mounted (lit "Failed to fetch")).
    + repeat constructor.
    + reflexivity.
    + reflexivity.
Defined.


(** X5.  In every state the screen can reach, the page number is a whole
    number from 1 to the page count, so Prev and Next never lead off the
    list; and as long as there is a row to display, the page on display
    is not empty. *)
Theorem pager_stays_in_range (s : AppState) :
  reachable s ->
  exists pg n,
    page s = ofZ pg /\ totalPages s = ofZ n /\ (1 <= pg <= n)%Z
    /\ (filtered s <> [] -> pageSlice s <> []).
Proof.
  intros H. destruct (reachable_pager s H) as (ps & pg & Hps & Hin & Hpg & Hr).
  assert (Hpos : (0 < ps)%Z) by (cbn in Hin; lia).
  exists pg, (pageCount (Z.of_nat (length (filtered s))) ps).
  split; [exact Hpg|]. split; [apply totalPages_exact; assumption|].
  split; [exact Hr|].
  intros Hne Hnil.
  rewrite (pageSlice_explicit s ps pg Hps Hpos Hpg ltac:(lia)) in Hnil.
  apply (f_equal (@length _)) in Hnil.
  rewrite length_firstn, length_skipn in Hnil. cbn [length] in Hnil.
  assert (Hlen : (0 < Z.of_nat (length (filtered s)))%Z).
  { destruct (filtered s); [contradiction|cbn [length]; lia]. }
  destruct (pageCount_bounds (Z.of_nat (length (filtered s))) ps
              ltac:(lia) Hpos) as (_ & _ & Hlow).
  specialize (Hlow Hlen).
  assert ((pg - 1) * ps < Z.of_nat (length (filtered s)))%Z by nia.
  lia.
Qed.

Lemma pager_stays_in_range_witness :
  exists pg n,
    page Examples.mounted = ofZ pg /\ totalPages Examples.mounted = ofZ n
    /\ (1 <= pg <= n)%Z
    /\ (filtered Examples.mounted <> [] -> pageSlice Examples.mounted <> []).
Proof.
  apply (pager_stays_in_range Examples.mounted).
  apply (reach_mounted Examples.threeRows).
Defined.

(** X6.  The pages add up to the list: with a positive whole page size,
    what the pager shows on pages 1 to the page count, put end to end, is
    the list on display, every row once and in order. *)
Theorem pages_partition_list (s : AppState) (ps : Z) (n : nat) :
  pageSize s = ofZ ps -> (0 < ps)%Z -> totalPages s = ofNat n ->
  concat (pagesOf s n) = filtered s.
Proof.
  intros Hps Hpos Hn.
  rewrite (totalPages_exact s ps Hps Hpos) in Hn.
  assert (Hc : pageCount (Z.of_nat (length (filtered s))) ps = Z.of_nat n).
  { unfold ofNat, ofZ in Hn. injection Hn as Hn.
    unfold inject_Z in Hn. congruence. }
  unfold pagesOf.
  assert (E : map (fun k => pageSlice (setPage (ofNat k) s)) (seq 1 n)
              = map (fun k => firstn (Z.to_nat ps)
                                (skipn (k * Z.to_nat ps) (filtered s)))
                    (seq 0 n)).
  { rewrite <- seq_shift, map_map. apply map_ext. intros k.
    rewrite (pageSlice_explicit (setPage (ofNat (S k)) s) ps
               (Z.of_nat (S k)) Hps Hpos eq_refl ltac:(lia)).
    cbn [filtered setPage]. do 2 f_equal. nia. }
  rewrite E, chunks_prefix. apply firstn_all2.
  destruct (pageCount_bounds (Z.of_nat (length (filtered s))) ps
              ltac:(lia) Hpos) as (_ & Hu & _).
  rewrite Hc in Hu. nia.
Qed.

Lemma pages_partition_list_witness :
  concat (pagesOf Examples.pageTwo 2) = filtered Examples.pageTwo.
Proof.
  apply (pages_partition_list Examples.pageTwo 10%Z 2);
    [reflexivity | lia | reflexivity].
Defined.


(** *** The graph and the error line *)

Lemma fetchAggregates_graph (resp : fetched AggregatesJson) (s : AppState) :
  (showGraph s = true -> filtered s <> []) ->
  showGraph (fetchAggregates resp s) = true ->
  filtered (fetchAggregates resp s) <> [].
Proof.
  unfold fetchAggregates, fetchAggregates_settle, tryAggregates.
  destruct resp as [m|json]; [|destruct (agg_success json)]; cbn;
    try discriminate; auto.
Qed.

Lemma reachable_graph (s : AppState) :
  reachable s -> showGraph s = true -> filtered s <> [].
Proof.
  induction 1 as [|api|s e _ IH He].
  - discriminate.
  - apply fetchAggregates_graph. discriminate.
  - destruct e; cbn [handle]; try exact IH; try discriminate.
    + unfold fetchOptions, tryOptions.
      destruct resp as [m|meta]; [|destruct (opt_success meta)]; exact IH.
    + intros _. apply He.
Qed.

(** X7.  The graph is only ever on display over at least one row: in
    every reachable state that shows the chart screen, the dataset handed
    to it is not empty, and the chart screen does not return its no-data
    element. *)
Theorem graph_never_without_rows (s : AppState) (p : DataVisualizer.Props) :
  reachable s -> render s = Screen (Graph p) ->
  p = graphProps s
  /\ DataVisualizer.data p <> []
  /\ forall v r,
       DataVisualizer.render p v = Some r ->
       DataVisualizer.r_view r <> DataVisualizer.NoData.
Proof.
  intros Hr Hv. unfold render in Hv.
  destruct (loading s); [discriminate|].
  assert (Hg : showGraph s = true /\ p = graphProps s).
  { destruct (err s) as [[|c m]|]; try discriminate;
      destruct (showGraph s); try discriminate;
      injection Hv as <-; auto. }
  destruct Hg as [Hg ->]. pose proof (reachable_graph s Hr Hg) as Hne.
  split; [reflexivity|].
  assert (Hd : DataVisualizer.data (graphProps s) <> []).
  { cbn [graphProps DataVisualizer.data].
    destruct (filtered s); [contradiction|discriminate]. }
  split; [exact Hd|].
  intros v r Hrender. unfold DataVisualizer.render in Hrender.
  destruct (DataVisualizer.chartData v); [|discriminate].
  injection Hrender as <-.
  cbn [DataVisualizer.r_view graphProps DataVisualizer.data].
  destruct (filtered s) as [|d ds]; [contradiction|].
  cbn [map]. discriminate.
Qed.

Lemma graph_never_without_rows_witness :
  DataVisualizer.data (graphProps Examples.graphShown) <> [].
Proof.
  apply (graph_never_without_rows Examples.graphShown
           (graphProps Examples.graphShown)).
  - apply (reach_event Examples.mounted ClickGenerateGraph).
    + apply (reach_mounted Examples.threeRows).
    + split; [reflexivity | discriminate].
  - reflexivity.
Defined.

(** X8.  There is no way back from the error line: while it is on
    display no control can fire, and the one thing that can still happen,
    the arrival of the filter options, leaves it on display. *)
Theorem error_line_stays (s : AppState) (e : Event) (message : jsstring) :
  render s = ErrorText message -> enabled s e ->
  (exists resp, e = OptionsArrived resp)
  /\ render (handle e s) = ErrorText message.
Proof.
  intros Hv He.
  assert (Hi : interactive s = false)
    by (unfold interactive; rewrite Hv; reflexivity).
  destruct e; cbn [enabled] in He;
    try (apply proj1 in He); try congruence.
  split; [eexists; reflexivity|].
  cbn [handle]. unfold fetchOptions, tryOptions, render in *.
  destruct resp as [m|meta]; [|destruct (opt_success meta)];
    cbn [loading err setYears setStates setCenters];
    destruct (loading s); try discriminate;
    destruct (err s) as [[|c l]|]; try discriminate; exact Hv.
Qed.

Lemma error_line_stays_witness :
  render (handle (OptionsArrived (Threw (lit "Failed to fetch")))
            Examples.failed)
  = ErrorText (lit "Failed to fetch").
Proof.
  apply (error_line_stays Examples.failed
           (OptionsArrived (Threw (lit "Failed to fetch")))
           (lit "Failed to fetch")).
  - reflexivity.
  - exact I.
Defined.

(** X9.  Prev and Next undo each other: in a reachable state where Prev
    can fire, Next can fire right after it and brings back the very same
    state. *)
Theorem next_undoes_prev (s : AppState) :
  reachable s -> enabled s ClickPrev ->
  enabled (handle ClickPrev s) ClickNext
  /\ handle ClickNext (handle ClickPrev s) = s.
Proof.
  intros Hr He.
  destruct (reachable_pager s Hr) as (ps & pg & Hps & Hin & Hpg & Hrange).
  assert (Hpos : (0 < ps)%Z) by (cbn in Hin; lia).
  destruct He as (Hi & Hg & Hne).
  split.
  - cbn [enabled handle]. repeat split.
    + unfold interactive, render in *. cbn [loading err showGraph setPage].
      destruct (loading s); [discriminate|].
      destruct (err s) as [[|c m]|]; try discriminate; reflexivity.
    + exact Hg.
    + rewrite (totalPages_exact (setPage (nsub (page s) (ofZ 1)) s) ps Hps
                 Hpos).
      cbn [page filtered setPage]. rewrite Hpg, nsub_ofZ, neqb_ofZ.
      apply Z.eqb_neq. lia.
  - cbn [handle page setPage]. rewrite Hpg, nsub_ofZ, nadd_ofZ.
    replace (pg - 1 + 1)%Z with pg by lia. rewrite <- Hpg.
    destruct s; reflexivity.
Qed.


Lemma next_undoes_prev_witness :
  enabled (handle ClickPrev Examples.pageTwo) ClickNext
  /\ handle ClickNext (handle ClickPrev Examples.pageTwo) = Examples.pageTwo.
Proof.
  apply (next_undoes_prev Examples.pageTwo).
  - apply (reach_event (fetchAggregates (Examples.elevenRows []) initialState)
             ClickNext).
    + apply (reach_mounted Examples.elevenRows).
    + vm_compute. repeat split.
  - vm_compute. repeat split.
Defined.


(** X19.  Ties keep the order of the payload: among the rows that have
    one and the same value in the sort column, the sort of a fetch or a
    search changes nothing, as long as every row has a number there. *)
Theorem sort_keeps_ties_in_order (f : OrderField) (k : number)
  (xs : list Recommendation) :
  keyed f xs ->
  filter (fun r => neqb (numericFor r f) k) (sort (comparator f) xs)
  = filter (fun r => neqb (numericFor r f) k) xs.
Proof.
  intros H. apply (filter_sort (fun r => numericFor r f) k xs H).
Qed.

Lemma sort_keeps_ties_in_order_witness :
  filter (fun r => neqb (numericFor r ImplRate) (Fin (111 # 2)))
    (sort (comparator ImplRate)
       [Examples.insulate; Examples.lamps; Examples.leaks;
        setTop (ofZ 9) Examples.lamps])
  = filter (fun r => neqb (numericFor r ImplRate) (Fin (111 # 2)))
      [Examples.insulate; Examples.lamps; Examples.leaks;
       setTop (ofZ 9) Examples.lamps].
Proof.
  apply (sort_keeps_ties_in_order ImplRate (Fin (111 # 2))
           [Examples.insulate; Examples.lamps; Examples.leaks;
            setTop (ofZ 9) Examples.lamps]).
  repeat constructor.
Defined.


(** X20.  The search sends the bare query [?] exactly when the center,
    state, fiscal year and Arc Code filters are all empty; after a reset
    they are, so the next search asks for everything. *)
Theorem bare_query_without_filters (s : AppState) :
  (searchQuery s = lit "?"
   <-> center s = [] /\ stateUS s = [] /\ yearVal s = [] /\ arcCode s = [])
  /\ searchQuery (resetFilters s) = lit "?".
Proof.
  split; [|reflexivity].
  unfold searchQuery, searchParams.
  destruct (center s) as [|c1 l1], (stateUS s) as [|c2 l2],
           (yearVal s) as [|c3 l3], (arcCode s) as [|c4 l4];
    cbn [isEmpty URL.append app];
    (split; [intros H | intros (H1 & H2 & H3 & H4)]);
    try discriminate; try (repeat split; reflexivity);
    try (exfalso; apply (f_equal (@length _)) in H;
         cbn [URL.toString lit list_ascii_of_string map app length] in H;
         rewrite ?length_app in H; cbn [length] in H; lia).
Qed.

(** X21.  Going to the graph and back changes nothing on the table:
    from a state that shows the table, Generate Graph followed by Back to
    Table shows the same rows on the same page. *)
Theorem graph_and_back_restores_table (s : AppState) :
  showGraph s = false ->
  render (handle ClickBack (handle ClickGenerateGraph s)) = render s.
Proof.
  intros H. unfold render. cbn [handle loading err showGraph setShowGraph
    setGraphTopCount setGraphState setGraphCenter].
  rewrite H. reflexivity.
Qed.

Lemma graph_and_back_restores_table_witness :
  render (handle ClickBack (handle ClickGenerateGraph Examples.mounted))
  = render Examples.mounted.
Proof.
  apply (graph_and_back_restores_table Examples.mounted). reflexivity.
Defined.

End ScreenExtras.

(* ================================================================= *)
(** ** The chart plots what the table sorts by *)
(* ================================================================= *)

Module FormatFacts.
Import JS Formats NumberFacts ParseFacts.
Local Open Scope N_scope.

Section Stripping.
Variable cls : N -> bool.
Hypothesis cls_digit : forall c, isDigit c = true -> cls c = false.
Hypothesis cls_comma : cls 44 = true.
Hypothesis cls_dollar : cls 36 = true.

Lemma removeAll_digits (ds : jsstring) : digits ds -> removeAll cls ds = ds.
Proof.
  intros H. induction H as [|d ds Hd _ IH]; [reflexivity|].
  unfold removeAll in *. cbn [filter]. rewrite (cls_digit d Hd), IH.
  reflexivity.
Qed.

Lemma removeAll_groupRev_any (k : nat) (ds : jsstring) :
  digits ds -> removeAll cls (groupRev k ds) = ds.
Proof.
  intros H. revert k. induction H as [|d ds Hd Hds IH]; intros k.
  - reflexivity.
  - cbn [groupRev]. destruct ds as [|d' ds'].
    + unfold removeAll. cbn [filter]. rewrite (cls_digit d Hd). reflexivity.
    + destruct k as [|k]; unfold removeAll in *; cbn [filter];
        rewrite (cls_digit d Hd); cbn [negb].
      * rewrite cls_comma. cbn [negb]. rewrite IH. reflexivity.
      * rewrite IH. reflexivity.
Qed.

Lemma removeAll_currency_any (n : N) : removeAll cls (currency n) = decimal n.
Proof.
  destruct (decimal_spec n) as (_ & Hd & _).
  unfold currency, group, removeAll. cbn [filter].
  rewrite cls_dollar. cbn [negb]. rewrite filter_rev.
  change (filter (fun c => negb (cls c)) (groupRev 2 (rev (decimal n))))
    with (removeAll cls (groupRev 2 (rev (decimal n)))).
  rewrite removeAll_groupRev_any by (apply Forall_rev, Hd).
  apply rev_involutive.
Qed.

End Stripping.

Lemma digit_not_dcp (c : N) :
  isDigit c = true -> DataVisualizer.isDollarCommaPercent c = false.
Proof.
  unfold isDigit, DataVisualizer.isDollarCommaPercent. intros H.
  apply andb_true_iff in H. destruct H as [H1 _]. apply N.leb_le in H1.
  repeat (apply orb_false_iff; split); apply N.eqb_neq; lia.
Qed.

(** Digits, a point and one more digit read as the number they spell,
    whether or not a percent sign follows. *)
Lemma parseFloat_one_decimal (t : N) (rest : jsstring) :
  rest = [] \/ rest = [37] ->
  parseFloat (decimal (t / 10) ++ [46; 48 + t mod 10] ++ rest)
  = Fin (Qred (Z.of_N t # 10)).
Proof.
  intros Hrest.
  destruct (decimal_spec (t / 10)) as (Hv & Hd & Hne).
  assert (Hm : t mod 10 < 10) by (apply N.mod_lt; lia).
  destruct (decimal (t / 10)) as [|c ds] eqn:E; [contradiction|].
  inversion Hd as [|? ? Hc Hds]; subst.
  cbn [app]. rewrite (parseFloat_digit_first c _ Hc).
  unfold scanUnsigned.
  change (c :: ds ++ 46 :: 48 + t mod 10 :: rest)
    with ((c :: ds) ++ 46 :: 48 + t mod 10 :: rest).
  rewrite (spanDigits_app (c :: ds) _ Hd) by reflexivity.
  change (46 =? 46) with true. cbv iota.
  assert (Hd1 : digits [48 + t mod 10]).
  { apply Forall_cons; [apply isDigit_char, Hm | apply Forall_nil]. }
  change (48 + t mod 10 :: rest) with ([48 + t mod 10] ++ rest).
  rewrite (spanDigits_app [48 + t mod 10] rest Hd1)
    by (destruct Hrest as [->| ->]; reflexivity).
  assert (Hx : scanExponent rest = (0%Z, rest))
    by (destruct Hrest as [->| ->]; reflexivity).
  rewrite Hx. unfold decimalValue. f_equal.
  rewrite digitsValue_snoc, Hv, digitVal_char.
  replace (10 * (t / 10) + t mod 10) with t by (apply N.div_mod; lia).
  apply Qred_complete. cbn [length].
  change (0 - Z.of_nat 1)%Z with (-1)%Z.
  unfold Qeq, Qmult, Qpower, Qinv, inject_Z; cbn. lia.
Qed.

Lemma removeAll_percent (t : N) :
  removeAll DataVisualizer.isDollarCommaPercent (percent t)
  = decimal (t / 10) ++ [46; 48 + t mod 10].
Proof.
  destruct (decimal_spec (t / 10)) as (_ & Hd & _).
  assert (Hm : t mod 10 < 10) by (apply N.mod_lt; lia).
  unfold percent, removeAll. rewrite filter_app. f_equal.
  - apply (removeAll_digits _ digit_not_dcp _ Hd).
  - cbn [filter].
    change (DataVisualizer.isDollarCommaPercent 46) with false.
    change (DataVisualizer.isDollarCommaPercent 37) with true.
    rewrite (digit_not_dcp _ (isDigit_char _ Hm)). reflexivity.
Qed.

End FormatFacts.

Module CrossExtras.
Import JS JSObject App Spec NumberFacts ParseFacts FormatFacts CoercionClaims.

(** X10.  The chart plots the number the table sorts by: for the count
    column, for a payback given as a number, and for a savings, cost or
    rate written in its payload format, [formatValue] applied to the
    property of the row handed to the chart gives the value [numericFor]
    gives for the column. *)
Theorem chart_plots_sort_value (r : Recommendation) (field : OrderField) :
  field = Recommended
  \/ (field = AvgPayback /\ exists n, avgPayback r = inl n)
  \/ (exists x, encodes field r x) ->
  DataVisualizer.formatValue (get (toPlantData r) (fieldKey field))
  = Some (numericFor r field).
Proof.
  intros [->|[[-> (n & Hn)]|(x & Hx)]].
  - reflexivity.
  - cbn. rewrite Hn. reflexivity.
  - rewrite (numericFor_encoded field r x Hx).
    destruct Hx as [r n E|r n E|r t E]; cbn [fieldKey].
    + change (get (toPlantData r) (lit "avgSavings"))
        with (VStr (avgSavings r)).
      cbn [DataVisualizer.formatValue]. rewrite E.
      rewrite (removeAll_currency_any _ digit_not_dcp eq_refl eq_refl).
      destruct (decimal_spec n) as (Hv & Hd & Hne).
      rewrite parseFloat_digits by assumption.
      rewrite Hv, Qred_inject_Z. reflexivity.
    + change (get (toPlantData r) (lit "avgCost")) with (VStr (avgCost r)).
      cbn [DataVisualizer.formatValue]. rewrite E.
      rewrite (removeAll_currency_any _ digit_not_dcp eq_refl eq_refl).
      destruct (decimal_spec n) as (Hv & Hd & Hne).
      rewrite parseFloat_digits by assumption.
      rewrite Hv, Qred_inject_Z. reflexivity.
    + change (get (toPlantData r) (lit "implementationRate"))
        with (VStr (implementationRate r)).
      cbn [DataVisualizer.formatValue]. rewrite E, removeAll_percent.
      rewrite <- (app_nil_r [46; 48 + t mod 10]%N).
      rewrite (parseFloat_one_decimal t []) by (left; reflexivity).
      reflexivity.
Qed.

Lemma chart_plots_sort_value_witness :
  DataVisualizer.formatValue
    (get (toPlantData Examples.leaks) (fieldKey ImplRate))
  = Some (numericFor Examples.leaks ImplRate).
Proof.
  apply (chart_plots_sort_value Examples.leaks ImplRate).
  right. right. exists (Z.of_N 801 # 10).
  apply encodes_rate. reflexivity.
Defined.

End CrossExtras.

(* ================================================================= *)
(** ** More on the chart screen: statistics, throws, effects, legend *)
(* ================================================================= *)

Module StatsFacts.
Import JS JSArray Spec NumberFacts.

#[local] Arguments nlt : simpl never.
#[local] Arguments nle : simpl never.

Lemma max2_spec (x y : number) :
  isNaN x = false -> isNaN y = false ->
  isNaN (max2 x y) = false
  /\ nle x (max2 x y) = true /\ nle y (max2 x y) = true
  /\ (max2 x y = x \/ max2 x y = y).
Proof.
  intros Hx Hy.
  assert (E : max2 x y = if nlt x y then y else x)
    by (destruct x, y; try discriminate; reflexivity).
  rewrite E. destruct (nlt x y) eqn:L.
  - repeat split; auto using nlt_nle, nle_refl.
  - repeat split; auto using nlt_false_nle, nle_refl.
Qed.

Lemma max2_NaN_l (y : number) : max2 NaN y = NaN.
Proof. reflexivity. Qed.

Lemma max2_NaN_r (x : number) : max2 x NaN = NaN.
Proof. destruct x; reflexivity. Qed.

Lemma fold_max2_NaN (xs : list number) : fold_left max2 xs NaN = NaN.
Proof. induction xs as [|x xs IH]; [reflexivity|exact IH]. Qed.

Lemma fold_max2_spec (xs : list number) (acc : number) :
  isNaN acc = false -> Forall (fun x => isNaN x = false) xs ->
  isNaN (fold_left max2 xs acc) = false
  /\ nle acc (fold_left max2 xs acc) = true
  /\ (forall x, In x xs -> nle x (fold_left max2 xs acc) = true)
  /\ (fold_left max2 xs acc = acc \/ In (fold_left max2 xs acc) xs).
Proof.
  intros Ha H. revert acc Ha. induction H as [|x xs Hx _ IH]; intros acc Ha.
  - cbn. repeat split; auto using nle_refl; intros x Hx; destruct Hx.
  - cbn [fold_left].
    destruct (max2_spec acc x Ha Hx) as (Hn & La & Lx & Hor).
    destruct (IH (max2 acc x) Hn) as (Hn' & L' & Hall & Hin).
    repeat split.
    + exact Hn'.
    + eapply nle_trans; eassumption.
    + intros y [<-|Hy]; [eapply nle_trans; eassumption | apply Hall, Hy].
    + destruct Hin as [E|Hin]; [|right; right; exact Hin].
      rewrite E. destruct Hor as [->| ->]; [left; reflexivity|].
      right. left. reflexivity.
Qed.

Lemma fold_max2_has_NaN (xs : list number) (acc : number) :
  Exists (fun x => isNaN x = true) xs -> fold_left max2 xs acc = NaN.
Proof.
  intros H. revert acc. induction H as [x xs Hx|x xs _ IH]; intros acc.
  - destruct x; try discriminate. cbn [fold_left].
    rewrite max2_NaN_r. apply fold_max2_NaN.
  - cbn [fold_left]. apply IH.
Qed.

(** The sum of finite values, each at most [m], started from [a]. *)
Lemma fold_nadd_bound (xs : list number) (a m : Q) :
  allFinite xs ->
  (forall x, In x xs -> nle x (Fin m) = true) ->
  exists q,
    fold_left nadd xs (Fin a) = Fin q
    /\ (q <= a + inject_Z (Z.of_nat (length xs)) * m)%Q.
Proof.
  intros H. revert a. induction H as [|x xs (qx & ->) _ IH]; intros a Hm.
  - exists a. split; [reflexivity|]. cbn [length Z.of_nat].
    change (inject_Z 0) with 0%Q. lra.
  - cbn [fold_left]. unfold nadd at 2.
    destruct (IH (Qred (a + qx))) as (q & E & L).
    { intros y Hy. apply Hm. right. exact Hy. }
    exists q. split; [exact E|].
    assert (Hx : (qx <= m)%Q).
    { specialize (Hm (Fin qx) (or_introl eq_refl)).
      unfold nle in Hm. apply Qle_bool_iff in Hm. exact Hm. }
    rewrite Qred_correct in L. cbn [length].
    rewrite Nat2Z.inj_succ, <- Z.add_1_r, inject_Z_plus.
    change (inject_Z 1) with 1%Q. lra.
Qed.

End StatsFacts.

Module ChartExtras.
Import JS JSArray JSObject DataVisualizer Spec.
Import NumberFacts ArrayFacts ObjectFacts StatsFacts.

#[local] Arguments nlt : simpl never.
#[local] Arguments nle : simpl never.
#[local] Arguments parseFloat : simpl never.

(** X11.  The Highest Value statistic is what its name says when every
    plotted value is a number: it is one of the plotted values and no
    plotted value exceeds it.  A single [NaN] among them turns it into
    [NaN]; over no point at all it is minus infinity. *)
Theorem highest_value_is_maximum (cd : list PlantData) (sel : SearchParameter) :
  (Forall (fun i => isNaN (asNumber (get i sel)) = false) cd ->
   (forall i, In i cd ->
              nle (asNumber (get i sel)) (highestValue cd sel) = true)
   /\ (cd <> [] ->
       exists i, In i cd /\ highestValue cd sel = asNumber (get i sel)))
  /\ (Exists (fun i => isNaN (asNumber (get i sel)) = true) cd ->
      highestValue cd sel = NaN)
  /\ highestValue [] sel = NInf.
Proof.
  unfold highestValue, maxOf. split; [|split; [|reflexivity]].
  - intros H.
    assert (Hv : Forall (fun x => isNaN x = false)
                   (map (fun i => asNumber (get i sel)) cd))
      by (apply Forall_map; exact H).
    destruct (fold_max2_spec _ NInf eq_refl Hv) as (_ & _ & Hall & Hin).
    split.
    + intros i Hi. apply Hall. apply in_map_iff. exists i. auto.
    + intros Hne. destruct Hin as [E|Hin].
      * destruct cd as [|i cd]; [contradiction|]. exists i.
        split; [left; reflexivity|].
        assert (L : nle (asNumber (get i sel)) NInf = true)
          by (rewrite <- E; apply Hall; left; reflexivity).
        inversion H as [|? ? Hi _]; subst.
        rewrite E. destruct (asNumber (get i sel)); try discriminate;
          reflexivity.
      * apply in_map_iff in Hin. destruct Hin as (i & E & Hi).
        exists i. auto.
  - intros H. apply fold_max2_has_NaN.
    apply Exists_exists in H. destruct H as (i & Hi & Hn).
    apply Exists_exists. exists (asNumber (get i sel)). split; [|exact Hn].
    apply in_map_iff. exists i. auto.
Qed.


Lemma highest_value_is_maximum_witness :
  exists i,
    In i [[(lit "n", VNum (ofZ 3))]; [(lit "n", VNum (ofZ 7))]]
    /\ highestValue [[(lit "n", VNum (ofZ 3))]; [(lit "n", VNum (ofZ 7))]]
         (lit "n")
       = asNumber (get i (lit "n")).
Proof.
  apply (proj1 (highest_value_is_maximum
                  [[(lit "n", VNum (ofZ 3))]; [(lit "n", VNum (ofZ 7))]]
                  (lit "n"))).
  - repeat constructor.
  - discriminate.
Defined.

Lemma sumValue_fold (cd : list PlantData) (sel : SearchParameter) :
  sumValue cd sel
  = fold_left nadd (map (fun i => asNumber (get i sel)) cd) (Fin 0).
Proof.
  unfold sumValue. generalize (Fin 0).
  induction cd as [|i cd IH]; intros acc; [reflexivity|].
  cbn [fold_left map]. apply IH.
Qed.

(** X12.  Over at least one point, when the plotted values are whole
    numbers from zero up whose sum stays within 2^53 (dollar amounts,
    counts: every partial sum is then exact in binary64 as well), the
    Average statistic is a finite number and never exceeds the Highest
    Value. *)
Theorem average_at_most_highest (cd : list PlantData) (sel : SearchParameter) :
  cd <> [] ->
  wholeAmounts (map (fun i => asNumber (get i sel)) cd) ->
  nle (sumValue cd sel) (ofZ (2 ^ 53)) = true ->
  (exists q, avgValue cd sel = Fin q)
  /\ nle (avgValue cd sel) (highestValue cd sel) = true.
Proof.
  intros Hne Hwhole _.
  assert (Hfin : allFinite (map (fun i => asNumber (get i sel)) cd)).
  { eapply Forall_impl; [|exact Hwhole].
    intros x (z & -> & _). eexists. reflexivity. }
  clear Hwhole. unfold allFinite in Hfin.
  set (vals := map (fun i => asNumber (get i sel)) cd) in *.
  assert (Hnum : Forall (fun x => isNaN x = false) vals).
  { eapply Forall_impl; [|exact Hfin]. intros x (q & ->). reflexivity. }
  destruct (fold_max2_spec vals NInf eq_refl Hnum) as (_ & _ & Hall & Hin).
  assert (Hm : exists m, highestValue cd sel = Fin m).
  { unfold highestValue, maxOf. fold vals.
    destruct Hin as [E|Hin].
    - destruct cd as [|i cd]; [contradiction|].
      assert (L : nle (asNumber (get i sel)) NInf = true)
        by (rewrite <- E; apply Hall; left; reflexivity).
      inversion Hfin as [|? ? (q & Hq) _]; subst. rewrite Hq in L.
      discriminate L.
    - rewrite Forall_forall in Hfin. destruct (Hfin _ Hin) as (m & Hm).
      exists m. exact Hm. }
  destruct Hm as (m & Hm).
  assert (Hall' : forall x, In x vals -> nle x (Fin m) = true).
  { intros x Hx. rewrite <- Hm. apply Hall, Hx. }
  destruct (fold_nadd_bound vals 0 m Hfin Hall') as (q & Hs & Hq).
  unfold avgValue. rewrite sumValue_fold. fold vals. rewrite Hs, Hm.
  assert (Hlen : (0 < Z.of_nat (length cd))%Z)
    by (destruct cd; [contradiction | cbn [length]; lia]).
  assert (Hsign : Qsign (inject_Z (Z.of_nat (length cd))) = Gt)
    by (unfold Qsign; cbn; apply Z.compare_gt_iff; exact Hlen).
  unfold ofNat, ofZ, ndiv. rewrite Hsign.
  split; [eexists; reflexivity|].
  unfold nle. apply Qle_bool_iff. rewrite Qred_correct.
  assert (Hl : (0 < inject_Z (Z.of_nat (length cd)))%Q)
    by (change 0%Q with (inject_Z 0); rewrite <- Zlt_Qlt; exact Hlen).
  apply Qle_shift_div_r; [exact Hl|].
  unfold vals in Hq. rewrite length_map in Hq.
  rewrite Qplus_0_l in Hq. rewrite Qmult_comm. exact Hq.
Qed.

Lemma average_at_most_highest_witness :
  nle (avgValue [[(lit "n", VNum (ofZ 3))]; [(lit "n", VNum (ofZ 7))]]
         (lit "n"))
      (highestValue [[(lit "n", VNum (ofZ 3))]; [(lit "n", VNum (ofZ 7))]]
         (lit "n")) = true.
Proof.
  apply (average_at_most_highest
           [[(lit "n", VNum (ofZ 3))]; [(lit "n", VNum (ofZ 7))]] (lit "n")).
  - discriminate.
  - repeat constructor; eexists; (split; [reflexivity|lia]).
  - vm_compute. reflexivity.
Defined.


(** *** When the transform throws *)

Lemma chartPoint_throws (sel : SearchParameter) (item : PlantData) (idx : nat) :
  chartPoint sel item idx = None <-> throwsOn sel item = true.
Proof.
  unfold chartPoint, throwsOn, truncate, formatValue.
  destruct (get item k_description); destruct (get item sel);
    split; intros H; try reflexivity; try discriminate H.
Qed.

Lemma mapi_from_opt_none {A B : Type} (f : A -> nat -> option B)
  (p : A -> bool) (i0 : nat) (xs : list A) :
  (forall x i, f x i = None <-> p x = true) ->
  mapi_from_opt f i0 xs = None <-> existsb p xs = true.
Proof.
  intros Hf. revert i0. induction xs as [|x xs IH]; intros i0.
  - cbn. split; discriminate.
  - cbn [mapi_from_opt existsb]. rewrite orb_true_iff, <- (Hf x i0).
    destruct (f x i0) as [y|].
    + rewrite <- (IH (S i0)).
      destruct (mapi_from_opt f (S i0) xs); split;
        try discriminate; try tauto.
      intros [H|H]; discriminate H.
    + tauto.
Qed.

(** X13.  The chart transform throws, and with it the whole component
    body, exactly when one of the records to plot has no description
    (undefined or null) or has neither a number nor a string under the
    selected parameter, a missing property included. *)
Theorem chart_throws_on_bad_record (p : Props) (s : State) :
  (chartData s = None
   <-> existsb (throwsOn (selectedParameter s)) (filteredData s) = true)
  /\ (render p s = None
      <-> existsb (throwsOn (selectedParameter s)) (filteredData s) = true)
  /\ (forall item,
         In item (filteredData s) ->
         get item (selectedParameter s) = VUndefined ->
         render p s = None).
Proof.
  assert (H : chartData s = None
              <-> existsb (throwsOn (selectedParameter s)) (filteredData s)
                  = true).
  { unfold chartData, mapi_opt. apply mapi_from_opt_none.
    intros x i. apply chartPoint_throws. }
  assert (R : render p s = None <-> chartData s = None).
  { unfold render. destruct (chartData s); split;
      try discriminate; reflexivity. }
  split; [exact H|]. split; [rewrite R; exact H|].
  intros item Hin Hu. apply R, H. apply existsb_exists. exists item.
  split; [exact Hin|]. unfold throwsOn. rewrite Hu.
  destruct (get item k_description); reflexivity.
Qed.

Lemma chart_throws_on_bad_record_witness :
  render Examples.someRows Examples.noSavings = None.
Proof.
  apply (proj2 (proj2 (chart_throws_on_bad_record Examples.someRows
                         Examples.noSavings))
           [(lit "description", VStr (lit "Insulate bare equipment"))]).
  - left. reflexivity.
  - reflexivity.
Defined.

(** *** Effects *)

(** X14.  The effects settle: a second run changes nothing the first
    run of that pair had not already set, whatever the props and the
    state; with the year filter on [All], which is where the component
    leaves it, one run is enough. *)
Theorem effects_settle (p : Props) (s : State) :
  effects p (effects p (effects p s)) = effects p (effects p s)
  /\ (yearFilter s = All -> effects p (effects p s) = effects p s).
Proof.
  unfold effects, yearEffect, selectionEffect.
  destruct s as [sel yf sy yr fd].
  cbn [selectedParameter yearFilter selectedYear yearRange filteredData
       setSelectedParameter setSelectedYear setYearRange setFilteredData].
  split.
  - destruct (availableParameters p) as [|first rest];
      destruct (availableYears p) as [|y ys];
      destruct (data p) as [|d ds];
      destruct sel as [|c sel]; try destruct first as [|c' first];
      destruct yf; reflexivity.
  - intros ->.
    destruct (availableParameters p) as [|first rest];
      destruct (availableYears p) as [|y ys];
      destruct (data p) as [|d ds];
      destruct sel as [|c sel]; try destruct first as [|c' first];
      reflexivity.
Qed.

Lemma effects_settle_witness :
  effects Examples.someRows (effects Examples.someRows initial)
  = effects Examples.someRows initial.
Proof.
  apply (proj2 (effects_settle Examples.someRows initial)).
  reflexivity.
Defined.


(** *** Parameters, labels and legend *)

Lemma availableParameters_rows (a : App.AppState) :
  availableParameters (App.graphProps a)
  = match App.filtered a with [] => [] | _ :: _ => chartKeys end.
Proof.
  unfold availableParameters, App.graphProps. cbn [data].
  destruct (App.filtered a) as [|r rs]; [reflexivity|].
  cbn [map]. destruct r as [? ? ? ? [n|str] ? ? ?]; reflexivity.
Qed.

(** X15.  The parameter select never offers [year], [description],
    [arc] or [top], nor a property holding an object: it offers exactly
    the other properties of the first record.  On the rows of the filter
    screen these are the five sortable columns, and nothing when there is
    no row. *)
Theorem offered_parameters (p : Props) (k : jsstring) :
  (In k (availableParameters p)
   <-> exists first rest,
         data p = first :: rest
         /\ In k (keys first)
         /\ k <> k_year /\ k <> k_description /\ k <> k_arc /\ k <> k_top
         /\ typeofIsObject (get first k) = false)
  /\ (forall a,
         In k (availableParameters (App.graphProps a))
         <-> In k chartKeys /\ App.filtered a <> []).
Proof.
  split.
  - unfold availableParameters. destruct (data p) as [|first rest].
    + split; [intros [] | intros (f & r & E & _); discriminate E].
    + rewrite filter_In, !andb_true_iff, !negb_true_iff. split.
      * intros (Hin & (((H1 & H2) & H3) & H4) & H5).
        exists first, rest. repeat split; try assumption;
          intros ->; rewrite jsstring_eqb_refl in *; discriminate.
      * intros (f & r & E & Hin & N1 & N2 & N3 & N4 & Ht).
        injection E as <- <-.
        repeat split; try assumption; apply jsstring_eqb_neq; assumption.
  - intros a. rewrite availableParameters_rows.
    destruct (App.filtered a) as [|r rs].
    + split; [intros [] | intros [_ H]; contradiction].
    + split; [intros H; split; [exact H | discriminate] | tauto].
Qed.

(** X16.  Every parameter the chart offers on the rows of the filter
    screen has a Y-axis label, and nothing else has: the label is empty
    exactly off the five sortable columns. *)
Theorem axis_label_for_offered (k : jsstring) :
  getYAxisLabel k = [] <-> ~ In k chartKeys.
Proof.
  unfold getYAxisLabel, chartKeys. cbn [In].
  destruct (jsstring_eqb k (lit "avgSavings")) eqn:E1.
  { apply jsstring_eqb_eq in E1. cbn [orb].
    split; [discriminate | intros H; exfalso; apply H; auto]. }
  destruct (jsstring_eqb k (lit "avgCost")) eqn:E2.
  { apply jsstring_eqb_eq in E2. cbn [orb].
    split; [discriminate | intros H; exfalso; apply H; auto]. }
  cbn [orb].
  destruct (jsstring_eqb k (lit "implementationRate")) eqn:E3.
  { apply jsstring_eqb_eq in E3.
    split; [discriminate | intros H; exfalso; apply H; auto 6]. }
  destruct (jsstring_eqb k (lit "recommended")) eqn:E4.
  { apply jsstring_eqb_eq in E4.
    split; [discriminate | intros H; exfalso; apply H; auto 7]. }
  destruct (jsstring_eqb k (lit "avgPayback")) eqn:E5.
  { apply jsstring_eqb_eq in E5.
    split; [discriminate | intros H; exfalso; apply H; auto 6]. }
  split; [|reflexivity]. intros _ H.
  assert (N : forall x, jsstring_eqb k x = false -> x <> k).
  { intros x E ->. rewrite jsstring_eqb_refl in E. discriminate. }
  destruct H as [H|[H|[H|[H|[H|[]]]]]];
    [apply (N _ E1 H) | apply (N _ E2 H) | apply (N _ E5 H)
     | apply (N _ E3 H) | apply (N _ E4 H)].
Qed.

Lemma chartPoint_id (sel : SearchParameter) (item pt : PlantData) (idx : nat) :
  chartPoint sel item idx = Some pt -> sel <> k_id ->
  get pt k_id = VNum (ofNat (idx + 1)).
Proof.
  unfold chartPoint. intros H N.
  destruct (truncate (get item k_description) (ofZ 15)) as [short|];
    [|discriminate].
  destruct (formatValue (get item sel)) as [v|]; [|discriminate].
  injection H as <-.
  rewrite get_set_other by congruence.
  rewrite get_set_other by discriminate. apply get_set_same.
Qed.

Lemma chart_ids_from (sel : SearchParameter) (i0 : nat)
  (xs cd : list PlantData) :
  mapi_from_opt (chartPoint sel) i0 xs = Some cd -> sel <> k_id ->
  map (fun pt => get pt k_id) cd
  = map (fun e => VNum (fst e))
      (mapi_from (fun item idx => (ofNat (idx + 1), get item k_description))
                 i0 xs).
Proof.
  intros H N. revert i0 cd H. induction xs as [|x xs IH]; intros i0 cd H.
  - injection H as <-. reflexivity.
  - cbn [mapi_from_opt] in H.
    destruct (chartPoint sel x i0) as [pt|] eqn:E; [|discriminate].
    destruct (mapi_from_opt (chartPoint sel) (S i0) xs) as [ys|] eqn:E';
      [|discriminate].
    injection H as <-. cbn [map mapi_from fst].
    rewrite (chartPoint_id sel x pt i0 E N), (IH (S i0) ys E').
    reflexivity.
Qed.

(** X17.  The legend and the chart number the records alike: when the
    chart data is built and the selected parameter is not [id], the [id]
    of the point at each position is the number of the legend line at
    that position, and there is one legend line per record. *)
Theorem legend_numbers_match_ids (s : State) (cd : list PlantData) :
  chartData s = Some cd -> selectedParameter s <> k_id ->
  map (fun pt => get pt k_id) cd = map (fun e => VNum (fst e)) (legend s)
  /\ length (legend s) = length cd.
Proof.
  intros H N. split.
  - apply (chart_ids_from _ 0 _ _ H N).
  - pose proof (f_equal (@length _) (chart_ids_from _ 0 _ _ H N)) as L.
    rewrite !length_map in L. symmetry. exact L.
Qed.

Lemma legend_numbers_match_ids_witness :
  match chartData Examples.charted with
  | Some cd =>
      map (fun pt => get pt k_id) cd
      = map (fun e => VNum (fst e)) (legend Examples.charted)
      /\ length (legend Examples.charted) = length cd
  | None => False
  end.
Proof.
  destruct (chartData Examples.charted) as [cd|] eqn:E.
  - apply (legend_numbers_match_ids Examples.charted cd E). discriminate.
  - vm_compute in E. discriminate E.
Defined.


(** *** On the rows of the filter screen *)

Lemma plottable_not_throws (sel : SearchParameter) (item : PlantData) :
  plottable sel item -> throwsOn sel item = false.
Proof.
  intros ((d & Hd) & [(n & Hn)|(str & Hs)]); unfold throwsOn;
    rewrite Hd; [rewrite Hn | rewrite Hs]; reflexivity.
Qed.

Lemma existsb_none {A : Type} (p : A -> bool) (xs : list A) :
  Forall (fun x => p x = false) xs -> existsb p xs = false.
Proof.
  induction 1 as [|x xs Hx _ IH]; [reflexivity|].
  cbn [existsb]. rewrite Hx, IH. reflexivity.
Qed.

Lemma mapi_from_opt_length {A B : Type} (f : A -> nat -> option B) (i0 : nat)
  (xs : list A) (ys : list B) :
  mapi_from_opt f i0 xs = Some ys -> length ys = length xs.
Proof.
  revert i0 ys. induction xs as [|x xs IH]; intros i0 ys H.
  - injection H as <-. reflexivity.
  - cbn [mapi_from_opt] in H. destruct (f x i0); [|discriminate].
    destruct (mapi_from_opt f (S i0) xs) eqn:E; [|discriminate].
    injection H as <-. cbn [length]. rewrite (IH _ _ E). reflexivity.
Qed.

(** X18.  On the rows the filter screen hands over, the chart component
    never throws, in any state it can get into; and once its effects have
    run on at least one row it shows the panel with one point per row on
    display, which is also its Total Records figure. *)
Theorem chart_safe_on_screen_rows (a : App.AppState) :
  (forall s,
      mountedWith (App.graphProps a) s ->
      exists r, render (App.graphProps a) s = Some r)
  /\ (App.filtered a <> [] ->
      exists r params cd stats,
        render (App.graphProps a) (effects (App.graphProps a) initial)
        = Some r
        /\ r_view r
           = Panel params
               (selectedParameter (effects (App.graphProps a) initial))
               (Some (cd, stats))
        /\ length cd = length (App.filtered a)
        /\ stat_total stats = length (App.filtered a)).
Proof.
  assert (Safe : forall s,
             mountedWith (App.graphProps a) s ->
             exists cd, chartData s = Some cd
                        /\ length cd = length (filteredData s)).
  { intros s Hm.
    destruct (ChartClaims.mountedWith_invariant _ s Hm) as (_ & Hsel & Hfd).
    rewrite availableParameters_rows in Hsel, Hfd.
    assert (Hp : Forall (plottable (selectedParameter s)) (filteredData s)).
    { destruct Hfd as [->|[-> Hin]]; [constructor|].
      cbn [App.graphProps data].
      destruct (App.filtered a) as [|r rs]; [constructor|].
      destruct Hin as [Hin|Hin]; [discriminate|].
      apply Forall_forall. intros item Hitem.
      apply in_map_iff in Hitem. destruct Hitem as (r' & <- & _).
      apply ChartClaims.plottable_toPlantData, Hin. }
    destruct (chartData s) as [cd|] eqn:E.
    - exists cd. split; [reflexivity|].
      apply (mapi_from_opt_length _ _ _ _ E).
    - exfalso. unfold chartData, mapi_opt in E.
      apply (mapi_from_opt_none _ (throwsOn (selectedParameter s))) in E;
        [|intros x i; apply chartPoint_throws].
      rewrite existsb_none in E; [discriminate|].
      eapply Forall_impl; [|exact Hp]. apply plottable_not_throws. }
  split.
  - intros s Hm. destruct (Safe s Hm) as (cd & E & _).
    unfold render. rewrite E. eexists. reflexivity.
  - intros Hne.
    assert (Hm : mountedWith (App.graphProps a)
                   (effects (App.graphProps a) initial))
      by (eapply mounted_step; [apply mounted_initial | apply step_effects]).
    destruct (Safe _ Hm) as (cd & E & L).
    assert (Hfd : filteredData (effects (App.graphProps a) initial)
                  = map App.toPlantData (App.filtered a)).
    { unfold effects, yearEffect, selectionEffect.
      cbn [App.graphProps data yearFilter initial].
      destruct (App.filtered a) as [|r rs]; [contradiction|].
      destruct (availableParameters _), (availableYears _); reflexivity. }
    unfold render. rewrite E.
    eexists. eexists. exists cd. eexists. split; [reflexivity|].
    cbn [r_view]. rewrite availableParameters_rows.
    rewrite Hfd in *. cbn [App.graphProps data].
    rewrite length_map in L.
    destruct (App.filtered a) as [|r rs]; [contradiction|].
    cbn [map]. split; [reflexivity|]. split; exact L.
Qed.

Lemma chart_safe_on_screen_rows_witness :
  (exists r, render (App.graphProps Examples.mounted) Examples.charted = Some r)
  /\ exists r params cd stats,
       render (App.graphProps Examples.mounted)
         (effects (App.graphProps Examples.mounted) initial) = Some r
       /\ r_view r
          = Panel params
              (selectedParameter
                 (effects (App.graphProps Examples.mounted) initial))
              (Some (cd, stats))
       /\ length cd = length (App.filtered Examples.mounted)
       /\ stat_total stats = length (App.filtered Examples.mounted).
Proof.
  split.
  - apply (proj1 (chart_safe_on_screen_rows Examples.mounted)
             Examples.charted).
    apply (mounted_step Examples.someRows initial).
    + apply mounted_initial.
    + apply step_effects.
  - apply (proj2 (chart_safe_on_screen_rows Examples.mounted)).
    discriminate.
Defined.

End ChartExtras.
